(** * storepablo: entitlement and inventory engine of [cde/cde/main.py]

    A shallow embedding of the Telegram bot's handlers that redeem keys
    ([key_cmd]), hand out stock ([get_cmd]), ban and unban users and
    upload stock, together with the properties of the specification that
    concern them.

    The JSON files behind [load_data]/[save_data] are the fields of the
    record [store]; a handler is a function from the store to the new store
    and the reply it sends.  The text of the replies is not modelled: a
    reply is a constructor carrying the values the message interpolates. *)

From stdpp Require Import gmap strings list pretty.
From Stdlib Require Import Ascii ZArith Lia.

Local Open Scope string_scope.
Local Open Scope list_scope.
Local Open Scope Z_scope.

(** ** Python values and builtins *)

(** [lst[:n]] and [lst[n:]] for an arbitrary integer [n]: a negative bound
    counts from the end and both are clamped to the list. *)
Definition slice_bound {A} (n : Z) (lst : list A) : nat :=
  if n <? 0 then Z.to_nat (Z.max 0 (Z.of_nat (length lst) + n))
  else Z.to_nat n.

Definition slice_to {A} (n : Z) (lst : list A) : list A :=
  take (slice_bound n lst) lst.

Definition slice_from {A} (n : Z) (lst : list A) : list A :=
  drop (slice_bound n lst) lst.

(** [len(lst)] *)
Definition len {A} (lst : list A) : Z := Z.of_nat (length lst).

(** [lst.remove(x)]: the first occurrence only. *)
Fixpoint list_remove_first (x : Z) (lst : list Z) : list Z :=
  match lst with
  | [] => []
  | y :: rest => if decide (y = x) then rest else y :: list_remove_first x rest
  end.

(** A [dict] with string keys whose iteration order matters ([stock.json],
    [cards.json]): the pairs in insertion order. *)
Definition dict (V : Type) : Type := list (string * V).

(** [d.get(k)] *)
Fixpoint dict_get {V} (k : string) (d : dict V) : option V :=
  match d with
  | [] => None
  | (k', v) :: rest => if String.eqb k' k then Some v else dict_get k rest
  end.

(** [d[k] = v]: an existing key keeps its place, a new one goes last. *)
Fixpoint dict_set {V} (k : string) (v : V) (d : dict V) : dict V :=
  match d with
  | [] => [(k, v)]
  | (k', v') :: rest =>
      if String.eqb k' k then (k', v) :: rest else (k', v') :: dict_set k v rest
  end.

(** [d.keys()] *)
Definition dict_keys {V} (d : dict V) : list string := d.*1.

(** [s.split('\n')] *)
Fixpoint split_lines (s : string) : list string :=
  match s with
  | EmptyString => [EmptyString]
  | String c rest =>
      if Ascii.eqb c "010"%char then EmptyString :: split_lines rest
      else match split_lines rest with
           | [] => [String c EmptyString]
           | line :: lines => String c line :: lines
           end
  end.

(** Truth value of a string: [if s]. *)
Definition str_truthy (s : string) : bool :=
  match s with EmptyString => false | String _ _ => true end.

(** The ASCII fragment of [str.lower], [str.strip] and [int], used only
    where a handler is run on the concrete text of an example: [lower] maps
    the letters A to Z and leaves every other character, [strip] removes
    ASCII white space, and [int] reads an optional sign followed by decimal
    digits (Python also lowers letters outside ASCII and reads digits
    grouped by underscores). The theorems are stated for any [strip],
    [lower] and [int]. *)
Module Ascii7.

Definition lower_char (c : ascii) : ascii :=
  let n := nat_of_ascii c in
  if ((65 <=? n) && (n <=? 90))%nat then ascii_of_nat (n + 32) else c.

Fixpoint lower (s : string) : string :=
  match s with
  | EmptyString => EmptyString
  | String c rest => String (lower_char c) (lower rest)
  end.

Definition is_space (c : ascii) : bool :=
  let n := nat_of_ascii c in
  (((9 <=? n) && (n <=? 13)) || ((28 <=? n) && (n <=? 32)))%nat.

Fixpoint lstrip (s : string) : string :=
  match s with
  | EmptyString => EmptyString
  | String c rest => if is_space c then lstrip rest else s
  end.

Fixpoint rstrip (s : string) : string :=
  match s with
  | EmptyString => EmptyString
  | String c rest =>
      match rstrip rest with
      | EmptyString => if is_space c then EmptyString else String c EmptyString
      | kept => String c kept
      end
  end.

Definition strip (s : string) : string := rstrip (lstrip s).

Fixpoint digits (s : string) (acc : Z) : option Z :=
  match s with
  | EmptyString => Some acc
  | String c rest =>
      let n := nat_of_ascii c in
      if ((48 <=? n) && (n <=? 57))%nat
      then digits rest (10 * acc + Z.of_nat (n - 48))
      else None
  end.

Definition int (s : string) : option Z :=
  match strip s with
  | EmptyString => None
  | String "-"%char (String _ _ as ds) => Z.opp <$> digits ds 0
  | String "+"%char (String _ _ as ds) => digits ds 0
  | ds => digits ds 0
  end.

End Ascii7.

(** ** Data model *)

(** One plan of a user: [{"nombre": ..., "max": ..., "usados": ...}]. *)
Record plan := Plan { nombre : string; max : Z; usados : Z }.

(** A record of [users.json], with the three entries that [start] and
    [key_cmd] create together and that every handler writes back; a record
    lacking one of them, for which the handlers read defaults, is not
    modelled. *)
Record user := User {
  plan_normal : plan;
  plan_tarjetas : plan;
  invalid_key_attempts : Z
}.

Inductive file_kind := photo | video | animation | text.

(** An uploaded account, [{"account": ..., "file_id": ..., "file_type": ...}];
    an uploaded card has the same shape under the key ["card"]. *)
Record item := Item {
  account : string;
  file_id : option string;
  file_type : option file_kind
}.

(** An entry of [stock.json] or [cards.json]: the old list of strings, or the
    dictionary [{"message": ..., "accounts": [...]}] ([{"message": ...,
    "cards": [...]}] for cards). *)
Inductive pool :=
  | Legacy (items : list string)
  | Rich (message : option string) (accounts : list item).

(** The seven JSON files. [users] is keyed by [str(uid)], which is one to
    one with the integer. *)
Record store := Store {
  users : gmap Z user;
  stock : dict pool;
  claves : gmap string (string * Z);
  banned_users : list Z;
  admins : list Z;
  cards : dict pool;
  card_keys : gmap string (string * Z)
}.

(** [save_data(DB_..., value)] *)
Definition save_users (v : gmap Z user) (st : store) : store :=
  Store v (stock st) (claves st) (banned_users st) (admins st) (cards st) (card_keys st).
Definition save_stock (v : dict pool) (st : store) : store :=
  Store (users st) v (claves st) (banned_users st) (admins st) (cards st) (card_keys st).
Definition save_claves (v : gmap string (string * Z)) (st : store) : store :=
  Store (users st) (stock st) v (banned_users st) (admins st) (cards st) (card_keys st).
Definition save_bans (v : list Z) (st : store) : store :=
  Store (users st) (stock st) (claves st) v (admins st) (cards st) (card_keys st).
Definition save_cards (v : dict pool) (st : store) : store :=
  Store (users st) (stock st) (claves st) (banned_users st) (admins st) v (card_keys st).
Definition save_card_keys (v : gmap string (string * Z)) (st : store) : store :=
  Store (users st) (stock st) (claves st) (banned_users st) (admins st) (cards st) v.

Definition set_plan_normal (p : plan) (u : user) : user :=
  User p (plan_tarjetas u) (invalid_key_attempts u).
Definition set_plan_tarjetas (p : plan) (u : user) : user :=
  User (plan_normal u) p (invalid_key_attempts u).
Definition set_invalid_key_attempts (n : Z) (u : user) : user :=
  User (plan_normal u) (plan_tarjetas u) n.
Definition set_usados (n : Z) (p : plan) : plan :=
  Plan (nombre p) (max p) n.

Definition sin_plan : plan := Plan "Sin plan" 0 0.
Definition new_user : user := User sin_plan sin_plan 0.

(** The two kinds of plan, key and stock. *)
Inductive kind := Normal | Tarjetas.

(** What a handler sends back. *)
Inductive reply :=
  | Silent
  | BannedNotice
  | Unauthorized
  | KeyUsage
  | PlanAlreadyActive (k : kind)
  | Activated (k : kind) (plan_name : string) (maxi : Z)
  | Banned
  | InvalidKey (remaining : Z)
  | GetUsage
  | NotANumber
  | NoActivePlan
  | NeedKey (k : kind)
  | AccessesLeft (k : kind) (disp : Z)
  | NoStock (k : kind) (sitio : string)
  | NoSuchStock (sitio : string)
  | SentItems (k : kind) (sitio : string) (sent : list item)
              (usage_message : string) (used maxi : Z)
  | SentList (k : kind) (sitio : string) (cant : Z) (sent : list string)
             (used maxi : Z)
  | NotAnId
  | AlreadyBanned
  | BanDone (uid : Z)
  | NotBanned
  | UnbanDone (uid : Z)
  | AskSite
  | AskMessage
  | AskAccounts
  | NeedCaption
  | NeedOneAccount
  | AccountsAdded (n : Z)
  | AccountAdded (file_type : option file_kind)
  | NothingAdded
  | Uploaded (n : Z) (site : string)
  | Cancelled.

(** The part of a Telegram update that the command and id handlers read. *)
Record update := Update {
  effective_user : option Z;
  args : list string;
  message_text : string
}.

(** The part of [update.message] that [receive_accounts] reads; [msg_photo]
    holds the file ids of the photo sizes. *)
Record message := Message {
  msg_text : option string;
  msg_caption : option string;
  msg_photo : list string;
  msg_video : option string;
  msg_animation : option string
}.

(** The entries of [ctx.user_data] that the upload of accounts uses. *)
Record context := Context {
  stock_site : option string;
  stock_message : option string;
  temp_accounts : option (list item)
}.

(** The conversation states the modelled handlers return. *)
Inductive conv_state :=
  | AWAITING_STOCK_SITE
  | AWAITING_STOCK_MESSAGE
  | AWAITING_STOCK_ACCOUNTS
  | AWAITING_USER_ID_TO_BAN
  | AWAITING_USER_ID_TO_UNBAN
  | END.

(** What reaches a [ConversationHandler]: a button, a command, or a message
    that is not a command. *)
Inductive event :=
  | Callback (data : string)
  | Command (name : string)
  | Incoming (m : message).

(** [a or b] on optional strings. *)
Definition str_or (a b : option string) : option string :=
  match a with
  | Some s => if str_truthy s then a else b
  | None => b
  end.

Definition opt_truthy (a : option string) : bool :=
  match a with Some s => str_truthy s | None => false end.

(** [if cuentas_disponibles:] for the value of [stock.get(key)]: [None] and
    an empty list are false; a non-empty list is true, and so is an uploaded
    dictionary, which always has entries. The result is the pool when it is
    true. *)
Definition truthy_pool (p : option pool) : option pool :=
  match p with
  | Some (Legacy []) => None
  | other => other
  end.

Definition is_sin_plan (p : plan) : bool := String.eqb (nombre p) "Sin plan".

Definition is_nil {A} (lst : list A) : bool :=
  match lst with [] => true | _ :: _ => false end.

(** The id that [ADMIN] takes when [ADMIN_ID] is not set. *)
Definition ADMIN_default : Z := 7590578210.

(** ** Sample data for the examples *)

Definition plata : plan := Plan "Plata 2" 2 0.
Definition oro : plan := Plan "Oro 3" 3 0.
Definition tarjetas5 : plan := Plan "Plan Tarjetas" 5 0.

Definition line_break : string := String "010"%char EmptyString.

Definition cuenta (s : string) : item := Item s None (Some text).

(** User 5 has two uses of accounts left, user 6 has both plans, user 7 has
    no record; "netflix" is an old list, "hbo" an uploaded batch. *)
Definition sample_store : store :=
  Store {[ 5 := User plata sin_plan 0; 6 := User oro tarjetas5 0 ]}
        [("netflix", Legacy ["a"; "b"; "c"]);
         ("hbo", Rich (Some "usar VPN") [cuenta "h1"; cuenta "h2"])]
        {[ "good" := ("Oro 3", 3) ]}
        []
        []
        [("visa", Legacy ["v1"; "v2"])]
        {[ "card" := ("Plan Tarjetas", 1) ]}.

(** The accounts of "netflix" ran out and a bank has the same name. *)
Definition drained_store : store :=
  Store {[ 6 := User oro tarjetas5 0 ]}
        [("netflix", Legacy [])]
        ∅ [] []
        [("netflix", Legacy ["c1"])]
        ∅.

(** User 9 is banned, and so is the super-admin. *)
Definition banned_store : store :=
  Store {[ 9 := User plata sin_plan 3 ]} [] {[ "good" := ("Oro 3", 3) ]}
        [9; ADMIN_default] [8] [] ∅.

Definition key_update (uid : Z) (clave : string) : update :=
  Update (Some uid) [clave] ("/key " +:+ clave).

Definition get_update (uid : Z) (sitio cant : string) : update :=
  Update (Some uid) [sitio; cant] ("/get " +:+ sitio +:+ " " +:+ cant).

Definition id_update (uid : Z) (id_text : string) : update :=
  Update (Some uid) [] id_text.

(** ** The other handlers: messages, states and endings *)

(** What the handlers other than [/key], [/get], the bans and the upload of
    accounts send. [Welcome] tells whether the button of the admin panel is
    shown; [NewUserNotice] is the message to the super-admin about a user
    seen for the first time. *)
Inductive notice :=
  | BanNotice
  | NoAutorizado
  | Welcome (uid : Z) (panel : bool)
  | NewUserNotice (uid : Z)
  | KeysGenerated (keys : list (string * string))
  | SuperProKey (key plan_name : string) (max_uses : Z)
  | CardsKey (key plan_name : string) (max_uses : Z)
  | RevokeNotAnId
  | RevokeUnknownUser
  | RevokeDone (user_id : Z)
  | PlanRemoved (user_id : Z)
  | AdminNotAnId
  | AlreadyAdmin
  | Promoted (user_id : Z)
  | NotAnAdmin
  | SuperAdminStays
  | Demoted (user_id : Z)
  | BroadcastStarted (total_users : Z)
  | BroadcastUnsupported
  | BroadcastSent (user_id : Z)
  | BroadcastDone (total_sent total_failed : Z)
  | NoUsers
  | UsersHeader
  | UsersChunk (lines : list string)
  | NoStockListed
  | StockListed (counts : list (string * Z))
  | AskBank
  | AskCardsMessage
  | AskCards
  | NeedCardCaption
  | NeedOneCard
  | CardsAdded (n : Z)
  | CardAdded (file_type : option file_kind)
  | NoCardsAdded
  | CardsUploaded (n : Z) (site : string)
  | CancelledNotice.

(** The entries of [ctx.user_data] that the upload of cards uses. *)
Record cards_context := CardsContext {
  cards_site : option string;
  cards_message : option string;
  temp_cards : option (list item)
}.

Definition AWAITING_CARDS_SITE : Z := 4.
Definition AWAITING_CARDS_MESSAGE : Z := 5.
Definition AWAITING_CARDS_ACCOUNTS : Z := 6.

(** How a handler ends: it returns a state of its conversation (or nothing),
    or it stops on a name that is not defined. *)
Inductive ending :=
  | Return (state : option Z)
  | NameError (name : string).

Definition outcome : Type := store * list notice * ending.

(** The states as numbered by [range(12)], and [ConversationHandler.END]. *)
Definition AWAITING_USER_ID_TO_REVOKE : Z := 0.
Definition AWAITING_ADMIN_ID : Z := 7.
Definition AWAITING_REMOVE_ADMIN_ID : Z := 8.
Definition BROADCAST_CONTENT : Z := 9.
Definition ConversationHandler_END : Z := -1.

Definition save_admins (v : list Z) (st : store) : store :=
  Store (users st) (stock st) (claves st) (banned_users st) v (cards st) (card_keys st).

(** [planes] of [gen_cmd]. *)
Definition planes : list (Z * string) :=
  [(1, "Bronce 1"); (2, "Plata 2"); (3, "Oro 3"); (4, "Diamante 4")].

(** The three shapes of key, around the 16 random characters. *)
Definition gen_key (usos : Z) (codigo_unico : string) : string :=
  "paublte-gen" +:+ pretty usos +:+ "-" +:+ codigo_unico.
Definition superpro_key (codigo_unico : string) : string :=
  "paublte-superpro-" +:+ codigo_unico.
Definition tarjeta_key (codigo_unico : string) : string :=
  "paublte-tarjeta-" +:+ codigo_unico.

(** [range(0, stop, step)] *)
Fixpoint range_from (fuel start stop step : nat) : list nat :=
  match fuel with
  | O => []
  | S fuel => if (start <? stop)%nat then start :: range_from fuel (start + step) stop step
              else []
  end.
Definition range_step (stop step : nat) : list nat := range_from stop 0 stop step.

(** [[lines[i:i + chunk_size] for i in range(0, len(lines), chunk_size)]] of
    [users_cmd]. *)
Definition chunks_of (chunk_size : nat) (lines : list string) : list (list string) :=
  (λ i, take chunk_size (drop i lines)) <$> range_step (length lines) chunk_size.

(** The end of [users_cmd], once the lines of the users are there. *)
Definition users_cmd_send (lines : list string) : list notice :=
  let chunk_size := 10%nat in
  let chunks := chunks_of chunk_size lines in
  if is_nil chunks then [NoUsers]
  else UsersHeader :: (UsersChunk <$> chunks).

(** [show_cuentas_stock] and [show_cards_stock]: a line per entry with the
    number of its items. *)
Definition stock_counts (d : dict pool) : list (string * Z) :=
  (λ '(site, data),
     (site, match data with
            | Legacy items => len items
            | Rich _ accounts => len accounts
            end)) <$> d.

Definition show_stock (d : dict pool) : notice :=
  if is_nil d then NoStockListed else StockListed (stock_counts d).

Definition show_cuentas_stock (st : store) : notice := show_stock (stock st).
Definition show_cards_stock (st : store) : notice := show_stock (cards st).

(** User 5 has spent both uses of the plan. *)
Definition spent_store : store :=
  save_users (<[ 5 := User (Plan "Plata 2" 2 2) sin_plan 0 ]> (users sample_store))
             sample_store.

(** More sample data: an empty shop with user 6, and messages of an upload. *)
Definition fresh_store : store :=
  Store {[ 6 := User sin_plan sin_plan 0 ]} [] ∅ [] [] [] ∅.

Definition two_accounts : message :=
  Message (Some ("acc1" +:+ line_break +:+ "acc2")) None [] None None.

Definition eleven_lines : list string :=
  ["u1"; "u2"; "u3"; "u4"; "u5"; "u6"; "u7"; "u8"; "u9"; "u10"; "u11"].


(** ** The handlers *)

Section Bot.

(** [ADMIN = int(os.environ.get("ADMIN_ID", 7590578210))] *)
Variable ADMIN : Z.

(** The builtins [str.strip], [str.lower] and [int] ([None] for a
    [ValueError]). *)
Variable strip : string -> string.
Variable lower : string -> string.
Variable int : string -> option Z.

Definition is_banned (st : store) (user_id : Z) : bool :=
  bool_decide (user_id ∈ banned_users st).

Definition is_admin (st : store) (user_id : Z) : bool :=
  (user_id =? ADMIN) || bool_decide (user_id ∈ admins st).

(** A handler body receives the id that the decorator read from
    [update.effective_user]. *)
Definition handler : Type := Z -> update -> store -> store * reply.

(** [@check_ban] *)
Definition check_ban (func : handler) (upd : update) (st : store) : store * reply :=
  match effective_user upd with
  | None => (st, Silent)
  | Some user_id =>
      if user_id =? 0 then (st, Silent)
      else if negb (user_id =? ADMIN) && is_banned st user_id then (st, BannedNotice)
      else func user_id upd st
  end.

(** The body of [key_cmd]. *)
Definition key_cmd_body (uid : Z) (upd : update) (st : store) : store * reply :=
  match args upd with
  | [] => (st, KeyUsage)
  | arg0 :: _ =>
      let clave := strip arg0 in
      let claves := claves st in
      let card_keys := card_keys st in
      let banned_users := banned_users st in
      let user_data := default new_user (users st !! uid) in
      let users := <[uid := user_data]> (users st) in
      let st := save_users users st in
      match claves !! clave with
      | Some (plan, maxi) =>
          if negb (is_sin_plan (plan_normal user_data))
             && (usados (plan_normal user_data) <? max (plan_normal user_data))
          then (st, PlanAlreadyActive Normal)
          else
            let st := save_claves (delete clave claves) st in
            let user_data := set_plan_normal (Plan plan maxi 0) user_data in
            (save_users (<[uid := user_data]> users) st, Activated Normal plan maxi)
      | None =>
          match card_keys !! clave with
          | Some (plan, maxi) =>
              if negb (is_sin_plan (plan_tarjetas user_data))
                 && (usados (plan_tarjetas user_data) <? max (plan_tarjetas user_data))
              then (st, PlanAlreadyActive Tarjetas)
              else
                let st := save_card_keys (delete clave card_keys) st in
                let user_data := set_plan_tarjetas (Plan plan maxi 0) user_data in
                (save_users (<[uid := user_data]> users) st, Activated Tarjetas plan maxi)
          | None =>
              let attempts := invalid_key_attempts user_data + 1 in
              let user_data := set_invalid_key_attempts attempts user_data in
              let st := save_users (<[uid := user_data]> users) st in
              if 3 <=? attempts then
                let st :=
                  if bool_decide (uid ∈ banned_users) then st
                  else save_bans (banned_users ++ [uid]) st in
                (st, Banned)
              else (st, InvalidKey (3 - attempts))
          end
      end
  end.

Definition key_cmd : update -> store -> store * reply := check_ban key_cmd_body.

(** The loop [for key in d.keys(): if key.lower() == sitio: ...; break] of
    [get_cmd]: the pool found, and [sitio] as the loop leaves it. *)
Definition find_site (d : dict pool) (sitio : string) : option pool * string :=
  match List.find (fun key => String.eqb (lower key) sitio) (dict_keys d) with
  | Some key => (dict_get key d, key)
  | None => (None, sitio)
  end.

(** [get_cmd] once a true pool of accounts was found under [sitio]. *)
Definition get_cmd_cuentas (uid cant : Z) (user_data : user) (sitio : string)
    (cuentas_disponibles : pool) (st : store) : store * reply :=
  let plan_normal := plan_normal user_data in
  if is_sin_plan plan_normal then (st, NeedKey Normal)
  else
    let disp := max plan_normal - usados plan_normal in
    if disp <? cant then (st, AccessesLeft Normal disp)
    else
      match cuentas_disponibles with
      | Rich message accounts_list =>
          let usage_message := default "" message in
          if is_nil accounts_list || (len accounts_list <? cant)
          then (st, NoStock Normal sitio)
          else
            let cuentas_a_enviar := slice_to cant accounts_list in
            let stock := dict_set sitio (Rich message (slice_from cant accounts_list)) (stock st) in
            if is_nil cuentas_a_enviar then (st, NoStock Normal sitio)
            else
              let plan_normal := set_usados (usados plan_normal + cant) plan_normal in
              let users := <[uid := set_plan_normal plan_normal user_data]> (users st) in
              (save_users users (save_stock stock st),
               SentItems Normal sitio cuentas_a_enviar usage_message
                         (usados plan_normal) (max plan_normal))
      | Legacy items =>
          if is_nil items || (len items <? cant)
          then (st, NoStock Normal sitio)
          else
            let cuentas := slice_to cant items in
            let stock := dict_set sitio (Legacy (slice_from cant items)) (stock st) in
            let plan_normal := set_usados (usados plan_normal + cant) plan_normal in
            let users := <[uid := set_plan_normal plan_normal user_data]> (users st) in
            (save_users users (save_stock stock st),
             SentList Normal sitio cant cuentas (usados plan_normal) (max plan_normal))
      end.

(** [get_cmd] once a true pool of cards was found under [sitio]. *)
Definition get_cmd_tarjetas (uid cant : Z) (user_data : user) (sitio : string)
    (tarjetas_disponibles : pool) (st : store) : store * reply :=
  let plan_tarjetas := plan_tarjetas user_data in
  if is_sin_plan plan_tarjetas then (st, NeedKey Tarjetas)
  else
    let disp := max plan_tarjetas - usados plan_tarjetas in
    if disp <? cant then (st, AccessesLeft Tarjetas disp)
    else
      match tarjetas_disponibles with
      | Rich message card_list =>
          let usage_message := default "" message in
          if is_nil card_list || (len card_list <? cant)
          then (st, NoStock Tarjetas sitio)
          else
            let tarjetas_a_enviar := slice_to cant card_list in
            let cards := dict_set sitio (Rich message (slice_from cant card_list)) (cards st) in
            let plan_tarjetas := set_usados (usados plan_tarjetas + cant) plan_tarjetas in
            let users := <[uid := set_plan_tarjetas plan_tarjetas user_data]> (users st) in
            (save_users users (save_cards cards st),
             SentItems Tarjetas sitio tarjetas_a_enviar usage_message
                       (usados plan_tarjetas) (max plan_tarjetas))
      | Legacy items =>
          if is_nil items || (len items <? cant)
          then (st, NoStock Tarjetas sitio)
          else
            let tarjetas := slice_to cant items in
            let cards := dict_set sitio (Legacy (slice_from cant items)) (cards st) in
            let plan_tarjetas := set_usados (usados plan_tarjetas + cant) plan_tarjetas in
            let users := <[uid := set_plan_tarjetas plan_tarjetas user_data]> (users st) in
            (save_users users (save_cards cards st),
             SentList Tarjetas sitio cant tarjetas (usados plan_tarjetas) (max plan_tarjetas))
      end.

(** The body of [get_cmd]. *)
Definition get_cmd_body (uid : Z) (upd : update) (st : store) : store * reply :=
  match args upd with
  | arg0 :: arg1 :: _ =>
      let sitio := lower (strip arg0) in
      match int arg1 with
      | None => (st, NotANumber)
      | Some cant =>
          match users st !! uid with
          | None => (st, NoActivePlan)
          | Some user_data =>
              if is_sin_plan (plan_normal user_data) && is_sin_plan (plan_tarjetas user_data)
              then (st, NoActivePlan)
              else
                let '(cuentas_disponibles, sitio) := find_site (stock st) sitio in
                match truthy_pool cuentas_disponibles with
                | Some cuentas_disponibles =>
                    get_cmd_cuentas uid cant user_data sitio cuentas_disponibles st
                | None =>
                    let '(tarjetas_disponibles, sitio) := find_site (cards st) sitio in
                    match truthy_pool tarjetas_disponibles with
                    | Some tarjetas_disponibles =>
                        get_cmd_tarjetas uid cant user_data sitio tarjetas_disponibles st
                    | None => (st, NoSuchStock sitio)
                    end
                end
          end
      end
  | _ => (st, GetUsage)
  end.

Definition get_cmd : update -> store -> store * reply := check_ban get_cmd_body.

(** [@check_admin] on a handler of a conversation; [None] is the state of a
    call that the decorator turned away. *)
Definition check_admin (func : Z -> update -> store -> store * reply * conv_state)
    (upd : update) (st : store) : store * reply * option conv_state :=
  match effective_user upd with
  | None => (st, Silent, None)
  | Some user_id =>
      if user_id =? 0 then (st, Silent, None)
      else if negb (is_admin st user_id) then (st, Unauthorized, None)
      else let '(st, r, state) := func user_id upd st in (st, r, Some state)
  end.

(** The body of [ban_user_end]. *)
Definition ban_user_end_body (uid : Z) (upd : update) (st : store)
    : store * reply * conv_state :=
  match int (message_text upd) with
  | None => (st, NotAnId, AWAITING_USER_ID_TO_BAN)
  | Some user_id_to_ban =>
      let banned_users := banned_users st in
      if bool_decide (user_id_to_ban ∈ banned_users) then (st, AlreadyBanned, END)
      else (save_bans (banned_users ++ [user_id_to_ban]) st, BanDone user_id_to_ban, END)
  end.

Definition ban_user_end := check_admin ban_user_end_body.

(** The body of [unban_user_end]. *)
Definition unban_user_end_body (uid : Z) (upd : update) (st : store)
    : store * reply * conv_state :=
  match int (message_text upd) with
  | None => (st, NotAnId, AWAITING_USER_ID_TO_UNBAN)
  | Some user_id_to_unban =>
      let banned_users := banned_users st in
      if negb (bool_decide (user_id_to_unban ∈ banned_users)) then (st, NotBanned, END)
      else
        let st := save_bans (list_remove_first user_id_to_unban banned_users) st in
        let users := users st in
        let st :=
          match users !! user_id_to_unban with
          | Some user_data =>
              save_users (<[user_id_to_unban := set_invalid_key_attempts 0 user_data]> users) st
          | None => st
          end in
        (st, UnbanDone user_id_to_unban, END)
  end.

Definition unban_user_end := check_admin unban_user_end_body.

(** *** Uploading accounts *)

Definition start_add_stock : reply * conv_state := (AskSite, AWAITING_STOCK_SITE).

Definition get_stock_site (m : message) (ctx : context) : context * reply * conv_state :=
  let site := lower (strip (default "" (msg_text m))) in
  (Context (Some site) (stock_message ctx) (temp_accounts ctx),
   AskMessage, AWAITING_STOCK_MESSAGE).

Definition get_stock_message (m : message) (ctx : context) : context * reply * conv_state :=
  let message := strip (default "" (msg_text m)) in
  (Context (stock_site ctx) (Some message) (Some []), AskAccounts, AWAITING_STOCK_ACCOUNTS).

(** [receive_accounts]; [None] is the [KeyError] of a context without
    ["temp_accounts"]. *)
Definition receive_accounts (m : message) (ctx : context)
    : option (context * reply * conv_state) :=
  let caption := str_or (msg_caption m) (msg_text m) in
  let '(file_id, file_type) :=
    match last (msg_photo m) with
    | Some f => (Some f, Some photo)
    | None =>
        match msg_video m with
        | Some f => (Some f, Some video)
        | None =>
            match msg_animation m with
            | Some f => (Some f, Some animation)
            | None => if opt_truthy (msg_text m) then (None, Some text) else (None, None)
            end
        end
    end in
  if negb (opt_truthy caption) then Some (ctx, NeedCaption, AWAITING_STOCK_ACCOUNTS)
  else
    let caption := default "" caption in
    match file_type with
    | Some text =>
        let accounts := List.filter str_truthy (strip <$> split_lines caption) in
        if is_nil accounts then Some (ctx, NeedOneAccount, AWAITING_STOCK_ACCOUNTS)
        else
          temp ← temp_accounts ctx;
          let temp := temp ++ ((fun acc => Item acc None (Some text)) <$> accounts) in
          Some (Context (stock_site ctx) (stock_message ctx) (Some temp),
                AccountsAdded (len accounts), AWAITING_STOCK_ACCOUNTS)
    | _ =>
        temp ← temp_accounts ctx;
        let temp := temp ++ [Item (strip caption) file_id file_type] in
        Some (Context (stock_site ctx) (stock_message ctx) (Some temp),
              AccountAdded file_type, AWAITING_STOCK_ACCOUNTS)
    end.

(** [finish_add_stock]; [None] when a non-empty batch has no site or no
    message in the context, where Python would write [null] to the file. *)
Definition finish_add_stock (ctx : context) (st : store)
    : option (store * reply * conv_state) :=
  let site := stock_site ctx in
  let message := stock_message ctx in
  let accounts_to_add := default [] (temp_accounts ctx) in
  if is_nil accounts_to_add then Some (st, NothingAdded, END)
  else
    site ← site;
    message ← message;
    let stock := dict_set site (Rich (Some message) accounts_to_add) (stock st) in
    Some (save_stock stock st, Uploaded (len accounts_to_add) site, END).

Definition cancel_conv : reply * conv_state := (Cancelled, END).

(** [conv_handler_add_stock] of [main]: the entry point, the handlers of
    each state in their order, and the fallback. The state of a user
    outside the conversation is [None]; an update that no handler takes
    changes nothing, and [END] leaves the conversation. *)
Definition leave (state : conv_state) : option conv_state :=
  match state with END => None | other => Some other end.

Definition conv_handler_add_stock (state : option conv_state) (ev : event)
    (ctx : context) (st : store)
    : option (option conv_state * context * store * list reply) :=
  match state, ev with
  | None, Callback "addstock_start" =>
      let '(r, state) := start_add_stock in Some (leave state, ctx, st, [r])
  | None, _ => Some (None, ctx, st, [])
  | Some AWAITING_STOCK_SITE, Incoming m =>
      if opt_truthy (msg_text m) then
        let '(ctx, r, state) := get_stock_site m ctx in Some (leave state, ctx, st, [r])
      else Some (state, ctx, st, [])
  | Some AWAITING_STOCK_MESSAGE, Incoming m =>
      if opt_truthy (msg_text m) then
        let '(ctx, r, state) := get_stock_message m ctx in Some (leave state, ctx, st, [r])
      else Some (state, ctx, st, [])
  | Some AWAITING_STOCK_ACCOUNTS, Incoming m =>
      '(ctx, r, state) ← receive_accounts m ctx;
      Some (leave state, ctx, st, [r])
  | Some AWAITING_STOCK_ACCOUNTS, Command "done" =>
      '(st, r, state) ← finish_add_stock ctx st;
      Some (leave state, ctx, st, [r])
  | Some _, Command "cancel" =>
      let '(r, state) := cancel_conv in Some (leave state, ctx, st, [r])
  | Some _, _ => Some (state, ctx, st, [])
  end.

(** A user's updates, one after the other. *)
Fixpoint run_add_stock (evs : list event) (state : option conv_state)
    (ctx : context) (st : store) : option (option conv_state * context * store) :=
  match evs with
  | [] => Some (state, ctx, st)
  | ev :: rest =>
      '(state, ctx, st, _) ← conv_handler_add_stock state ev ctx st;
      run_add_stock rest state ctx st
  end.

(** *** Sequences of user requests *)

(** A request of a user: [/key] or [/get]. *)
Inductive op :=
  | Redeem (upd : update)
  | Fetch (upd : update).

Definition step (o : op) (st : store) : store * reply :=
  match o with
  | Redeem upd => key_cmd upd st
  | Fetch upd => get_cmd upd st
  end.

Fixpoint run (ops : list op) (st : store) : store * list reply :=
  match ops with
  | [] => (st, [])
  | o :: rest =>
      let '(st, r) := step o st in
      let '(st, rs) := run rest st in
      (st, r :: rs)
  end.

(** *** Vocabulary of the statements *)

(** The decorator [check_ban] lets [user_id] through. *)
Definition admitted (st : store) (user_id : Z) : Prop :=
  user_id ≠ 0 ∧ (user_id = ADMIN ∨ user_id ∉ banned_users st).

(** The counter of a user, 0 for one without a record. *)
Definition attempts_of (st : store) (uid : Z) : Z :=
  invalid_key_attempts (default new_user (users st !! uid)).

(** An update that redeems a key unknown to the store [st]. *)
Definition unknown_key_update (st : store) (uid : Z) (upd : update) : Prop :=
  effective_user upd = Some uid ∧
  ∃ arg0 rest, args upd = arg0 :: rest ∧
    claves st !! strip arg0 = None ∧ card_keys st !! strip arg0 = None.

(** A plan that is active and has uses left. *)
Definition has_balance (p : plan) : Prop :=
  nombre p ≠ "Sin plan" ∧ 0 < max p - usados p.

(** The reply of the branch of [key_cmd] for an unknown key, by the new
    value of the counter. *)
Definition invalid_key_reply (attempts : Z) : reply :=
  if 3 <=? attempts then Banned else InvalidKey (3 - attempts).

Definition is_activation (r : reply) : bool :=
  match r with Activated _ _ _ => true | _ => false end.

Definition is_delivery (r : reply) : bool :=
  match r with
  | SentItems _ _ _ _ _ _ | SentList _ _ _ _ _ _ => true
  | _ => false
  end.

Definition pool_size (p : pool) : Z :=
  match p with Legacy items => len items | Rich _ accounts => len accounts end.

(** The pool without its first [n] items. *)
Definition pool_drop (n : nat) (p : pool) : pool :=
  match p with
  | Legacy items => Legacy (drop n items)
  | Rich message accounts => Rich message (drop n accounts)
  end.

(** The message that hands out the first [cant] items of a pool. *)
Definition delivery (k : kind) (sitio : string) (cant : Z) (p : pool)
    (used maxi : Z) : reply :=
  match p with
  | Legacy items => SentList k sitio cant (take (Z.to_nat cant) items) used maxi
  | Rich message accounts =>
      SentItems k sitio (take (Z.to_nat cant) accounts) (default "" message) used maxi
  end.

(** [usados <= max] on both plans of every user. *)
Definition plans_ok (st : store) : Prop :=
  ∀ uid u, users st !! uid = Some u →
    usados (plan_normal u) <= max (plan_normal u) ∧
    usados (plan_tarjetas u) <= max (plan_tarjetas u).

(** Every key grants a number of uses that is not negative. *)
Definition keys_ok (st : store) : Prop :=
  ∀ k name maxi,
    claves st !! k = Some (name, maxi) ∨ card_keys st !! k = Some (name, maxi) →
    0 <= maxi.

(** What one message adds to an empty batch. *)
Definition turn_accounts (m : message) : list item :=
  match receive_accounts m (Context None None (Some [])) with
  | Some (ctx, _, _) => default [] (temp_accounts ctx)
  | None => []
  end.

Definition text_message (s : string) : message :=
  Message (Some s) None [] None None.

(** *** Both kinds of stock at once *)

Definition plan_of (k : kind) (u : user) : plan :=
  match k with Normal => plan_normal u | Tarjetas => plan_tarjetas u end.

Definition set_plan_of (k : kind) (p : plan) (u : user) : user :=
  match k with Normal => set_plan_normal p u | Tarjetas => set_plan_tarjetas p u end.

(** [stock.json] for accounts, [cards.json] for cards. *)
Definition pools (k : kind) (st : store) : dict pool :=
  match k with Normal => stock st | Tarjetas => cards st end.

Definition save_pools (k : kind) (d : dict pool) (st : store) : store :=
  match k with Normal => save_stock d st | Tarjetas => save_cards d st end.

(** The pool that [/get] writes back after cutting [cant] items. *)
Definition pool_slice_from (cant : Z) (p : pool) : pool :=
  match p with
  | Legacy items => Legacy (slice_from cant items)
  | Rich message accounts => Rich message (slice_from cant accounts)
  end.

(** The store and the reply of a [/get] that hands out items of the pool
    [p] stored under [key], for any integer [cant]. *)
Definition deliver (k : kind) (uid cant : Z) (u : user) (key : string) (p : pool)
    (st : store) : store * reply :=
  let pl := plan_of k u in
  (save_users (<[uid := set_plan_of k (set_usados (usados pl + cant) pl) u]> (users st))
     (save_pools k (dict_set key (pool_slice_from cant p) (pools k st)) st),
   match p with
   | Legacy items => SentList k key cant (slice_to cant items) (usados pl + cant) (max pl)
   | Rich message accounts =>
       SentItems k key (slice_to cant accounts) (default "" message)
                 (usados pl + cant) (max pl)
   end).

(** The user a request comes from. *)
Definition op_update (o : op) : update :=
  match o with Redeem upd => upd | Fetch upd => upd end.

(** The number of items a reply hands out. *)
Definition sent_count (r : reply) : Z :=
  match r with
  | SentItems _ _ sent _ _ _ => len sent
  | SentList _ _ _ sent _ _ => len sent
  | _ => 0
  end.

(** *** The other handlers *)

(** The three decorators on a handler that answers with notices: an update
    without a user is dropped, a user who fails the test gets the refusal. *)
Definition guarded (allowed : Z → bool) (refusal : notice)
    (func : Z → update → store → outcome) (upd : update) (st : store) : outcome :=
  match effective_user upd with
  | None => (st, [], Return None)
  | Some user_id =>
      if user_id =? 0 then (st, [], Return None)
      else if negb (allowed user_id) then (st, [refusal], Return None)
      else func user_id upd st
  end.

Definition check_ban_on (func : Z → update → store → outcome) (upd : update)
    (st : store) : outcome :=
  guarded (λ user_id, negb (negb (user_id =? ADMIN) && is_banned st user_id))
    BanNotice func upd st.

Definition check_admin_on (func : Z → update → store → outcome) (upd : update)
    (st : store) : outcome :=
  guarded (is_admin st) NoAutorizado func upd st.

Definition check_super_admin (func : Z → update → store → outcome) (upd : update)
    (st : store) : outcome :=
  guarded (λ user_id, user_id =? ADMIN) NoAutorizado func upd st.

(** The body of [start]. *)
Definition start_body (uid : Z) (upd : update) (st : store) : outcome :=
  let users := users st in
  let is_new_user := false in
  let '(users, st, is_new_user) :=
    match users !! uid with
    | None =>
        let users := <[uid := new_user]> users in
        (users, save_users users st, false)
    | Some _ => (users, st, is_new_user)
    end in
  let user_data := default new_user (users !! uid) in
  let users := <[uid := user_data]> users in
  let st := save_users users st in
  (st,
   (if is_new_user && negb (uid =? ADMIN) then [NewUserNotice uid] else [])
     ++ [Welcome uid (is_admin st uid)],
   Return None).

Definition start := check_ban_on start_body.

(** The body of [gen_cmd]; [codigo i] is the random code of the plan
    number [i]. *)
Definition gen_cmd_body (codigo : nat → string) (uid : Z) (upd : update)
    (st : store) : outcome :=
  let keys := imap (λ i '(usos, nombre), (gen_key usos (codigo i), (nombre, usos))) planes in
  let claves := fold_left (λ claves '(key, v), <[key := v]> claves) keys (claves st) in
  (save_claves claves st, [KeysGenerated ((λ '(key, (nombre, _)), (key, nombre)) <$> keys)],
   Return None).

Definition gen_cmd (codigo : nat → string) := check_admin_on (gen_cmd_body codigo).

(** The body of [super_pro_key_cmd]. *)
Definition super_pro_key_cmd_body (codigo_unico : string) (uid : Z) (upd : update)
    (st : store) : outcome :=
  let key := superpro_key codigo_unico in
  let plan_name := "SuperPro" in
  let max_uses := 1000 in
  (save_claves (<[key := (plan_name, max_uses)]> (claves st)) st,
   [SuperProKey key plan_name max_uses], Return None).

Definition super_pro_key_cmd (codigo_unico : string) :=
  check_admin_on (super_pro_key_cmd_body codigo_unico).

(** The body of [gen_cards_key_cmd]. *)
Definition gen_cards_key_cmd_body (codigo_unico : string) (uid : Z) (upd : update)
    (st : store) : outcome :=
  let key := tarjeta_key codigo_unico in
  let plan_name := "Plan Tarjetas" in
  let max_uses := 1 in
  (save_card_keys (<[key := (plan_name, max_uses)]> (card_keys st)) st,
   [CardsKey key plan_name max_uses], Return None).

Definition gen_cards_key_cmd (codigo_unico : string) :=
  check_admin_on (gen_cards_key_cmd_body codigo_unico).

(** The body of [revoke_premium_end]. The name it returns after a text that
    is not a number is defined nowhere in the file. *)
Definition revoke_premium_end_body (uid : Z) (upd : update) (st : store) : outcome :=
  match int (message_text upd) with
  | None => (st, [RevokeNotAnId], NameError "AWAITING_ID_TO_REVOKE")
  | Some user_id_to_revoke =>
      let users := users st in
      match users !! user_id_to_revoke with
      | None => (st, [RevokeUnknownUser], Return (Some ConversationHandler_END))
      | Some user_data =>
          let user_data := set_plan_normal sin_plan user_data in
          let user_data := set_plan_tarjetas sin_plan user_data in
          (save_users (<[user_id_to_revoke := user_data]> users) st,
           [RevokeDone user_id_to_revoke; PlanRemoved user_id_to_revoke],
           Return (Some ConversationHandler_END))
      end
  end.

Definition revoke_premium_end := check_admin_on revoke_premium_end_body.

(** The body of [add_admin_end]. *)
Definition add_admin_end_body (uid : Z) (upd : update) (st : store) : outcome :=
  match int (message_text upd) with
  | None => (st, [AdminNotAnId], Return (Some AWAITING_ADMIN_ID))
  | Some new_admin_id =>
      let admins := admins st in
      if bool_decide (new_admin_id ∈ admins)
      then (st, [AlreadyAdmin], Return (Some ConversationHandler_END))
      else (save_admins (admins ++ [new_admin_id]) st, [Promoted new_admin_id],
            Return (Some ConversationHandler_END))
  end.

Definition add_admin_end := check_super_admin add_admin_end_body.

(** The body of [rem_admin_end]. *)
Definition rem_admin_end_body (uid : Z) (upd : update) (st : store) : outcome :=
  match int (message_text upd) with
  | None => (st, [AdminNotAnId], Return (Some AWAITING_REMOVE_ADMIN_ID))
  | Some admin_to_remove =>
      let admins := admins st in
      if negb (bool_decide (admin_to_remove ∈ admins))
      then (st, [NotAnAdmin], Return (Some ConversationHandler_END))
      else if admin_to_remove =? ADMIN
      then (st, [SuperAdminStays], Return (Some ConversationHandler_END))
      else (save_admins (list_remove_first admin_to_remove admins) st,
            [Demoted admin_to_remove], Return (Some ConversationHandler_END))
  end.

Definition rem_admin_end := check_super_admin rem_admin_end_body.

(** The loop of [receive_broadcast_content] over the users: the two
    counters and the messages that went out. [delivers uid] tells whether
    the message reaches the user. *)
Definition broadcast_loop (delivers : Z → bool) (recipients : list Z)
    : Z * Z * list notice :=
  fold_left
    (λ '(total_sent, total_failed, sent) uid,
       if delivers uid then (total_sent + 1, total_failed, sent ++ [BroadcastSent uid])
       else (total_sent, total_failed + 1, sent))
    recipients (0, 0, []).

(** [receive_broadcast_content]. [recipients] is [users.keys()]: the ids of
    the records of [users.json] in the order of the file, which the map of
    the store does not keep. *)
Definition receive_broadcast_content (delivers : Z → bool) (recipients : list Z)
    (m : message) (st : store) : list notice * Z :=
  let users := users st in
  let total_users := Z.of_nat (size users) in
  let supported :=
    negb (is_nil (msg_photo m)) || bool_decide (is_Some (msg_video m))
    || bool_decide (is_Some (msg_animation m)) || opt_truthy (msg_text m) in
  if negb supported
  then ([BroadcastStarted total_users; BroadcastUnsupported], BROADCAST_CONTENT)
  else
    let '(total_sent, total_failed, sent) := broadcast_loop delivers recipients in
    (BroadcastStarted total_users :: sent ++ [BroadcastDone total_sent total_failed],
     ConversationHandler_END).

(** *** Sequences with the commands of the admins *)

(** A command that makes keys, with its random codes. *)
Inductive key_command :=
  | GenCmd (codigo : nat → string)
  | SuperProKeyCmd (codigo_unico : string)
  | GenCardsKeyCmd (codigo_unico : string).

Inductive command :=
  | ByUser (o : op)
  | MakeKeys (c : key_command) (upd : update).

Definition command_step (c : command) (st : store) : store :=
  match c with
  | ByUser o => (step o st).1
  | MakeKeys (GenCmd codigo) upd => (gen_cmd codigo upd st).1.1
  | MakeKeys (SuperProKeyCmd codigo_unico) upd => (super_pro_key_cmd codigo_unico upd st).1.1
  | MakeKeys (GenCardsKeyCmd codigo_unico) upd => (gen_cards_key_cmd codigo_unico upd st).1.1
  end.

Definition run_commands (cs : list command) (st : store) : store :=
  fold_left (λ st c, command_step c st) cs st.

(** The names of the keys for cards start with ["paublte-tarjeta-"] and those
    of the other keys do not. *)
Definition keys_apart (st : store) : Prop :=
  (∀ k, is_Some (card_keys st !! k) → String.prefix "paublte-tarjeta-" k = true) ∧
  (∀ k, is_Some (claves st !! k) → String.prefix "paublte-tarjeta-" k = false).

(** The keys a command makes: kind, name of the key, plan and uses. *)
Inductive made : key_command → kind → string → string → Z → Prop :=
  | made_gen codigo i usos nombre :
      planes !! i = Some (usos, nombre) →
      made (GenCmd codigo) Normal (gen_key usos (codigo i)) nombre usos
  | made_superpro c : made (SuperProKeyCmd c) Normal (superpro_key c) "SuperPro" 1000
  | made_cards c : made (GenCardsKeyCmd c) Tarjetas (tarjeta_key c) "Plan Tarjetas" 1.

(** The message can be broadcast: it has a photo, a video, an animation or
    a text. *)
Definition broadcast_supported (m : message) : bool :=
  negb (is_nil (msg_photo m)) || bool_decide (is_Some (msg_video m))
  || bool_decide (is_Some (msg_animation m)) || opt_truthy (msg_text m).

(** The usage a delivery shows: [Usos: usados/max]. *)
Definition delivery_usage (r : reply) : option (Z * Z) :=
  match r with
  | SentItems _ _ _ _ used maxi => Some (used, maxi)
  | SentList _ _ _ _ used maxi => Some (used, maxi)
  | _ => None
  end.

(** The site and kind a delivery names. *)
Definition delivery_site (r : reply) : option (kind * string) :=
  match r with
  | SentItems k sitio _ _ _ _ => Some (k, sitio)
  | SentList k sitio _ _ _ _ => Some (k, sitio)
  | _ => None
  end.

(** *** Uploading cards *)

Definition start_add_cards : notice * Z := (AskBank, AWAITING_CARDS_SITE).

Definition get_cards_site (m : message) (ctx : cards_context)
    : cards_context * notice * Z :=
  let site := lower (strip (default "" (msg_text m))) in
  (CardsContext (Some site) (cards_message ctx) (temp_cards ctx),
   AskCardsMessage, AWAITING_CARDS_MESSAGE).

Definition get_cards_message (m : message) (ctx : cards_context)
    : cards_context * notice * Z :=
  let message := strip (default "" (msg_text m)) in
  (CardsContext (cards_site ctx) (Some message) (Some []), AskCards, AWAITING_CARDS_ACCOUNTS).

(** [receive_cards]; [None] is the [KeyError] of a context without
    ["temp_cards"]. The card is kept in the field [account] of the item. *)
Definition receive_cards (m : message) (ctx : cards_context)
    : option (cards_context * notice * Z) :=
  let caption := str_or (msg_caption m) (msg_text m) in
  let '(file_id, file_type) :=
    match last (msg_photo m) with
    | Some f => (Some f, Some photo)
    | None =>
        match msg_video m with
        | Some f => (Some f, Some video)
        | None =>
            match msg_animation m with
            | Some f => (Some f, Some animation)
            | None => if opt_truthy (msg_text m) then (None, Some text) else (None, None)
            end
        end
    end in
  if negb (opt_truthy caption) then Some (ctx, NeedCardCaption, AWAITING_CARDS_ACCOUNTS)
  else
    let caption := default "" caption in
    match file_type with
    | Some text =>
        let cards := List.filter str_truthy (strip <$> split_lines caption) in
        if is_nil cards then Some (ctx, NeedOneCard, AWAITING_CARDS_ACCOUNTS)
        else
          temp ← temp_cards ctx;
          let temp := temp ++ ((fun card => Item card None (Some text)) <$> cards) in
          Some (CardsContext (cards_site ctx) (cards_message ctx) (Some temp),
                CardsAdded (len cards), AWAITING_CARDS_ACCOUNTS)
    | _ =>
        temp ← temp_cards ctx;
        let temp := temp ++ [Item (strip caption) file_id file_type] in
        Some (CardsContext (cards_site ctx) (cards_message ctx) (Some temp),
              CardAdded file_type, AWAITING_CARDS_ACCOUNTS)
    end.

(** [finish_add_cards]; [None] when a non-empty batch has no bank or no
    message in the context. *)
Definition finish_add_cards (ctx : cards_context) (st : store)
    : option (store * notice * Z) :=
  let site := cards_site ctx in
  let message := cards_message ctx in
  let cards_to_add := default [] (temp_cards ctx) in
  if is_nil cards_to_add then Some (st, NoCardsAdded, ConversationHandler_END)
  else
    site ← site;
    message ← message;
    let cards := dict_set site (Rich (Some message) cards_to_add) (cards st) in
    Some (save_cards cards st, CardsUploaded (len cards_to_add) site, ConversationHandler_END).

(** [conv_handler_add_cards] of [main]. *)
Definition leave_on_end (state : Z) : option Z :=
  if state =? ConversationHandler_END then None else Some state.

Definition conv_handler_add_cards (state : option Z) (ev : event)
    (ctx : cards_context) (st : store)
    : option (option Z * cards_context * store * list notice) :=
  match state with
  | None =>
      match ev with
      | Callback data =>
          if String.eqb data "addcards_start"
          then let '(r, state) := start_add_cards in Some (leave_on_end state, ctx, st, [r])
          else Some (None, ctx, st, [])
      | _ => Some (None, ctx, st, [])
      end
  | Some s =>
      match ev with
      | Incoming m =>
          if s =? AWAITING_CARDS_SITE then
            if opt_truthy (msg_text m) then
              let '(ctx, r, state) := get_cards_site m ctx in
              Some (leave_on_end state, ctx, st, [r])
            else Some (state, ctx, st, [])
          else if s =? AWAITING_CARDS_MESSAGE then
            if opt_truthy (msg_text m) then
              let '(ctx, r, state) := get_cards_message m ctx in
              Some (leave_on_end state, ctx, st, [r])
            else Some (state, ctx, st, [])
          else if s =? AWAITING_CARDS_ACCOUNTS then
            '(ctx, r, state) ← receive_cards m ctx;
            Some (leave_on_end state, ctx, st, [r])
          else Some (state, ctx, st, [])
      | Command name =>
          if (s =? AWAITING_CARDS_ACCOUNTS) && String.eqb name "done" then
            '(st, r, state) ← finish_add_cards ctx st;
            Some (leave_on_end state, ctx, st, [r])
          else if String.eqb name "cancel" then Some (None, ctx, st, [CancelledNotice])
          else Some (state, ctx, st, [])
      | Callback _ => Some (state, ctx, st, [])
      end
  end.

Fixpoint run_add_cards (evs : list event) (state : option Z)
    (ctx : cards_context) (st : store) : option (option Z * cards_context * store) :=
  match evs with
  | [] => Some (state, ctx, st)
  | ev :: rest =>
      '(state, ctx, st, _) ← conv_handler_add_cards state ev ctx st;
      run_add_cards rest state ctx st
  end.

(** What one message adds to an empty batch of cards. *)
Definition turn_cards (m : message) : list item :=
  match receive_cards m (CardsContext None None (Some [])) with
  | Some (ctx, _, _) => default [] (temp_cards ctx)
  | None => []
  end.

(** ** Properties *)

(** *** Python containers *)

Lemma dict_get_set_eq {V} (k : string) (v : V) (d : dict V) :
  dict_get k (dict_set k v d) = Some v.
Proof.
  induction d as [|[k' v'] d IH]; simpl.
  - by rewrite String.eqb_refl.
  - destruct (String.eqb k' k) eqn:E; simpl; rewrite E; auto.
Qed.

Lemma dict_get_set_ne {V} (k k0 : string) (v : V) (d : dict V) :
  k ≠ k0 → dict_get k0 (dict_set k v d) = dict_get k0 d.
Proof.
  intros Hne. induction d as [|[k' v'] d IH]; simpl.
  - destruct (String.eqb k k0) eqn:E; [|done].
    apply String.eqb_eq in E. contradiction.
  - destruct (String.eqb k' k) eqn:E; simpl.
    + apply String.eqb_eq in E. subst k'.
      destruct (String.eqb k k0) eqn:E0; [|done].
      apply String.eqb_eq in E0. contradiction.
    + by rewrite IH.
Qed.

Lemma slice_to_take {A} (n : Z) (lst : list A) :
  0 <= n → slice_to n lst = take (Z.to_nat n) lst.
Proof.
  intros Hn. unfold slice_to, slice_bound.
  destruct (n <? 0) eqn:E; [apply Z.ltb_lt in E; lia | done].
Qed.

Lemma slice_from_drop {A} (n : Z) (lst : list A) :
  0 <= n → slice_from n lst = drop (Z.to_nat n) lst.
Proof.
  intros Hn. unfold slice_from, slice_bound.
  destruct (n <? 0) eqn:E; [apply Z.ltb_lt in E; lia | done].
Qed.

Lemma is_nil_false_length {A} (lst : list A) : 1 <= len lst → is_nil lst = false.
Proof. destruct lst; unfold len; simpl; [lia | done]. Qed.

Lemma list_remove_first_NoDup (x : Z) (lst : list Z) :
  NoDup lst →
  (x ∉ list_remove_first x lst) ∧ NoDup (list_remove_first x lst) ∧
  (∀ y, y ≠ x → (y ∈ list_remove_first x lst ↔ y ∈ lst)).
Proof.
  induction 1 as [|y lst Hy Hnd IH]; simpl.
  - split; [apply not_elem_of_nil | split; [constructor | done]].
  - destruct IH as (IH1 & IH2 & IH3). case_decide as Hxy.
    + subst y. split; [done | split; [done |]].
      intros z Hz. rewrite elem_of_cons. split; [by right |].
      intros [? | ?]; [contradiction | done].
    + split.
      { rewrite elem_of_cons. intros [? | ?]; [by subst | contradiction]. }
      split.
      * constructor; [|done]. intros Hin. apply IH3 in Hin; done.
      * intros z Hz. rewrite !elem_of_cons. rewrite (IH3 z Hz). done.
Qed.

(** *** The decorator *)

Lemma check_ban_admitted (func : handler) (upd : update) (st : store) (uid : Z) :
  effective_user upd = Some uid → admitted st uid →
  check_ban func upd st = func uid upd st.
Proof.
  intros Hu [Hnz Hok]. unfold check_ban. rewrite Hu.
  destruct (uid =? 0) eqn:E0; [apply Z.eqb_eq in E0; done |].
  destruct Hok as [-> | Hnb].
  - by rewrite Z.eqb_refl.
  - unfold is_banned. rewrite bool_decide_eq_false_2; [|done].
    by rewrite andb_false_r.
Qed.

Lemma check_ban_banned (func : handler) (upd : update) (st : store) (uid : Z) :
  effective_user upd = Some uid → uid ≠ ADMIN → uid ∈ banned_users st →
  check_ban func upd st = (st, if uid =? 0 then Silent else BannedNotice).
Proof.
  intros Hu Hna Hb. unfold check_ban. rewrite Hu.
  destruct (uid =? 0); [done |].
  destruct (uid =? ADMIN) eqn:E; [apply Z.eqb_eq in E; done |].
  unfold is_banned. by rewrite bool_decide_eq_true_2.
Qed.

(** The decorator either turns the update away, leaving the store as it
    is, or runs the handler for an admitted user. *)
Lemma check_ban_cases (func : handler) (upd : update) (st : store) :
  (check_ban func upd st = (st, Silent) ∨ check_ban func upd st = (st, BannedNotice))
  ∨ ∃ uid, effective_user upd = Some uid ∧ admitted st uid
           ∧ check_ban func upd st = func uid upd st.
Proof.
  unfold check_ban. destruct (effective_user upd) as [uid|]; [|by left; left].
  destruct (uid =? 0) eqn:E0; [by left; left |].
  apply Z.eqb_neq in E0.
  destruct (uid =? ADMIN) eqn:EA; simpl.
  - apply Z.eqb_eq in EA. right. exists uid. repeat split; auto.
  - unfold is_banned. case_bool_decide as Hb; [by left; right |].
    right. exists uid. repeat split; auto.
Qed.

(** *** Redeeming a key *)

Lemma save_users_twice (v v' : gmap Z user) (st : store) :
  save_users v (save_users v' st) = save_users v st.
Proof. done. Qed.

(** The branch of [key_cmd] for a key that is in neither file. *)
Lemma key_cmd_body_unknown (uid : Z) (upd : update) (st : store) arg0 rest :
  args upd = arg0 :: rest →
  claves st !! strip arg0 = None → card_keys st !! strip arg0 = None →
  let n := attempts_of st uid + 1 in
  let st1 :=
    save_users (<[uid := set_invalid_key_attempts n (default new_user (users st !! uid))]>
                  (users st)) st in
  key_cmd_body uid upd st =
    (if 3 <=? n
     then if bool_decide (uid ∈ banned_users st) then st1
          else save_bans (banned_users st ++ [uid]) st1
     else st1,
     invalid_key_reply n).
Proof.
  intros Ha Hk Hc. unfold key_cmd_body, invalid_key_reply, attempts_of.
  rewrite Ha. simpl. rewrite Hk, Hc. rewrite insert_insert_eq.
  by destruct (3 <=? _).
Qed.

(** [key_cmd] never takes a user out of the list of bans. *)
Lemma key_cmd_body_keeps_bans (uid : Z) (upd : update) (st : store) (x : Z) :
  x ∈ banned_users st → x ∈ banned_users (key_cmd_body uid upd st).1.
Proof.
  intros Hx. unfold key_cmd_body.
  destruct (args upd) as [|arg0 rest]; [done |]. simpl.
  destruct (claves st !! strip arg0) as [[pl mx]|].
  { by destruct (_ && _). }
  destruct (card_keys st !! strip arg0) as [[pl mx]|].
  { by destruct (_ && _). }
  destruct (3 <=? _); [|done].
  case_bool_decide; simpl; [done |]. apply elem_of_app. by left.
Qed.

Lemma key_cmd_keeps_bans (upd : update) (st : store) (x : Z) :
  x ∈ banned_users st → x ∈ banned_users (key_cmd upd st).1.
Proof.
  intros Hx. unfold key_cmd.
  destruct (check_ban_cases key_cmd_body upd st) as [[-> | ->] | (uid & _ & _ & ->)];
    [done | done |].
  by apply key_cmd_body_keeps_bans.
Qed.

(** One redemption of an unknown key by an admitted user. *)
Lemma key_cmd_unknown (uid : Z) (upd : update) (st : store) arg0 rest :
  effective_user upd = Some uid → admitted st uid →
  args upd = arg0 :: rest →
  claves st !! strip arg0 = None → card_keys st !! strip arg0 = None →
  let n := attempts_of st uid + 1 in
  let st' := (key_cmd upd st).1 in
  attempts_of st' uid = n ∧
  (key_cmd upd st).2 = invalid_key_reply n ∧
  (3 <= n → uid ∈ banned_users st') ∧
  (n < 3 → banned_users st' = banned_users st) ∧
  claves st' = claves st ∧ card_keys st' = card_keys st.
Proof.
  intros Hu Hadm Ha Hk Hc n st'. subst st'. unfold key_cmd.
  rewrite (check_ban_admitted _ _ _ _ Hu Hadm).
  rewrite (key_cmd_body_unknown uid upd st arg0 rest Ha Hk Hc). fold n. simpl.
  destruct (3 <=? n) eqn:E3.
  - apply Z.leb_le in E3. case_bool_decide as Hb; simpl.
    + unfold attempts_of. simpl. rewrite lookup_insert_eq. simpl.
      repeat split; auto; lia.
    + unfold attempts_of. simpl. rewrite lookup_insert_eq. simpl.
      repeat split; auto; [|lia]. intros _. apply elem_of_app. right. by apply list_elem_of_singleton.
  - apply Z.leb_gt in E3. unfold attempts_of. simpl. rewrite lookup_insert_eq. simpl.
    repeat split; auto; lia.
Qed.

Lemma run_cons (o : op) (ops : list op) (st : store) :
  run (o :: ops) st =
    ((run ops (step o st).1).1, (step o st).2 :: (run ops (step o st).1).2).
Proof. simpl. destruct (step o st) as [st1 r]. simpl. by destruct (run ops st1). Qed.

Lemma run_app_fst (ops1 ops2 : list op) (st : store) :
  (run (ops1 ++ ops2) st).1 = (run ops2 (run ops1 st).1).1.
Proof.
  revert st. induction ops1 as [|o ops1 IH]; intros st; [done |].
  rewrite <- app_comm_cons, !run_cons. simpl. apply IH.
Qed.

Lemma unknown_key_update_step (st : store) (uid : Z) (upd upd' : update) :
  admitted st uid → unknown_key_update st uid upd →
  unknown_key_update st uid upd' →
  unknown_key_update (key_cmd upd st).1 uid upd'.
Proof.
  intros Hadm (Hu & arg0 & rest & Ha & Hk & Hc) (Hu' & arg0' & rest' & Ha' & Hk' & Hc').
  destruct (key_cmd_unknown uid upd st arg0 rest Hu Hadm Ha Hk Hc)
    as (_ & _ & _ & _ & Ek & Ec).
  split; [done |]. exists arg0', rest'. by rewrite Ek, Ec.
Qed.

(** C1, amended. For a user with a non-zero id whom [check_ban] lets
    through, [/key] with a code that is in neither key file adds one to
    the user's [invalid_key_attempts]; when the new count is 3 or more the
    id is in the list of bans afterwards and the reply is the ban,
    otherwise the list of bans is unchanged and the reply carries
    [3 - count] remaining attempts. After three such requests in a row by
    a user who is not the super-admin, was not banned and has a counter
    that is not negative, the user is in the list of bans and any fourth
    [/key] is turned away by the decorator with the store untouched,
    whatever its key; starting from a counter of 0 the three replies are 2
    remaining, 1 remaining and the ban. *)
Theorem invalid_key_attempts_ban (uid : Z) (st : store) :
  (∀ upd, admitted st uid → unknown_key_update st uid upd →
     let n := attempts_of st uid + 1 in
     attempts_of (key_cmd upd st).1 uid = n ∧
     (3 <= n → uid ∈ banned_users (key_cmd upd st).1 ∧ (key_cmd upd st).2 = Banned) ∧
     (n < 3 → banned_users (key_cmd upd st).1 = banned_users st ∧
              (key_cmd upd st).2 = InvalidKey (3 - n)))
  ∧
  (∀ upd1 upd2 upd3,
     uid ≠ 0 → uid ≠ ADMIN → uid ∉ banned_users st → 0 <= attempts_of st uid →
     unknown_key_update st uid upd1 → unknown_key_update st uid upd2 →
     unknown_key_update st uid upd3 →
     let out := run [Redeem upd1; Redeem upd2; Redeem upd3] st in
     uid ∈ banned_users out.1 ∧
     (∀ upd4, effective_user upd4 = Some uid → key_cmd upd4 out.1 = (out.1, BannedNotice)) ∧
     (attempts_of st uid = 0 → out.2 = [InvalidKey 2; InvalidKey 1; Banned])).
Proof.
  assert (Hone : ∀ st upd, admitted st uid → unknown_key_update st uid upd →
     let n := attempts_of st uid + 1 in
     attempts_of (key_cmd upd st).1 uid = n ∧
     (3 <= n → uid ∈ banned_users (key_cmd upd st).1 ∧ (key_cmd upd st).2 = Banned) ∧
     (n < 3 → banned_users (key_cmd upd st).1 = banned_users st ∧
              (key_cmd upd st).2 = InvalidKey (3 - n))).
  { clear st. intros st upd Hadm (Hu & arg0 & rest & Ha & Hk & Hc) n.
    destruct (key_cmd_unknown uid upd st arg0 rest Hu Hadm Ha Hk Hc)
      as (En & Er & Hban & Hkeep & _). fold n in En, Er, Hban, Hkeep.
    split; [done |]. unfold invalid_key_reply in Er. split.
    - intros H3. split; [auto |]. rewrite Er.
      destruct (3 <=? n) eqn:E; [done | apply Z.leb_gt in E; lia].
    - intros H3. split; [auto |]. rewrite Er.
      destruct (3 <=? n) eqn:E; [apply Z.leb_le in E; lia | done]. }
  split; [apply Hone |].
  intros upd1 upd2 upd3 Hnz Hna Hnb Hge H1 H2 H3 out.
  assert (Hrej : ∀ st', uid ∈ banned_users st' →
            ∀ upd4, effective_user upd4 = Some uid → key_cmd upd4 st' = (st', BannedNotice)).
  { intros st' Hb upd4 Hu4. unfold key_cmd.
    rewrite (check_ban_banned _ _ _ uid Hu4 Hna Hb).
    destruct (uid =? 0) eqn:E; [apply Z.eqb_eq in E; done | done]. }
  assert (Hadm0 : admitted st uid) by (split; auto).
  set (st1 := (key_cmd upd1 st).1).
  set (st2 := (key_cmd upd2 st1).1).
  assert (Eout1 : out.1 = (key_cmd upd3 st2).1) by (subst out; by rewrite !run_cons).
  assert (Eout2 : out.2 = [(key_cmd upd1 st).2; (key_cmd upd2 st1).2; (key_cmd upd3 st2).2])
    by (subst out; by rewrite !run_cons).
  destruct (Hone st upd1 Hadm0 H1) as (E1 & Hban1 & Hkeep1). fold st1 in E1, Hban1, Hkeep1.
  destruct (decide (3 <= attempts_of st uid + 1)) as [Hb1 | Hb1].
  { assert (Hin : uid ∈ banned_users out.1).
    { rewrite Eout1. apply key_cmd_keeps_bans. subst st2.
      apply key_cmd_keeps_bans. by apply Hban1. }
    split; [done |]. split; [by apply Hrej | lia]. }
  destruct Hkeep1 as [Ebans1 Er1]; [lia |].
  assert (Hadm1 : admitted st1 uid).
  { split; [done |]. right. by rewrite Ebans1. }
  assert (H2' : unknown_key_update st1 uid upd2) by (by apply unknown_key_update_step).
  assert (H3' : unknown_key_update st1 uid upd3) by (by apply unknown_key_update_step).
  destruct (Hone st1 upd2 Hadm1 H2') as (E2 & Hban2 & Hkeep2). fold st2 in E2, Hban2, Hkeep2.
  destruct (decide (3 <= attempts_of st1 uid + 1)) as [Hb2 | Hb2].
  { assert (Hin : uid ∈ banned_users out.1).
    { rewrite Eout1. apply key_cmd_keeps_bans. by apply Hban2. }
    split; [done |]. split; [by apply Hrej | lia]. }
  destruct Hkeep2 as [Ebans2 Er2]; [lia |].
  assert (Hadm2 : admitted st2 uid).
  { split; [done |]. right. by rewrite Ebans2, Ebans1. }
  assert (H3'' : unknown_key_update st2 uid upd3) by (by apply unknown_key_update_step).
  destruct (Hone st2 upd3 Hadm2 H3'') as (E3 & Hban3 & _).
  destruct Hban3 as [Hin Er3]; [lia |].
  split; [by rewrite Eout1 |]. split; [apply Hrej; by rewrite Eout1 |].
  intros E0. rewrite Eout2, Er1, Er2, Er3, E1, E0. done.
Qed.

Lemma is_sin_plan_false (p : plan) : is_sin_plan p = false ↔ nombre p ≠ "Sin plan".
Proof. unfold is_sin_plan. apply String.eqb_neq. Qed.

Lemma is_sin_plan_true (p : plan) : is_sin_plan p = true ↔ nombre p = "Sin plan".
Proof. unfold is_sin_plan. apply String.eqb_eq. Qed.

(** The test that guards both activations of [key_cmd]. *)
Lemma plan_blocks_iff (p : plan) :
  negb (is_sin_plan p) && (usados p <? max p) = true ↔ has_balance p.
Proof.
  unfold has_balance. rewrite andb_true_iff, negb_true_iff, is_sin_plan_false, Z.ltb_lt.
  split; intros [? ?]; split; auto; lia.
Qed.

Lemma new_user_no_balance : ¬ has_balance (plan_normal new_user) ∧ ¬ has_balance (plan_tarjetas new_user).
Proof. split; intros [H _]; by apply H. Qed.

(** C5. For a user whom [check_ban] lets through and a code of the file
    of normal keys, [/key] answers that a plan is already active exactly
    when the user's normal plan is not "Sin plan" and has [max - usados > 0],
    and then the store is left as it was; otherwise the code is no longer
    in the file, and the user's record read back from the users file has
    the key's name and uses with [usados = 0] as its normal plan, while its
    plan for cards and its counter, and the records of all other users, are
    what they were. The same holds for a code of the file of card keys
    (that is not also a normal key) and the plan for cards. *)
Theorem key_cmd_activation_rule (uid : Z) (upd : update) (st : store)
    (arg0 : string) (rest : list string) (name : string) (maxi : Z) :
  effective_user upd = Some uid → admitted st uid → args upd = arg0 :: rest →
  let clave := strip arg0 in
  let user_data := default new_user (users st !! uid) in
  let out := key_cmd upd st in
  (claves st !! clave = Some (name, maxi) →
     (out.2 = PlanAlreadyActive Normal ↔ has_balance (plan_normal user_data)) ∧
     (has_balance (plan_normal user_data) → out.1 = st) ∧
     (¬ has_balance (plan_normal user_data) →
        out.2 = Activated Normal name maxi ∧
        claves out.1 = delete clave (claves st) ∧
        claves out.1 !! clave = None ∧
        card_keys out.1 = card_keys st ∧
        users out.1 !! uid
          = Some (User (Plan name maxi 0) (plan_tarjetas user_data)
                       (invalid_key_attempts user_data)) ∧
        (∀ y, y ≠ uid → users out.1 !! y = users st !! y)))
  ∧
  (claves st !! clave = None → card_keys st !! clave = Some (name, maxi) →
     (out.2 = PlanAlreadyActive Tarjetas ↔ has_balance (plan_tarjetas user_data)) ∧
     (has_balance (plan_tarjetas user_data) → out.1 = st) ∧
     (¬ has_balance (plan_tarjetas user_data) →
        out.2 = Activated Tarjetas name maxi ∧
        card_keys out.1 = delete clave (card_keys st) ∧
        card_keys out.1 !! clave = None ∧
        claves out.1 = claves st ∧
        users out.1 !! uid
          = Some (User (plan_normal user_data) (Plan name maxi 0)
                       (invalid_key_attempts user_data)) ∧
        (∀ y, y ≠ uid → users out.1 !! y = users st !! y))).
Proof.
  intros Hu Hadm Ha clave user_data out. subst out. unfold key_cmd.
  rewrite (check_ban_admitted _ _ _ _ Hu Hadm).
  assert (Hsame : has_balance (plan_normal user_data) ∨ has_balance (plan_tarjetas user_data) →
            save_users (<[uid := user_data]> (users st)) st = st).
  { intros Hb. subst user_data. destruct (users st !! uid) as [u|] eqn:Eu; simpl in *.
    - rewrite insert_id; [|done]. by destruct st.
    - destruct new_user_no_balance as [Hn Ht]. destruct Hb as [Hb | Hb]; [destruct (Hn Hb) | destruct (Ht Hb)]. }
  unfold key_cmd_body. rewrite Ha. simpl. fold clave. fold user_data. split.
  - intros Hk. rewrite Hk.
    destruct (negb (is_sin_plan (plan_normal user_data)) && _) eqn:E; simpl.
    + apply plan_blocks_iff in E. split; [done |]. split; [intros _; auto | done].
    + assert (Hnb : ¬ has_balance (plan_normal user_data)).
      { intros Hb. apply plan_blocks_iff in Hb. congruence. }
      split; [split; [done | done] |]. split; [done |]. intros _.
      split; [done |]. split; [done |]. split; [apply lookup_delete_eq |].
      split; [done |]. split; [by rewrite lookup_insert_eq |].
      intros y Hy. by rewrite !lookup_insert_ne.
  - intros Hk Hc. rewrite Hk, Hc.
    destruct (negb (is_sin_plan (plan_tarjetas user_data)) && _) eqn:E; simpl.
    + apply plan_blocks_iff in E. split; [done |]. split; [intros _; auto | done].
    + assert (Hnb : ¬ has_balance (plan_tarjetas user_data)).
      { intros Hb. apply plan_blocks_iff in Hb. congruence. }
      split; [split; [done | done] |]. split; [done |]. intros _.
      split; [done |]. split; [done |]. split; [apply lookup_delete_eq |].
      split; [done |]. split; [by rewrite lookup_insert_eq |].
      intros y Hy. by rewrite !lookup_insert_ne.
Qed.

(** *** Keys are spent once *)

(** Unfolds the body of a handler into its branches. *)
Ltac branches := repeat (case_match; simpl in *; simplify_eq; try done).

Lemma get_cmd_body_keys (uid : Z) (upd : update) (st : store) :
  claves (get_cmd_body uid upd st).1 = claves st ∧
  card_keys (get_cmd_body uid upd st).1 = card_keys st ∧
  banned_users (get_cmd_body uid upd st).1 = banned_users st.
Proof.
  unfold get_cmd_body, get_cmd_cuentas, get_cmd_tarjetas. branches.
Qed.

Lemma key_cmd_body_key_absent (uid : Z) (upd : update) (st : store) (k : string) :
  (claves st !! k = None → claves (key_cmd_body uid upd st).1 !! k = None) ∧
  (card_keys st !! k = None → card_keys (key_cmd_body uid upd st).1 !! k = None).
Proof.
  unfold key_cmd_body. branches;
    split; intros Hk; try done; apply lookup_delete_None; by right.
Qed.

Lemma step_key_absent (o : op) (st : store) (k : string) :
  claves st !! k = None ∧ card_keys st !! k = None →
  claves (step o st).1 !! k = None ∧ card_keys (step o st).1 !! k = None.
Proof.
  intros [Hk Hc]. destruct o as [upd | upd]; simpl.
  - unfold key_cmd.
    destruct (check_ban_cases key_cmd_body upd st) as [[-> | ->] | (uid & _ & _ & ->)];
      [done | done |].
    destruct (key_cmd_body_key_absent uid upd st k). auto.
  - unfold get_cmd.
    destruct (check_ban_cases get_cmd_body upd st) as [[-> | ->] | (uid & _ & _ & ->)];
      [done | done |].
    destruct (get_cmd_body_keys uid upd st) as (-> & -> & _). auto.
Qed.

Lemma run_key_absent (ops : list op) (st : store) (k : string) :
  claves st !! k = None ∧ card_keys st !! k = None →
  claves (run ops st).1 !! k = None ∧ card_keys (run ops st).1 !! k = None.
Proof.
  revert st. induction ops as [|o ops IH]; intros st H; [done |].
  rewrite run_cons. simpl. apply IH. by apply step_key_absent.
Qed.

(** A successful redemption removes its key. *)
Lemma key_cmd_activation_spends (upd : update) (st : store) arg0 rest :
  args upd = arg0 :: rest →
  claves st !! strip arg0 = None ∨ card_keys st !! strip arg0 = None →
  is_activation (key_cmd upd st).2 = true →
  (is_Some (claves st !! strip arg0) ∨ is_Some (card_keys st !! strip arg0)) ∧
  claves (key_cmd upd st).1 !! strip arg0 = None ∧
  card_keys (key_cmd upd st).1 !! strip arg0 = None.
Proof.
  intros Ha Hex. unfold key_cmd.
  destruct (check_ban_cases key_cmd_body upd st) as [[-> | ->] | (uid & _ & _ & ->)];
    [done | done |].
  unfold key_cmd_body. rewrite Ha. simpl.
  destruct (claves st !! strip arg0) as [[pl mx]|] eqn:Ek.
  { destruct Hex as [? | Hc]; [done |].
    destruct (_ && _); simpl; [done |]. intros _.
    split; [left; eauto |]. split; [apply lookup_delete_eq | done]. }
  destruct (card_keys st !! strip arg0) as [[pl mx]|] eqn:Ec.
  { destruct (_ && _); simpl; [done |]. intros _.
    split; [right; eauto |]. split; [done | apply lookup_delete_eq]. }
  destruct (3 <=? _); [|done]. by case_bool_decide.
Qed.

(** C2. A code is in at most one of the two key files. When [/key] with
    that code activates a plan, the code was in one of the files and is in
    neither afterwards; it stays out of both through any later requests
    [/key] and [/get] of any users, and a [/key] with the same code
    after them never activates a plan: for a user whom [check_ban] lets
    through it takes the branch for an unknown key, whose reply is fixed by
    the user's counter. *)
Theorem key_consumed_once (upd : update) (st : store) (arg0 : string) (rest : list string) :
  args upd = arg0 :: rest →
  claves st !! strip arg0 = None ∨ card_keys st !! strip arg0 = None →
  is_activation (key_cmd upd st).2 = true →
  (is_Some (claves st !! strip arg0) ∨ is_Some (card_keys st !! strip arg0)) ∧
  ∀ ops, let st' := (run ops (key_cmd upd st).1).1 in
    claves st' !! strip arg0 = None ∧ card_keys st' !! strip arg0 = None ∧
    ∀ upd' arg0' rest', args upd' = arg0' :: rest' → strip arg0' = strip arg0 →
      is_activation (key_cmd upd' st').2 = false ∧
      ∀ uid', effective_user upd' = Some uid' → admitted st' uid' →
        (key_cmd upd' st').2 = invalid_key_reply (attempts_of st' uid' + 1).
Proof.
  intros Ha Hex Hact.
  destruct (key_cmd_activation_spends upd st arg0 rest Ha Hex Hact) as (Hwas & Hk & Hc).
  split; [done |]. intros ops st'.
  destruct (run_key_absent ops (key_cmd upd st).1 (strip arg0) (conj Hk Hc)) as [Hk' Hc'].
  fold st' in Hk', Hc'. split; [done |]. split; [done |].
  intros upd' arg0' rest' Ha' Es. rewrite <- Es in Hk', Hc'.
  assert (Hrep : ∀ uid', effective_user upd' = Some uid' → admitted st' uid' →
            (key_cmd upd' st').2 = invalid_key_reply (attempts_of st' uid' + 1)).
  { intros uid' Hu' Hadm'.
    by destruct (key_cmd_unknown uid' upd' st' arg0' rest' Hu' Hadm' Ha' Hk' Hc')
      as (_ & -> & _). }
  split; [|done].
  destruct (check_ban_cases key_cmd_body upd' st') as [[E | E] | (uid' & Hu' & Hadm' & _)].
  - unfold key_cmd. by rewrite E.
  - unfold key_cmd. by rewrite E.
  - rewrite (Hrep uid' Hu' Hadm'). unfold invalid_key_reply. by destruct (3 <=? _).
Qed.

(** C10. With a non-zero super-admin id, [check_ban] runs the decorated
    handler for the super-admin even when that id is in the list of bans:
    [/key] and [/get] from it are the bodies of the handlers. Every other id
    in the list of bans is turned away before the handler runs: the store
    is left as it is and the reply is the ban notice (nothing at all for
    the id 0). *)
Theorem check_ban_super_admin (upd : update) (st : store) :
  ADMIN ≠ 0 →
  (effective_user upd = Some ADMIN → ADMIN ∈ banned_users st →
     (∀ func, check_ban func upd st = func ADMIN upd st) ∧
     key_cmd upd st = key_cmd_body ADMIN upd st ∧
     get_cmd upd st = get_cmd_body ADMIN upd st)
  ∧
  (∀ user_id, effective_user upd = Some user_id → user_id ≠ ADMIN →
     user_id ∈ banned_users st →
     ∀ func, check_ban func upd st = (st, if user_id =? 0 then Silent else BannedNotice)).
Proof.
  intros Hnz. split.
  - intros Hu _.
    assert (H : ∀ func, check_ban func upd st = func ADMIN upd st).
    { intros func. apply check_ban_admitted; [done |]. split; auto. }
    split; [done |]. split; apply H.
  - intros user_id Hu Hna Hb func. by apply check_ban_banned.
Qed.

(** *** Handing out stock *)

Lemma get_cmd_body_failure (uid : Z) (upd : update) (st : store) :
  is_delivery (get_cmd_body uid upd st).2 = false → (get_cmd_body uid upd st).1 = st.
Proof.
  unfold get_cmd_body, get_cmd_cuentas, get_cmd_tarjetas. branches.
Qed.

(** X25. Whatever the update (any user, any arguments, any integer as the
    quantity), when [/get] answers with anything other than a delivery of
    items the seven files are exactly as before: no pool and no [usados]
    has changed. This includes the branch that has already cut the list in
    memory when it finds nothing to send. Which requests are answered with
    a delivery is another matter: a negative quantity can be one. *)
Theorem get_cmd_failure_no_change (upd : update) (st : store) :
  is_delivery (get_cmd upd st).2 = false → (get_cmd upd st).1 = st.
Proof.
  unfold get_cmd.
  destruct (check_ban_cases get_cmd_body upd st) as [[-> | ->] | (uid & _ & _ & ->)];
    [done | done |].
  apply get_cmd_body_failure.
Qed.

(** *** The bound on the uses *)

Lemma plans_ok_insert (st st' : store) (uid : Z) (u : user) :
  plans_ok st → users st' = <[uid := u]> (users st) →
  usados (plan_normal u) <= max (plan_normal u) →
  usados (plan_tarjetas u) <= max (plan_tarjetas u) →
  plans_ok st'.
Proof.
  intros Hok Hst' Hn Ht uid' u' Hl. rewrite Hst' in Hl.
  destruct (decide (uid = uid')) as [-> | Hne].
  - rewrite lookup_insert_eq in Hl. by simplify_eq.
  - rewrite lookup_insert_ne in Hl by done. by apply (Hok uid').
Qed.

Lemma get_cmd_body_plans_ok (uid : Z) (upd : update) (st : store) :
  plans_ok st → plans_ok (get_cmd_body uid upd st).1.
Proof.
  intros Hok. unfold get_cmd_body, get_cmd_cuentas, get_cmd_tarjetas.
  branches;
    match goal with
    | Hu : users st !! uid = Some ?u |- _ =>
        destruct (Hok uid u Hu) as [Hn Ht];
        eapply plans_ok_insert; [exact Hok | reflexivity | simpl; lia | simpl; lia]
    end.
Qed.

Lemma key_cmd_body_plans_ok (uid : Z) (upd : update) (st : store) :
  plans_ok st → keys_ok st → plans_ok (key_cmd_body uid upd st).1.
Proof.
  intros Hok Hkeys. unfold key_cmd_body.
  assert (Hud : usados (plan_normal (default new_user (users st !! uid)))
                  <= max (plan_normal (default new_user (users st !! uid))) ∧
                usados (plan_tarjetas (default new_user (users st !! uid)))
                  <= max (plan_tarjetas (default new_user (users st !! uid)))).
  { destruct (users st !! uid) as [u|] eqn:Eu; simpl; [by apply (Hok uid) | done]. }
  destruct Hud as [Hn Ht].
  set (user_data := default new_user (users st !! uid)) in *.
  branches;
    try (eapply plans_ok_insert; [exact Hok | simpl; try rewrite insert_insert_eq; reflexivity
                                  | simpl; try lia | simpl; try lia]).
  - match goal with H : claves st !! ?k = Some (?name, ?maxi) |- _ =>
      apply (Hkeys k name maxi); by left end.
  - match goal with H : card_keys st !! ?k = Some (?name, ?maxi) |- _ =>
      apply (Hkeys k name maxi); by right end.
Qed.

Lemma key_cmd_body_keys_ok (uid : Z) (upd : update) (st : store) :
  keys_ok st → keys_ok (key_cmd_body uid upd st).1.
Proof.
  intros Hkeys. unfold key_cmd_body.
  branches; intros k name maxi [Hk | Hk]; simpl in Hk;
    try (apply lookup_delete_Some in Hk as [_ Hk]);
    apply (Hkeys k name maxi); auto.
Qed.

Lemma step_invariant (o : op) (st : store) :
  plans_ok st ∧ keys_ok st → plans_ok (step o st).1 ∧ keys_ok (step o st).1.
Proof.
  intros [Hok Hkeys]. destruct o as [upd | upd]; simpl.
  - unfold key_cmd.
    destruct (check_ban_cases key_cmd_body upd st) as [[-> | ->] | (uid & _ & _ & ->)];
      [done | done |].
    split; [by apply key_cmd_body_plans_ok | by apply key_cmd_body_keys_ok].
  - unfold get_cmd.
    destruct (check_ban_cases get_cmd_body upd st) as [[-> | ->] | (uid & _ & _ & ->)];
      [done | done |].
    split; [by apply get_cmd_body_plans_ok |].
    intros k name maxi. destruct (get_cmd_body_keys uid upd st) as (-> & -> & _).
    apply Hkeys.
Qed.

Lemma run_invariant (ops : list op) (st : store) :
  plans_ok st ∧ keys_ok st → plans_ok (run ops st).1 ∧ keys_ok (run ops st).1.
Proof.
  revert st. induction ops as [|o ops IH]; intros st H; [done |].
  rewrite run_cons. simpl. apply IH. by apply step_invariant.
Qed.

(** C6. From a store in which every user has [usados <= max] on both
    plans and no key grants a negative number of uses, every sequence of
    [/key] and [/get] requests of any users leads to a store in which
    every user has [usados <= max] on both plans; in particular this holds
    after every [/get] that follows such a sequence. *)
Theorem usados_le_max_invariant (st : store) :
  plans_ok st → keys_ok st →
  ∀ ops, plans_ok (run ops st).1 ∧
         ∀ upd, plans_ok (get_cmd upd (run ops st).1).1.
Proof.
  intros Hok Hkeys ops.
  destruct (run_invariant ops st (conj Hok Hkeys)) as [Hok' Hkeys'].
  split; [done |]. intros upd.
  apply (step_invariant (Fetch upd) (run ops st).1). by split.
Qed.

(** *** First in, first out *)


Lemma take_nonempty {A} (n : Z) (lst : list A) :
  1 <= n → n <= len lst → is_nil (take (Z.to_nat n) lst) = false.
Proof.
  intros Hn Hl. apply is_nil_false_length. unfold len in *.
  rewrite length_take. lia.
Qed.

(** [get_cmd_cuentas] when the plan, the balance and the pool suffice. *)
Lemma get_cmd_cuentas_serves (uid cant : Z) (user_data : user) (sitio : string)
    (p : pool) (st : store) :
  1 <= cant → nombre (plan_normal user_data) ≠ "Sin plan" →
  cant <= max (plan_normal user_data) - usados (plan_normal user_data) →
  cant <= pool_size p →
  let pn := plan_normal user_data in
  get_cmd_cuentas uid cant user_data sitio p st =
    (save_users (<[uid := set_plan_normal (set_usados (usados pn + cant) pn) user_data]> (users st))
       (save_stock (dict_set sitio (pool_drop (Z.to_nat cant) p) (stock st)) st),
     delivery Normal sitio cant p (usados pn + cant) (max pn)).
Proof.
  intros Hc Hact Hbal Hsize pn. unfold get_cmd_cuentas. fold pn.
  apply is_sin_plan_false in Hact. fold pn in Hact. rewrite Hact.
  destruct (max pn - usados pn <? cant) eqn:E; [apply Z.ltb_lt in E; subst pn; lia |].
  destruct p as [items | message accounts]; simpl in *.
  - rewrite is_nil_false_length by lia. simpl.
    destruct (len items <? cant) eqn:El; [apply Z.ltb_lt in El; lia |].
    by rewrite slice_to_take, slice_from_drop by lia.
  - rewrite is_nil_false_length by lia. simpl.
    destruct (len accounts <? cant) eqn:El; [apply Z.ltb_lt in El; lia |].
    rewrite slice_to_take, slice_from_drop by lia.
    by rewrite take_nonempty by lia.
Qed.

(** [get_cmd_tarjetas] when the plan, the balance and the pool suffice. *)
Lemma get_cmd_tarjetas_serves (uid cant : Z) (user_data : user) (sitio : string)
    (p : pool) (st : store) :
  1 <= cant → nombre (plan_tarjetas user_data) ≠ "Sin plan" →
  cant <= max (plan_tarjetas user_data) - usados (plan_tarjetas user_data) →
  cant <= pool_size p →
  let pt := plan_tarjetas user_data in
  get_cmd_tarjetas uid cant user_data sitio p st =
    (save_users (<[uid := set_plan_tarjetas (set_usados (usados pt + cant) pt) user_data]> (users st))
       (save_cards (dict_set sitio (pool_drop (Z.to_nat cant) p) (cards st)) st),
     delivery Tarjetas sitio cant p (usados pt + cant) (max pt)).
Proof.
  intros Hc Hact Hbal Hsize pt. unfold get_cmd_tarjetas. fold pt.
  apply is_sin_plan_false in Hact. fold pt in Hact. rewrite Hact.
  destruct (max pt - usados pt <? cant) eqn:E; [apply Z.ltb_lt in E; subst pt; lia |].
  destruct p as [items | message accounts]; simpl in *.
  - rewrite is_nil_false_length by lia. simpl.
    destruct (len items <? cant) eqn:El; [apply Z.ltb_lt in El; lia |].
    by rewrite slice_to_take, slice_from_drop by lia.
  - rewrite is_nil_false_length by lia. simpl.
    destruct (len accounts <? cant) eqn:El; [apply Z.ltb_lt in El; lia |].
    by rewrite slice_to_take, slice_from_drop by lia.
Qed.

(** What the search of [get_cmd] finds is stored under a key that equals
    the requested name once lower-cased. *)
Lemma find_site_found (d : dict pool) (sitio key : string) (p : pool) :
  find_site d sitio = (Some p, key) → lower key = sitio ∧ dict_get key d = Some p.
Proof.
  unfold find_site.
  destruct (List.find _ (dict_keys d)) as [k|] eqn:E; [|done].
  intros [= Hg <-]. apply find_some in E as [_ E].
  apply String.eqb_eq in E. done.
Qed.

(** A true pool of accounts is served whatever the cards hold. *)
Lemma get_cmd_body_cuentas (uid : Z) (upd : update) (st : store) arg0 arg1 rest
    (cant : Z) (user_data : user) (p : pool) (key : string) :
  args upd = arg0 :: arg1 :: rest → int arg1 = Some cant →
  users st !! uid = Some user_data →
  is_sin_plan (plan_normal user_data) && is_sin_plan (plan_tarjetas user_data) = false →
  find_site (stock st) (lower (strip arg0)) = (Some p, key) →
  truthy_pool (Some p) = Some p →
  get_cmd_body uid upd st = get_cmd_cuentas uid cant user_data key p st.
Proof.
  intros Ha Hi Hu Hpl Hf Ht. unfold get_cmd_body.
  rewrite Ha, Hi, Hu, Hpl, Hf. cbv beta iota. by rewrite Ht.
Qed.

(** The cards are looked at when no true pool of accounts was found, under
    the name that the first search left in [sitio]. *)
Lemma get_cmd_body_tarjetas (uid : Z) (upd : update) (st : store) arg0 arg1 rest
    (cant : Z) (user_data : user) (p : pool) (key : string) :
  args upd = arg0 :: arg1 :: rest → int arg1 = Some cant →
  users st !! uid = Some user_data →
  is_sin_plan (plan_normal user_data) && is_sin_plan (plan_tarjetas user_data) = false →
  truthy_pool (find_site (stock st) (lower (strip arg0))).1 = None →
  find_site (cards st) (find_site (stock st) (lower (strip arg0))).2 = (Some p, key) →
  truthy_pool (Some p) = Some p →
  get_cmd_body uid upd st = get_cmd_tarjetas uid cant user_data key p st.
Proof.
  intros Ha Hi Hu Hpl Hn Hf Ht. unfold get_cmd_body.
  rewrite Ha, Hi, Hu, Hpl.
  destruct (find_site (stock st) (lower (strip arg0))) as [found sitio].
  cbv beta iota. cbn [fst snd] in Hn, Hf. rewrite Hn, Hf. cbv beta iota. by rewrite Ht.
Qed.

Lemma admitted_save_users (st : store) (v : gmap Z user) (st' : store) (uid : Z) :
  banned_users st' = banned_users st → admitted st uid → admitted st' uid.
Proof. intros E [Hnz Hok]. split; [done |]. by rewrite E. Qed.


(** *** Bans *)

Lemma NoDup_snoc_fresh (lst : list Z) (x : Z) : NoDup lst → x ∉ lst → NoDup (lst ++ [x]).
Proof.
  intros Hnd Hx. apply NoDup_app. split; [done |]. split; [|apply NoDup_singleton].
  intros y Hy Hy'. apply list_elem_of_singleton in Hy'. by subst.
Qed.

(** The list of bans never holds an id twice: the handlers that write it
    keep it so. *)
Lemma banned_users_NoDup (st : store) :
  NoDup (banned_users st) →
  (∀ o, NoDup (banned_users (step o st).1)) ∧
  (∀ upd, NoDup (banned_users (ban_user_end upd st).1.1)) ∧
  (∀ upd, NoDup (banned_users (unban_user_end upd st).1.1)).
Proof.
  intros Hnd. split; [|split].
  - intros [upd | upd]; simpl.
    + unfold key_cmd.
      destruct (check_ban_cases key_cmd_body upd st) as [[-> | ->] | (uid & _ & _ & ->)];
        [done | done |].
      unfold key_cmd_body. branches.
      match goal with H : bool_decide _ = false |- _ => apply bool_decide_eq_false in H end.
      by apply NoDup_snoc_fresh.
    + unfold get_cmd.
      destruct (check_ban_cases get_cmd_body upd st) as [[-> | ->] | (uid & _ & _ & ->)];
        [done | done |].
      by destruct (get_cmd_body_keys uid upd st) as (_ & _ & ->).
  - intros upd. unfold ban_user_end, check_admin, ban_user_end_body.
    branches.
    match goal with H : bool_decide _ = false |- _ => apply bool_decide_eq_false in H end.
    by apply NoDup_snoc_fresh.
  - intros upd. unfold unban_user_end, check_admin, unban_user_end_body.
    branches; by apply list_remove_first_NoDup.
Qed.

(** C9. When an admin sends the id of a banned user to [unban_user_end]
    (the list of bans holding no id twice), the id is no longer in the list
    of bans, every other id is banned exactly as before, the user's
    [invalid_key_attempts] is 0, and the user's two plans, like the records
    of all other users, are what they were. *)
Theorem unban_resets_attempts (upd : update) (st : store) (admin_id u : Z) :
  effective_user upd = Some admin_id → admin_id ≠ 0 → is_admin st admin_id = true →
  int (message_text upd) = Some u →
  u ∈ banned_users st → NoDup (banned_users st) →
  let out := unban_user_end upd st in
  let st' := out.1.1 in
  out.1.2 = UnbanDone u ∧ out.2 = Some END ∧
  (u ∉ banned_users st') ∧
  (∀ y, y ≠ u → (y ∈ banned_users st' ↔ y ∈ banned_users st)) ∧
  attempts_of st' u = 0 ∧
  users st' !! u = set_invalid_key_attempts 0 <$> users st !! u ∧
  plan_normal <$> users st' !! u = plan_normal <$> users st !! u ∧
  plan_tarjetas <$> users st' !! u = plan_tarjetas <$> users st !! u ∧
  (∀ y, y ≠ u → users st' !! y = users st !! y).
Proof.
  intros Hu Hnz Hadm Hi Hb Hnd out st'. subst st' out.
  unfold unban_user_end, check_admin. rewrite Hu.
  destruct (admin_id =? 0) eqn:E0; [apply Z.eqb_eq in E0; done |].
  rewrite Hadm. simpl. unfold unban_user_end_body. rewrite Hi.
  rewrite bool_decide_eq_true_2 by done. simpl.
  destruct (list_remove_first_NoDup u (banned_users st) Hnd) as (Hgone & _ & Hothers).
  unfold attempts_of.
  destruct (users st !! u) as [user_data|] eqn:Eu; simpl.
  - rewrite lookup_insert_eq. simpl. repeat split; try done; try apply Hothers; try done.
    intros y Hy. by rewrite lookup_insert_ne.
  - rewrite Eu. simpl. repeat split; try done; apply Hothers; done.
Qed.

(** *** Uploading accounts *)

(** A message in the state [AWAITING_STOCK_ACCOUNTS] appends to the batch
    what it would add to an empty one, and stays in that state. *)
Lemma receive_accounts_appends (m : message) (site usage : option string)
    (batch : list item) :
  ∃ r, receive_accounts m (Context site usage (Some batch)) =
         Some (Context site usage (Some (batch ++ turn_accounts m)), r,
               AWAITING_STOCK_ACCOUNTS).
Proof.
  unfold turn_accounts, receive_accounts. simpl.
  destruct (last (msg_photo m)); [|destruct (msg_video m); [|destruct (msg_animation m);
    [|destruct (opt_truthy (msg_text m))]]];
    (destruct (opt_truthy (str_or (msg_caption m) (msg_text m))); simpl;
     [|eexists; by rewrite app_nil_r]);
    try (eexists; reflexivity).
  destruct (is_nil _); simpl; eexists; by rewrite ?app_nil_r.
Qed.

Lemma run_add_stock_turns (turns : list message) (tail : list event)
    (site usage : option string) (batch : list item) (st : store) :
  run_add_stock ((Incoming <$> turns) ++ tail) (Some AWAITING_STOCK_ACCOUNTS)
    (Context site usage (Some batch)) st =
  run_add_stock tail (Some AWAITING_STOCK_ACCOUNTS)
    (Context site usage (Some (batch ++ (turns ≫= turn_accounts)))) st.
Proof.
  revert batch. induction turns as [|m turns IH]; intros batch; simpl.
  - by rewrite app_nil_r.
  - destruct (receive_accounts_appends m site usage batch) as [r ->]. simpl.
    rewrite IH. by rewrite <- app_assoc.
Qed.

(** C8, amended. An upload of accounts runs from the button through a
    text with the name of the site, a text with the usage message and any
    number of messages with accounts to [/done]. The batch is then the
    accounts of the messages in their order. When the batch is not empty,
    [/done] writes to the entry of [stock.json] under the lower-cased name
    exactly the usage message and the batch, in place of whatever that
    entry held and leaving the other entries alone; when the batch is empty
    [/done] writes nothing and the stock is as before. In particular the
    name "spotify" with the texts "acc1\nacc2" and "acc3" yields an entry of
    exactly the three accounts acc1, acc2, acc3. *)
Theorem finish_add_stock_replaces :
  (∀ (m_site m_usage : message) (turns : list message) (ctx : context) (st : store),
     opt_truthy (msg_text m_site) = true → opt_truthy (msg_text m_usage) = true →
     let site := lower (strip (default "" (msg_text m_site))) in
     let usage := strip (default "" (msg_text m_usage)) in
     let batch := turns ≫= turn_accounts in
     let evs := Callback "addstock_start" :: Incoming m_site :: Incoming m_usage
                  :: (Incoming <$> turns) ++ [Command "done"] in
     ∃ st', run_add_stock evs None ctx st
              = Some (None, Context (Some site) (Some usage) (Some batch), st') ∧
       (batch ≠ [] →
          stock st' = dict_set site (Rich (Some usage) batch) (stock st) ∧
          dict_get site (stock st') = Some (Rich (Some usage) batch) ∧
          (∀ k, k ≠ site → dict_get k (stock st') = dict_get k (stock st)) ∧
          st' = save_stock (stock st') st) ∧
       (batch = [] → st' = st))
  ∧
  (∀ (usage : string) (ctx : context) (st : store),
     strip "spotify" = "spotify" → lower "spotify" = "spotify" →
     strip "acc1" = "acc1" → strip "acc2" = "acc2" → strip "acc3" = "acc3" →
     str_truthy usage = true →
     let evs := [Callback "addstock_start"; Incoming (text_message "spotify");
                 Incoming (text_message usage);
                 Incoming (text_message ("acc1" +:+ String "010"%char "acc2"));
                 Incoming (text_message "acc3"); Command "done"] in
     ∃ ctx' st', run_add_stock evs None ctx st = Some (None, ctx', st') ∧
       dict_get "spotify" (stock st') =
         Some (Rich (Some (strip usage))
                 [Item "acc1" None (Some text); Item "acc2" None (Some text);
                  Item "acc3" None (Some text)])).
Proof.
  assert (Hgen : ∀ (m_site m_usage : message) (turns : list message) (ctx : context) (st : store),
     opt_truthy (msg_text m_site) = true → opt_truthy (msg_text m_usage) = true →
     let site := lower (strip (default "" (msg_text m_site))) in
     let usage := strip (default "" (msg_text m_usage)) in
     let batch := turns ≫= turn_accounts in
     run_add_stock (Callback "addstock_start" :: Incoming m_site :: Incoming m_usage
                      :: (Incoming <$> turns) ++ [Command "done"]) None ctx st
     = Some (None, Context (Some site) (Some usage) (Some batch),
             if is_nil batch then st
             else save_stock (dict_set site (Rich (Some usage) batch) (stock st)) st)).
  { intros m_site m_usage turns ctx st Hs Hu site usage batch.
    cbn [run_add_stock conv_handler_add_stock start_add_stock leave mbind option_bind].
    rewrite Hs.
    cbn [run_add_stock conv_handler_add_stock get_stock_site leave mbind option_bind].
    rewrite Hu.
    cbn [run_add_stock conv_handler_add_stock get_stock_message leave mbind option_bind
         stock_site stock_message temp_accounts].
    rewrite run_add_stock_turns. fold site usage. simpl. fold batch.
    by destruct batch. }
  split.
  - intros m_site m_usage turns ctx st Hs Hu site usage batch evs. subst evs.
    eexists. split; [apply Hgen; done |]. fold site usage batch. split.
    + intros Hne. destruct batch as [|x batch]; [done |]. simpl.
      split; [done |]. split; [apply dict_get_set_eq |]. split; [|done].
      intros k Hk. by apply dict_get_set_ne.
    + by intros ->.
  - intros usage ctx st Hs Hl H1 H2 H3 Hu evs. subst evs.
    eexists _, _. split.
    + apply (Hgen (text_message "spotify") (text_message usage)
               [text_message ("acc1" +:+ String "010"%char "acc2"); text_message "acc3"]);
        [done | done].
    + simpl. unfold turn_accounts, receive_accounts. simpl.
      rewrite H1, H2, H3, Hs, Hl. simpl. apply dict_get_set_eq.
Qed.

(** *** What a delivery is *)

Lemma truthy_pool_Some (c : option pool) (p : pool) : truthy_pool c = Some p → c = Some p.
Proof. destruct c as [[[|x items]|m a]|]; simpl; intros [= <-]; done. Qed.

Lemma get_cmd_cuentas_delivery (uid cant : Z) (u : user) (key : string) (p : pool)
    (st : store) :
  is_delivery (get_cmd_cuentas uid cant u key p st).2 = true →
  is_sin_plan (plan_normal u) = false ∧
  cant <= max (plan_normal u) - usados (plan_normal u) ∧
  cant <= pool_size p ∧
  get_cmd_cuentas uid cant u key p st = deliver Normal uid cant u key p st.
Proof.
  unfold get_cmd_cuentas, deliver. simpl.
  destruct (is_sin_plan (plan_normal u)); [done |].
  destruct (_ <? cant) eqn:Eb; [done |]. apply Z.ltb_ge in Eb.
  destruct p as [items | message accounts]; simpl.
  - destruct (is_nil items); [done |]. simpl.
    destruct (len items <? cant) eqn:El; [done |]. apply Z.ltb_ge in El. done.
  - destruct (is_nil accounts); [done |]. simpl.
    destruct (len accounts <? cant) eqn:El; [done |]. apply Z.ltb_ge in El.
    destruct (is_nil (slice_to cant accounts)); done.
Qed.

Lemma get_cmd_tarjetas_delivery (uid cant : Z) (u : user) (key : string) (p : pool)
    (st : store) :
  is_delivery (get_cmd_tarjetas uid cant u key p st).2 = true →
  is_sin_plan (plan_tarjetas u) = false ∧
  cant <= max (plan_tarjetas u) - usados (plan_tarjetas u) ∧
  cant <= pool_size p ∧
  get_cmd_tarjetas uid cant u key p st = deliver Tarjetas uid cant u key p st.
Proof.
  unfold get_cmd_tarjetas, deliver. simpl.
  destruct (is_sin_plan (plan_tarjetas u)); [done |].
  destruct (_ <? cant) eqn:Eb; [done |]. apply Z.ltb_ge in Eb.
  destruct p as [items | message accounts]; simpl.
  - destruct (is_nil items); [done |]. simpl.
    destruct (len items <? cant) eqn:El; [done |]. apply Z.ltb_ge in El. done.
  - destruct (is_nil accounts); [done |]. simpl.
    destruct (len accounts <? cant) eqn:El; [done |]. apply Z.ltb_ge in El. done.
Qed.

(** Every delivery of [get_cmd] is [deliver] on a pool that the search
    found, for a user with an active plan and enough balance. *)
Lemma get_cmd_body_delivery (uid : Z) (upd : update) (st : store) :
  is_delivery (get_cmd_body uid upd st).2 = true →
  ∃ k cant u key p arg0 arg1 rest,
    args upd = arg0 :: arg1 :: rest ∧ int arg1 = Some cant ∧
    users st !! uid = Some u ∧
    dict_get key (pools k st) = Some p ∧
    is_sin_plan (plan_of k u) = false ∧
    cant <= max (plan_of k u) - usados (plan_of k u) ∧
    cant <= pool_size p ∧
    get_cmd_body uid upd st = deliver k uid cant u key p st.
Proof.
  unfold get_cmd_body.
  destruct (args upd) as [|arg0 [|arg1 rest]]; [done | done |].
  destruct (int arg1) as [cant|] eqn:Ei; [|done].
  destruct (users st !! uid) as [u|]; [|done].
  destruct (_ && _); [done |].
  destruct (find_site (stock st) (lower (strip arg0))) as [c sitio] eqn:Ef.
  destruct (truthy_pool c) as [p|] eqn:Et.
  - intros Hd. apply get_cmd_cuentas_delivery in Hd as (Ha & Hb & Hs & ->).
    apply truthy_pool_Some in Et as ->.
    apply find_site_found in Ef as [_ Hg].
    exists Normal, cant, u, sitio, p, arg0, arg1, rest. repeat split; done.
  - destruct (find_site (cards st) sitio) as [c' sitio'] eqn:Ef'.
    destruct (truthy_pool c') as [p|] eqn:Et'; [|done].
    intros Hd. apply get_cmd_tarjetas_delivery in Hd as (Ha & Hb & Hs & ->).
    apply truthy_pool_Some in Et' as ->.
    apply find_site_found in Ef' as [_ Hg].
    exists Tarjetas, cant, u, sitio', p, arg0, arg1, rest. repeat split; done.
Qed.

Lemma slice_to_from {A} (n : Z) (lst : list A) : slice_to n lst ++ slice_from n lst = lst.
Proof. unfold slice_to, slice_from. apply take_drop. Qed.

Lemma pools_save_pools (k : kind) (d : dict pool) (st : store) (v : gmap Z user) :
  pools k (save_users v (save_pools k d st)) = d.
Proof. by destruct k. Qed.

Lemma get_cmd_delivery (upd : update) (st : store) :
  is_delivery (get_cmd upd st).2 = true →
  ∃ uid k cant u key p arg0 arg1 rest,
    effective_user upd = Some uid ∧ admitted st uid ∧
    args upd = arg0 :: arg1 :: rest ∧ int arg1 = Some cant ∧
    users st !! uid = Some u ∧
    dict_get key (pools k st) = Some p ∧
    is_sin_plan (plan_of k u) = false ∧
    cant <= max (plan_of k u) - usados (plan_of k u) ∧
    cant <= pool_size p ∧
    get_cmd upd st = deliver k uid cant u key p st.
Proof.
  unfold get_cmd.
  destruct (check_ban_cases get_cmd_body upd st) as [[-> | ->] | (uid & Hu & Hadm & ->)];
    [done | done |].
  intros Hd.
  destruct (get_cmd_body_delivery uid upd st Hd)
    as (k & cant & u & key & p & arg0 & arg1 & rest & H).
  exists uid, k, cant, u, key, p, arg0, arg1, rest. tauto.
Qed.

(** X1. [/get] writes nothing but the record of the user who asks and one
    pool: the two key files, the list of bans, the admins and the records
    of all other users are as before, and of [stock.json] and [cards.json]
    at most one changes. *)
Theorem get_cmd_frame (upd : update) (st : store) :
  let st' := (get_cmd upd st).1 in
  claves st' = claves st ∧ card_keys st' = card_keys st ∧
  banned_users st' = banned_users st ∧ admins st' = admins st ∧
  (∀ uid, effective_user upd ≠ Some uid → users st' !! uid = users st !! uid) ∧
  (stock st' = stock st ∨ cards st' = cards st).
Proof.
  intros st'. subst st'.
  destruct (is_delivery (get_cmd upd st).2) eqn:Ed.
  - destruct (get_cmd_delivery upd st Ed)
      as (uid & k & cant & u & key & p & _ & _ & _ & Hu & _ & _ & _ & _ & _ & _ & _ & _ & ->).
    unfold deliver. destruct k; simpl; repeat split; auto;
      intros uid' Hne; apply lookup_insert_ne; congruence.
  - assert (E : (get_cmd upd st).1 = st).
    { unfold get_cmd in *.
      destruct (check_ban_cases get_cmd_body upd st) as [[-> | ->] | (uid & _ & _ & E)];
        [done | done |].
      rewrite E in *. by apply get_cmd_body_failure. }
    rewrite E. repeat split; auto.
Qed.

(** X2. Whatever the quantity, the items that [/get] sends are the front of
    the pool it found under the name it shows, and the pool keeps exactly
    the rest in the same order: nothing is sent twice and nothing is lost.
    A batch is sent with the usage message stored with it. *)
Theorem get_cmd_sends_front (upd : update) (st : store) :
  let out := get_cmd upd st in
  (∀ k sitio cant sent used maxi, out.2 = SentList k sitio cant sent used maxi →
     ∃ kept, dict_get sitio (pools k st) = Some (Legacy (sent ++ kept)) ∧
             dict_get sitio (pools k out.1) = Some (Legacy kept))
  ∧
  (∀ k sitio sent usage used maxi, out.2 = SentItems k sitio sent usage used maxi →
     ∃ message kept, dict_get sitio (pools k st) = Some (Rich message (sent ++ kept)) ∧
                     dict_get sitio (pools k out.1) = Some (Rich message kept) ∧
                     usage = default "" message).
Proof.
  intros out. subst out. split.
  - intros k sitio cant sent used maxi Hr.
    assert (Ed : is_delivery (get_cmd upd st).2 = true) by (by rewrite Hr).
    destruct (get_cmd_delivery upd st Ed)
      as (uid & k' & cant' & u & key & p & _ & _ & _ & _ & _ & _ & _ & _ & Hg & _ & _ & _ & E).
    rewrite E in Hr |- *. unfold deliver in *. simpl in Hr.
    destruct p as [items | message accounts]; [|done].
    injection Hr as -> -> -> <- _ _.
    exists (slice_from cant items). rewrite slice_to_from. split; [done |].
    simpl. rewrite pools_save_pools. apply dict_get_set_eq.
  - intros k sitio sent usage used maxi Hr.
    assert (Ed : is_delivery (get_cmd upd st).2 = true) by (by rewrite Hr).
    destruct (get_cmd_delivery upd st Ed)
      as (uid & k' & cant' & u & key & p & _ & _ & _ & _ & _ & _ & _ & _ & Hg & _ & _ & _ & E).
    rewrite E in Hr |- *. unfold deliver in *. simpl in Hr.
    destruct p as [items | message accounts]; [done |].
    injection Hr as -> -> <- <- _ _.
    exists message, (slice_from cant' accounts). rewrite slice_to_from. split; [done |].
    split; [|done]. simpl. rewrite pools_save_pools. apply dict_get_set_eq.
Qed.

(** X3. A delivery charges what was asked for. Whenever [/get] answers
    with a delivery, the request has a second argument that [int] reads as
    a number [cant], and the record of the user read back from the users
    file has, on the plan of the kind that the reply names, the same name
    and [max] and [usados] higher by exactly [cant], which is at most
    [max]; the user's other plan and counter are untouched, the reply shows
    the new [usados] and [max], and when [cant] is not negative it is the
    number of items sent. *)
Theorem get_cmd_charges_what_it_sends (upd : update) (st : store) :
  is_delivery (get_cmd upd st).2 = true →
  ∃ uid u u' arg0 arg1 rest cant k sitio,
    effective_user upd = Some uid ∧
    args upd = arg0 :: arg1 :: rest ∧ int arg1 = Some cant ∧
    delivery_site (get_cmd upd st).2 = Some (k, sitio) ∧
    users st !! uid = Some u ∧ users (get_cmd upd st).1 !! uid = Some u' ∧
    plan_of k u'
      = Plan (nombre (plan_of k u)) (max (plan_of k u)) (usados (plan_of k u) + cant) ∧
    (∀ k', k' ≠ k → plan_of k' u' = plan_of k' u) ∧
    invalid_key_attempts u' = invalid_key_attempts u ∧
    usados (plan_of k u) + cant <= max (plan_of k u) ∧
    delivery_usage (get_cmd upd st).2
      = Some (usados (plan_of k u) + cant, max (plan_of k u)) ∧
    (0 <= cant → sent_count (get_cmd upd st).2 = cant).
Proof.
  intros Ed.
  destruct (get_cmd_delivery upd st Ed)
    as (uid & k & cant & u & key & p & arg0 & arg1 & rest
        & Hu & _ & Ha & Hi & Hr & _ & _ & Hb & Hs & E).
  exists uid, u, (set_plan_of k (set_usados (usados (plan_of k u) + cant) (plan_of k u)) u),
    arg0, arg1, rest, cant, k, key.
  rewrite E. unfold deliver. cbn [fst snd users save_users].
  rewrite lookup_insert_eq.
  split; [done |]. split; [done |]. split; [done |].
  split; [by destruct p |]. split; [done |]. split; [done |].
  split; [by destruct k |]. split; [intros k' Hk; by destruct k, k' |].
  split; [by destruct k |]. split; [lia |]. split; [by destruct p |].
  intros Hc. destruct p as [items | message accounts]; simpl in *;
    rewrite slice_to_take by done; unfold len in *; rewrite length_take; lia.
Qed.

(** X4. [/get] does not turn a negative quantity away. On an old list of
    accounts, for a user with an active plan, a quantity [cant < 0] is
    served: the reply hands out all but the last [-cant] accounts, the pool
    keeps those last ones, and [usados] goes down by [-cant]. When [-cant]
    is at least the length of the list nothing is sent, the pool is what it
    was, and the user still has [-cant] more uses than before. *)
Theorem get_cmd_negative_quantity_served (uid : Z) (upd : update) (st : store)
    (arg0 arg1 : string) (rest : list string) (cant : Z) (u : user)
    (key : string) (items : list string) :
  effective_user upd = Some uid → admitted st uid →
  args upd = arg0 :: arg1 :: rest → int arg1 = Some cant → cant < 0 →
  users st !! uid = Some u →
  nombre (plan_normal u) ≠ "Sin plan" →
  usados (plan_normal u) <= max (plan_normal u) →
  find_site (stock st) (lower (strip arg0)) = (Some (Legacy items), key) →
  items ≠ [] →
  let n := Z.to_nat (len items + cant) in
  let out := get_cmd upd st in
  out.2 = SentList Normal key cant (take n items)
            (usados (plan_normal u) + cant) (max (plan_normal u)) ∧
  dict_get key (stock out.1) = Some (Legacy (drop n items)) ∧
  usados ∘ plan_normal <$> users out.1 !! uid = Some (usados (plan_normal u) + cant) ∧
  (cant <= - len items → take n items = [] ∧ drop n items = items).
Proof.
  intros Hu Hadm Ha Hi Hc Hl Hact Hok Hf Hne n out. subst out.
  unfold get_cmd. rewrite (check_ban_admitted _ _ _ _ Hu Hadm).
  apply is_sin_plan_false in Hact.
  rewrite (get_cmd_body_cuentas uid upd st arg0 arg1 rest cant u (Legacy items) key Ha Hi Hl);
    [| by rewrite Hact | done | by destruct items].
  unfold get_cmd_cuentas. rewrite Hact.
  destruct (_ <? cant) eqn:Eb; [apply Z.ltb_lt in Eb; lia |].
  assert (is_nil items = false) as -> by (by destruct items).
  destruct (len items <? cant) eqn:El; [apply Z.ltb_lt in El; unfold len in El; lia |].
  simpl. rewrite lookup_insert_eq. simpl.
  assert (Eb' : slice_bound cant items = n).
  { unfold slice_bound. destruct (cant <? 0) eqn:E; [|apply Z.ltb_ge in E; lia].
    subst n. unfold len. lia. }
  unfold slice_to, slice_from. rewrite Eb'.
  split; [done |]. split; [apply dict_get_set_eq |]. split; [done |].
  intros Hall. assert (n = 0%nat) as -> by (subst n; lia). done.
Qed.

(** *** What a banned user can do *)

(** X5. A banned user other than the super-admin changes nothing: whatever
    [/key] and [/get] requests the user sends, the store stays as it is and
    every one of them is answered with the ban notice (with nothing for the
    id 0). *)
Theorem banned_user_changes_nothing (u : Z) (ops : list op) (st : store) :
  u ≠ ADMIN → u ∈ banned_users st →
  Forall (λ o, effective_user (op_update o) = Some u) ops →
  run ops st = (st, (λ _, if u =? 0 then Silent else BannedNotice) <$> ops).
Proof.
  intros Hna Hb Hall. induction Hall as [|o ops Ho _ IH]; [done |].
  rewrite run_cons.
  assert (E : step o st = (st, if u =? 0 then Silent else BannedNotice)).
  { destruct o as [upd | upd]; simpl in *;
      [unfold key_cmd | unfold get_cmd]; by apply check_ban_banned. }
  rewrite E. simpl. by rewrite IH.
Qed.

Lemma key_cmd_body_attempts (uid : Z) (upd : update) (st : store) (x : Z) :
  attempts_of st x <= attempts_of (key_cmd_body uid upd st).1 x.
Proof.
  unfold key_cmd_body, attempts_of.
  destruct (args upd) as [|arg0 rest]; [done |]. simpl.
  destruct (decide (x = uid)) as [-> | Hne].
  - branches; rewrite ?lookup_insert_eq; simpl; lia.
  - branches; rewrite ?lookup_insert_ne by done; lia.
Qed.

Lemma get_cmd_body_attempts (uid : Z) (upd : update) (st : store) (x : Z) :
  attempts_of (get_cmd_body uid upd st).1 x = attempts_of st x.
Proof.
  destruct (is_delivery (get_cmd_body uid upd st).2) eqn:Ed.
  - destruct (get_cmd_body_delivery uid upd st Ed)
      as (k & cant & u & key & p & _ & _ & _ & _ & _ & Hl & _ & _ & _ & _ & ->).
    unfold deliver, attempts_of. simpl.
    destruct (decide (x = uid)) as [-> | Hne].
    + rewrite lookup_insert_eq, Hl. by destruct k.
    + by rewrite lookup_insert_ne.
  - by rewrite get_cmd_body_failure.
Qed.

Lemma step_bans_attempts (o : op) (st : store) (x : Z) :
  (x ∈ banned_users st → x ∈ banned_users (step o st).1) ∧
  attempts_of st x <= attempts_of (step o st).1 x.
Proof.
  destruct o as [upd | upd]; simpl.
  - split; [apply key_cmd_keeps_bans |]. unfold key_cmd.
    destruct (check_ban_cases key_cmd_body upd st) as [[-> | ->] | (uid & _ & _ & ->)];
      [done | done |].
    apply key_cmd_body_attempts.
  - unfold get_cmd.
    destruct (check_ban_cases get_cmd_body upd st) as [[-> | ->] | (uid & _ & _ & ->)];
      [done | done |].
    destruct (get_cmd_body_keys uid upd st) as (_ & _ & ->).
    rewrite get_cmd_body_attempts. split; [done | lia].
Qed.

(** X6. No sequence of [/key] and [/get] requests lifts a ban or lowers a
    counter of invalid keys: an id in the list of bans is still in it
    afterwards and [invalid_key_attempts] of every user is at least what it
    was; in particular a key that activates a plan does not reset it. *)
Theorem bans_and_attempts_only_grow (ops : list op) (st : store) (x : Z) :
  (x ∈ banned_users st → x ∈ banned_users (run ops st).1) ∧
  attempts_of st x <= attempts_of (run ops st).1 x.
Proof.
  revert st. induction ops as [|o ops IH]; intros st; [split; [done | simpl; lia] |].
  rewrite run_cons. simpl.
  destruct (step_bans_attempts o st x) as [Hb Ha].
  destruct (IH (step o st).1) as [Hb' Ha']. split; [auto | lia].
Qed.

(** *** Banning and unbanning *)

Lemma check_admin_admitted (func : Z → update → store → store * reply * conv_state)
    (upd : update) (st : store) (caller : Z) :
  effective_user upd = Some caller → caller ≠ 0 → is_admin st caller = true →
  check_admin func upd st =
    ((func caller upd st).1.1, (func caller upd st).1.2, Some (func caller upd st).2).
Proof.
  intros Hu Hnz Hadm. unfold check_admin. rewrite Hu.
  destruct (caller =? 0) eqn:E; [apply Z.eqb_eq in E; done |].
  rewrite Hadm. simpl. by destruct (func caller upd st) as [[? ?] ?].
Qed.

Lemma check_admin_refused (func : Z → update → store → store * reply * conv_state)
    (upd : update) (st : store) (caller : Z) :
  effective_user upd = Some caller → is_admin st caller = false →
  check_admin func upd st = (st, if caller =? 0 then Silent else Unauthorized, None).
Proof.
  intros Hu Hadm. unfold check_admin. rewrite Hu.
  destruct (caller =? 0); [done |]. by rewrite Hadm.
Qed.

Lemma list_remove_first_snoc (x : Z) (lst : list Z) :
  x ∉ lst → list_remove_first x (lst ++ [x]) = lst.
Proof.
  induction lst as [|y lst IH]; simpl; intros Hx.
  - by rewrite decide_True.
  - apply not_elem_of_cons in Hx as [Hne Hx].
    rewrite decide_False by done. by rewrite IH.
Qed.

(** X7. Only an admin bans. When a user who is not an admin sends an id to
    [ban_user_end], the store is left as it is. When an admin sends the id
    of a user who is not banned, that id is appended to the list of bans and
    nothing else changes; unless it is the super-admin's id, every [/key]
    and [/get] of that user is from then on turned away without touching
    the store. *)
Theorem ban_user_end_effect (upd : update) (st : store) (caller u : Z) :
  effective_user upd = Some caller → int (message_text upd) = Some u →
  (is_admin st caller = false → (ban_user_end upd st).1.1 = st) ∧
  (caller ≠ 0 → is_admin st caller = true → u ∉ banned_users st →
     let st' := (ban_user_end upd st).1.1 in
     st' = save_bans (banned_users st ++ [u]) st ∧
     (u ≠ ADMIN → ∀ upd', effective_user upd' = Some u →
        key_cmd upd' st' = (st', if u =? 0 then Silent else BannedNotice) ∧
        get_cmd upd' st' = (st', if u =? 0 then Silent else BannedNotice))).
Proof.
  intros Hu Hi. split.
  - intros Hadm. unfold ban_user_end. by rewrite (check_admin_refused _ _ _ caller).
  - intros Hnz Hadm Hnb st'. subst st'.
    unfold ban_user_end. rewrite (check_admin_admitted _ _ _ caller) by done.
    unfold ban_user_end_body. rewrite Hi.
    rewrite bool_decide_eq_false_2 by done. simpl. split; [done |].
    intros Hna upd' Hu'.
    assert (Hin : u ∈ banned_users (save_bans (banned_users st ++ [u]) st)).
    { simpl. apply elem_of_app. right. by apply list_elem_of_singleton. }
    split; [unfold key_cmd | unfold get_cmd]; by apply check_ban_banned.
Qed.

(** [unban_user_end] on the id of a banned user. *)
Lemma unban_user_end_body_banned (caller : Z) (upd : update) (st : store) (u : Z) :
  int (message_text upd) = Some u → u ∈ banned_users st →
  let st1 := save_bans (list_remove_first u (banned_users st)) st in
  unban_user_end_body caller upd st =
    (match users st !! u with
     | Some r => save_users (<[u := set_invalid_key_attempts 0 r]> (users st)) st1
     | None => st1
     end, UnbanDone u, END).
Proof.
  intros Hi Hb. unfold unban_user_end_body. rewrite Hi.
  by rewrite bool_decide_eq_true_2.
Qed.


(** Three unknown keys in a row from a user with a counter of 0. *)
Lemma three_unknown_keys (u : Z) (upd1 upd2 upd3 : update) (st : store) :
  admitted st u → attempts_of st u = 0 →
  unknown_key_update st u upd1 → unknown_key_update st u upd2 →
  unknown_key_update st u upd3 →
  (run [Redeem upd1; Redeem upd2; Redeem upd3] st).2 = [InvalidKey 2; InvalidKey 1; Banned] ∧
  u ∈ banned_users (run [Redeem upd1; Redeem upd2; Redeem upd3] st).1.
Proof.
  intros Hadm H0 H1 H2 H3. rewrite !run_cons. simpl.
  set (st1 := (key_cmd upd1 st).1). set (st2 := (key_cmd upd2 st1).1).
  assert (Hstep : ∀ s upd, admitted s u → unknown_key_update s u upd →
            attempts_of (key_cmd upd s).1 u = attempts_of s u + 1 ∧
            (key_cmd upd s).2 = invalid_key_reply (attempts_of s u + 1) ∧
            (3 <= attempts_of s u + 1 → u ∈ banned_users (key_cmd upd s).1) ∧
            (attempts_of s u + 1 < 3 → banned_users (key_cmd upd s).1 = banned_users s)).
  { intros s upd Ha (Hu & arg0 & rest & Hargs & Hk & Hc).
    destruct (key_cmd_unknown u upd s arg0 rest Hu Ha Hargs Hk Hc) as (? & ? & ? & ? & _).
    done. }
  destruct (Hstep st upd1 Hadm H1) as (E1 & R1 & _ & K1). fold st1 in E1, K1.
  rewrite H0 in *. specialize (K1 ltac:(lia)).
  assert (Hadm1 : admitted st1 u).
  { destruct Hadm as [? ?]. split; [done |]. by rewrite K1. }
  assert (H2' : unknown_key_update st1 u upd2) by (by apply unknown_key_update_step).
  assert (H3' : unknown_key_update st1 u upd3) by (by apply unknown_key_update_step).
  destruct (Hstep st1 upd2 Hadm1 H2') as (E2 & R2 & _ & K2). fold st2 in E2, K2.
  rewrite E1 in *. specialize (K2 ltac:(lia)).
  assert (Hadm2 : admitted st2 u).
  { destruct Hadm1 as [? ?]. split; [done |]. by rewrite K2. }
  assert (H3'' : unknown_key_update st2 u upd3) by (by apply unknown_key_update_step).
  destruct (Hstep st2 upd3 Hadm2 H3'') as (E3 & R3 & B3 & _).
  rewrite E2 in *. split; [by rewrite R1, R2, R3 | apply B3; lia].
Qed.

(** X9. Unbanning gives a user three fresh attempts: after an admin unbans
    a banned user (an id that is in the list once), three [/key] requests
    of that user with unknown codes are answered with 2 attempts left, 1
    attempt left, and the ban, which puts the user back in the list. *)
Theorem unban_then_three_attempts (upd upd1 upd2 upd3 : update) (st : store)
    (caller u : Z) :
  effective_user upd = Some caller → caller ≠ 0 → is_admin st caller = true →
  int (message_text upd) = Some u → u ≠ 0 →
  u ∈ banned_users st → NoDup (banned_users st) →
  unknown_key_update st u upd1 → unknown_key_update st u upd2 →
  unknown_key_update st u upd3 →
  let st' := (unban_user_end upd st).1.1 in
  (u ∉ banned_users st') ∧
  (run [Redeem upd1; Redeem upd2; Redeem upd3] st').2
    = [InvalidKey 2; InvalidKey 1; Banned] ∧
  u ∈ banned_users (run [Redeem upd1; Redeem upd2; Redeem upd3] st').1.
Proof.
  intros Hu Hnz Hadm Hi Hunz Hb Hnd H1 H2 H3 st'.
  assert (E : st' = match users st !! u with
                    | Some r => save_users (<[u := set_invalid_key_attempts 0 r]> (users st))
                                  (save_bans (list_remove_first u (banned_users st)) st)
                    | None => save_bans (list_remove_first u (banned_users st)) st
                    end).
  { subst st'. unfold unban_user_end.
    rewrite (check_admin_admitted _ _ _ caller) by done.
    by rewrite (unban_user_end_body_banned caller upd st u Hi Hb). }
  destruct (list_remove_first_NoDup u (banned_users st) Hnd) as (Hgone & _ & _).
  assert (Hkeys : claves st' = claves st ∧ card_keys st' = card_keys st ∧
                  banned_users st' = list_remove_first u (banned_users st) ∧
                  attempts_of st' u = 0).
  { rewrite E. unfold attempts_of. destruct (users st !! u) as [r|] eqn:Er; simpl.
    - by rewrite lookup_insert_eq.
    - by rewrite Er. }
  destruct Hkeys as (Ek & Ec & Ebn & E0).
  assert (Hnb : u ∉ banned_users st') by (by rewrite Ebn).
  assert (Hmove : ∀ upd', unknown_key_update st u upd' → unknown_key_update st' u upd').
  { intros upd' (Hu' & arg0 & rest & Ha & Hk & Hc). split; [done |].
    exists arg0, rest. by rewrite Ek, Ec. }
  split; [done |].
  apply three_unknown_keys; auto. split; [done | by right].
Qed.

(** *** More on uploading accounts *)

Lemma conv_handler_add_stock_store (state : option conv_state) (ev : event)
    (ctx : context) (st : store) state' ctx' st' rs :
  ev ≠ Command "done" →
  conv_handler_add_stock state ev ctx st = Some (state', ctx', st', rs) → st' = st.
Proof using strip lower.
  intros Hev. unfold conv_handler_add_stock.
  destruct state as [s|]; destruct ev as [data | name | m].
  - destruct s; simpl; intros ?; by simplify_eq.
  - assert (Hn : name ≠ "done") by congruence. clear Hev.
    destruct s; simpl;
      repeat (match goal with
              | |- context [match ?x with _ => _ end] => is_var x; destruct x
              end);
      try congruence; intros ?; by simplify_eq.
  - destruct s; simpl; try (intros ?; by simplify_eq).
    + destruct (opt_truthy (msg_text m)); simpl; intros ?; by simplify_eq.
    + destruct (opt_truthy (msg_text m)); simpl; intros ?; by simplify_eq.
    + destruct (receive_accounts m ctx) as [[[c r] s]|]; simpl; [|done].
      intros ?; by simplify_eq.
  - repeat case_match; simpl; intros ?; by simplify_eq.
  - simpl; intros ?; by simplify_eq.
  - simpl; intros ?; by simplify_eq.
Qed.

(** X10. In the upload of accounts only [/done] writes to the store: a run
    of the conversation through any buttons, commands and messages that do
    not include [/done] leaves the store as it was, and [/cancel] in any
    state of the conversation ends it without writing. *)
Theorem upload_writes_only_on_done (evs : list event) (state : option conv_state)
    (ctx : context) (st : store) :
  Command "done" ∉ evs →
  (∀ state' ctx' st', run_add_stock evs state ctx st = Some (state', ctx', st') → st' = st) ∧
  (∀ s, conv_handler_add_stock (Some s) (Command "cancel") ctx st
          = Some (None, ctx, st, [Cancelled])).
Proof using strip lower.
  intros Hno. split; [|by intros []].
  revert state ctx st. induction evs as [|ev evs IH]; intros state ctx st state' ctx' st'.
  - simpl. intros ?; by simplify_eq.
  - apply not_elem_of_cons in Hno as [Hev Hno]. simpl.
    destruct (conv_handler_add_stock state ev ctx st) as [[[[s1 c1] st1] rs]|] eqn:E; [|done].
    simpl. intros Hrun. apply (IH Hno) in Hrun. subst st'.
    apply (conv_handler_add_stock_store state ev ctx st s1 c1 st1 rs); [congruence | done].
Qed.

(** The texts kept by [[acc.strip() for acc in lines if acc.strip()]] are
    the stripped lines that are not blank, in their order. *)
Lemma strip_nonblank_lines (lines : list string) :
  List.filter str_truthy (strip <$> lines)
  = strip <$> filter (λ line, strip line ≠ "") lines.
Proof.
  induction lines as [|line lines IH]; [done |].
  rewrite filter_cons. cbn [fmap list_fmap List.filter]. fold (strip <$> lines).
  destruct (decide (strip line ≠ "")) as [Hne | He].
  - cbn [fmap list_fmap]. fold (strip <$> filter (λ line, strip line ≠ "") lines).
    rewrite <- IH. by destruct (strip line).
  - apply dec_stable in He. rewrite He. cbn [str_truthy]. apply IH.
Qed.

(** X11. A text message in the upload adds one account per line that is
    not blank, in the order of the lines: the accounts it adds are exactly
    the stripped texts of those lines, each without a file and of type
    "text", so there are as many as there are such lines, every such line
    is among them and nothing else is. In any context that has a batch they
    are appended to it, and when there is at least one the answer names
    their number; when every line is blank the batch stays as it was.
    ([str.strip] of the empty text is the empty text.) *)
Theorem text_accounts_are_lines (s : string) :
  strip "" = "" →
  let lines := filter (λ line, strip line ≠ "") (split_lines s) in
  let added := turn_accounts (text_message s) in
  added = (λ line, Item (strip line) None (Some text)) <$> lines ∧
  len added = len lines ∧
  (∀ line, line ∈ split_lines s → strip line ≠ "" →
     Item (strip line) None (Some text) ∈ added) ∧
  (∀ it, it ∈ added →
     (∃ line, line ∈ split_lines s ∧ account it = strip line) ∧
     account it ≠ "" ∧ file_id it = None ∧ file_type it = Some text) ∧
  (∀ ctx temp, temp_accounts ctx = Some temp →
     ∃ r, receive_accounts (text_message s) ctx
            = Some (Context (stock_site ctx) (stock_message ctx) (Some (temp ++ added)),
                    r, AWAITING_STOCK_ACCOUNTS) ∧
          (lines ≠ [] → r = AccountsAdded (len lines))).
Proof.
  intros Hstrip lines added.
  assert (Hadded : added = (λ line, Item (strip line) None (Some text)) <$> lines).
  { subst added lines. unfold turn_accounts, receive_accounts, text_message. simpl.
    destruct s as [|c s]; [simpl; rewrite filter_cons, Hstrip; by destruct (decide _) |].
    cbn [str_truthy negb default opt_truthy].
    rewrite strip_nonblank_lines.
    destruct (filter _ _) as [|l ls]; [done |]. simpl.
    by rewrite <- list_fmap_compose. }
  split; [exact Hadded |].
  split; [rewrite Hadded; unfold len; by rewrite length_fmap |].
  split.
  { intros line Hin Hne. rewrite Hadded. apply list_elem_of_fmap. exists line.
    split; [done |]. subst lines. by apply list_elem_of_filter. }
  split.
  { intros it Hin. rewrite Hadded in Hin.
    apply list_elem_of_fmap in Hin as (line & -> & Hin).
    subst lines. apply list_elem_of_filter in Hin as [Hne Hin]. simpl.
    split; [eauto |]. done. }
  intros [site usage batch] temp Ht. simpl in Ht. subst batch.
  rewrite Hadded. subst lines.
  unfold receive_accounts, text_message. simpl.
  destruct s as [|c s].
  - simpl. rewrite filter_cons, Hstrip. destruct (decide _) as [Hne | _]; [done |].
    simpl. rewrite app_nil_r. eexists. split; [done | done].
  - cbn [str_truthy negb default opt_truthy].
    rewrite strip_nonblank_lines.
    destruct (filter _ _) as [|l ls]; simpl.
    + rewrite app_nil_r. eexists. split; [done | done].
    + rewrite <- list_fmap_compose. eexists. split; [done |].
      intros _. unfold len. cbn [length]. do 3 f_equal. apply length_fmap.
Qed.

(** The whole upload, from the button to [/done]. *)
Lemma run_add_stock_session (m_site m_usage : message) (turns : list message)
    (ctx : context) (st : store) :
  opt_truthy (msg_text m_site) = true → opt_truthy (msg_text m_usage) = true →
  let site := lower (strip (default "" (msg_text m_site))) in
  let usage := strip (default "" (msg_text m_usage)) in
  let batch := turns ≫= turn_accounts in
  run_add_stock (Callback "addstock_start" :: Incoming m_site :: Incoming m_usage
                   :: (Incoming <$> turns) ++ [Command "done"]) None ctx st
  = Some (None, Context (Some site) (Some usage) (Some batch),
          if is_nil batch then st
          else save_stock (dict_set site (Rich (Some usage) batch) (stock st)) st).
Proof.
  intros Hs Hu site usage batch.
  cbn [run_add_stock conv_handler_add_stock start_add_stock leave mbind option_bind].
  rewrite Hs.
  cbn [run_add_stock conv_handler_add_stock get_stock_site leave mbind option_bind].
  rewrite Hu.
  cbn [run_add_stock conv_handler_add_stock get_stock_message leave mbind option_bind
       stock_site stock_message temp_accounts].
  rewrite run_add_stock_turns. fold site usage. simpl. fold batch.
  by destruct batch.
Qed.

Lemma find_site_dict_set (d : dict pool) (site sitio : string) (v : pool) :
  lower site = sitio →
  (∀ k, k ∈ dict_keys d → lower k = sitio → k = site) →
  find_site (dict_set site v d) sitio = (Some v, site).
Proof.
  intros Hl Hfirst. unfold find_site.
  assert (E : List.find (λ key, String.eqb (lower key) sitio) (dict_keys (dict_set site v d))
              = Some site).
  { induction d as [|[k' v'] d IH]; simpl.
    - by rewrite Hl, String.eqb_refl.
    - destruct (String.eqb k' site) eqn:Ek; simpl.
      + apply String.eqb_eq in Ek. subst k'. by rewrite Hl, String.eqb_refl.
      + destruct (String.eqb (lower k') sitio) eqn:El.
        * apply String.eqb_eq in El. apply String.eqb_neq in Ek.
          destruct Ek. apply Hfirst; [apply list_elem_of_here | done].
        * apply IH. intros k Hk. apply Hfirst. by apply list_elem_of_further. }
  rewrite E. by rewrite dict_get_set_eq.
Qed.

(** X12. What is uploaded is what [/get] hands out. After an upload of a
    batch that is not empty, when the name asked for matches the lower-cased
    name of the upload and no other entry of [stock.json], a user with an
    active plan and at least one use left who asks for one account gets the
    first account of the batch with the uploaded usage message, and the
    entry keeps the rest of the batch. *)
Theorem upload_then_get (m_site m_usage : message) (turns : list message)
    (ctx : context) (st : store) (uid : Z) (upd : update)
    (arg0 arg1 : string) (rest : list string) (u : user)
    (first : item) (others : list item) :
  opt_truthy (msg_text m_site) = true → opt_truthy (msg_text m_usage) = true →
  let site := lower (strip (default "" (msg_text m_site))) in
  let usage := strip (default "" (msg_text m_usage)) in
  turns ≫= turn_accounts = first :: others →
  effective_user upd = Some uid → admitted st uid →
  args upd = arg0 :: arg1 :: rest → int arg1 = Some 1 →
  lower site = lower (strip arg0) →
  (∀ k, k ∈ dict_keys (stock st) → lower k = lower (strip arg0) → k = site) →
  users st !! uid = Some u →
  nombre (plan_normal u) ≠ "Sin plan" →
  1 <= max (plan_normal u) - usados (plan_normal u) →
  ∃ ctx' st',
    run_add_stock (Callback "addstock_start" :: Incoming m_site :: Incoming m_usage
                     :: (Incoming <$> turns) ++ [Command "done"]) None ctx st
      = Some (None, ctx', st') ∧
    (get_cmd upd st').2
      = SentItems Normal site [first] usage (usados (plan_normal u) + 1) (max (plan_normal u)) ∧
    dict_get site (stock (get_cmd upd st').1) = Some (Rich (Some usage) others).
Proof.
  intros Hs Hm site usage Hbatch Hu Hadm Ha Hi Hl Hfirst Hrec Hact Hbal.
  eexists _, _. split; [by apply run_add_stock_session |].
  fold site usage. rewrite Hbatch. simpl.
  set (p := Rich (Some usage) (first :: others)).
  set (st' := save_stock (dict_set site p (stock st)) st).
  assert (Hf : find_site (stock st') (lower (strip arg0)) = (Some p, site)).
  { simpl. by apply find_site_dict_set. }
  unfold get_cmd. rewrite (check_ban_admitted _ _ _ uid) by done.
  rewrite (get_cmd_body_cuentas uid upd st' arg0 arg1 rest 1 u p site); try done.
  2:{ apply is_sin_plan_false in Hact. by rewrite Hact. }
  rewrite get_cmd_cuentas_serves; try done.
  2:{ subst p. simpl. unfold len. rewrite length_cons. lia. }
  simpl. split; [done |]. apply dict_get_set_eq.
Qed.

(** *** Making keys *)

Lemma guarded_cases (allowed : Z → bool) (refusal : notice)
    (func : Z → update → store → outcome) (upd : update) (st : store) :
  (guarded allowed refusal func upd st).1.1 = st ∨
  ∃ uid, effective_user upd = Some uid ∧ uid ≠ 0 ∧ allowed uid = true ∧
         guarded allowed refusal func upd st = func uid upd st.
Proof.
  unfold guarded. destruct (effective_user upd) as [uid|]; [|by left].
  destruct (uid =? 0) eqn:E0; [by left |]. apply Z.eqb_neq in E0.
  destruct (allowed uid) eqn:Ea; simpl; [|by left].
  right. by exists uid.
Qed.

Lemma guarded_allowed (allowed : Z → bool) (refusal : notice)
    (func : Z → update → store → outcome) (upd : update) (st : store) (uid : Z) :
  effective_user upd = Some uid → uid ≠ 0 → allowed uid = true →
  guarded allowed refusal func upd st = func uid upd st.
Proof.
  intros Hu Hnz Ha. unfold guarded. rewrite Hu.
  destruct (uid =? 0) eqn:E0; [apply Z.eqb_eq in E0; done |]. by rewrite Ha.
Qed.

Lemma guarded_refused (allowed : Z → bool) (refusal : notice)
    (func : Z → update → store → outcome) (upd : update) (st : store) (uid : Z) :
  effective_user upd = Some uid → allowed uid = false →
  guarded allowed refusal func upd st
    = (st, if uid =? 0 then [] else [refusal], Return None).
Proof.
  intros Hu Ha. unfold guarded. rewrite Hu.
  destruct (uid =? 0); [done |]. by rewrite Ha.
Qed.

Lemma gen_key_not_tarjeta (usos : Z) (c : string) :
  String.prefix "paublte-tarjeta-" (gen_key usos c) = false.
Proof. reflexivity. Qed.

Lemma superpro_key_not_tarjeta (c : string) :
  String.prefix "paublte-tarjeta-" (superpro_key c) = false.
Proof. reflexivity. Qed.

Lemma tarjeta_key_is_tarjeta (c : string) :
  String.prefix "paublte-tarjeta-" (tarjeta_key c) = true.
Proof. by destruct c. Qed.

(** The keys that [gen_cmd] writes, one after the other. *)
Lemma gen_cmd_body_claves (codigo : nat → string) (uid : Z) (upd : update) (st : store) :
  claves (gen_cmd_body codigo uid upd st).1.1 =
    <[gen_key 4 (codigo 3%nat) := ("Diamante 4", 4)]>
      (<[gen_key 3 (codigo 2%nat) := ("Oro 3", 3)]>
         (<[gen_key 2 (codigo 1%nat) := ("Plata 2", 2)]>
            (<[gen_key 1 (codigo 0%nat) := ("Bronce 1", 1)]> (claves st)))) ∧
  card_keys (gen_cmd_body codigo uid upd st).1.1 = card_keys st ∧
  users (gen_cmd_body codigo uid upd st).1.1 = users st.
Proof. done. Qed.

Lemma command_step_keys (c : command) (st : store) :
  (∀ k, is_Some (card_keys (command_step c st) !! k) →
     is_Some (card_keys st !! k) ∨ String.prefix "paublte-tarjeta-" k = true) ∧
  (∀ k, is_Some (claves (command_step c st) !! k) →
     is_Some (claves st !! k) ∨ String.prefix "paublte-tarjeta-" k = false).
Proof.
  assert (Hsub : ∀ (m m' : gmap string (string * Z)),
            (∀ k, m !! k = None → m' !! k = None) →
            ∀ k, is_Some (m' !! k) → is_Some (m !! k)).
  { intros m m' H k Hs. destruct (m !! k) eqn:E; [eauto |].
    rewrite (H k E) in Hs. by destruct Hs. }
  destruct c as [o | kc upd]; simpl.
  - split; intros k Hk; left; revert k Hk; apply Hsub; intros k Hn.
    + destruct (decide (claves st !! k = None)) as [Hc | Hc].
      * by apply (step_key_absent o st k).
      * destruct o as [u | u]; simpl.
        -- unfold key_cmd.
           destruct (check_ban_cases key_cmd_body u st) as [[-> | ->] | (uid & _ & _ & ->)];
             [done | done |].
           by apply key_cmd_body_key_absent.
        -- unfold get_cmd.
           destruct (check_ban_cases get_cmd_body u st) as [[-> | ->] | (uid & _ & _ & ->)];
             [done | done |].
           by destruct (get_cmd_body_keys uid u st) as (_ & -> & _).
    + destruct o as [u | u]; simpl.
      * unfold key_cmd.
        destruct (check_ban_cases key_cmd_body u st) as [[-> | ->] | (uid & _ & _ & ->)];
          [done | done |].
        by apply key_cmd_body_key_absent.
      * unfold get_cmd.
        destruct (check_ban_cases get_cmd_body u st) as [[-> | ->] | (uid & _ & _ & ->)];
          [done | done |].
        by destruct (get_cmd_body_keys uid u st) as (-> & _ & _).
  - destruct kc as [codigo | c | c]; unfold gen_cmd, super_pro_key_cmd, gen_cards_key_cmd,
      check_admin_on.
    + destruct (guarded_cases (is_admin st) NoAutorizado (gen_cmd_body codigo) upd st)
        as [-> | (uid & _ & _ & _ & ->)]; [split; intros; by left |].
      destruct (gen_cmd_body_claves codigo uid upd st) as (-> & -> & _).
      split; [intros; by left |]. intros k Hk.
      repeat (apply lookup_insert_is_Some in Hk as [<- | [_ Hk]];
              [right; apply gen_key_not_tarjeta |]).
      by left.
    + destruct (guarded_cases (is_admin st) NoAutorizado (super_pro_key_cmd_body c) upd st)
        as [-> | (uid & _ & _ & _ & ->)]; [split; intros; by left |].
      simpl. split; [intros; by left |]. intros k Hk.
      apply lookup_insert_is_Some in Hk as [<- | [_ Hk]]; [by right | by left].
    + destruct (guarded_cases (is_admin st) NoAutorizado (gen_cards_key_cmd_body c) upd st)
        as [-> | (uid & _ & _ & _ & ->)]; [split; intros; by left |].
      simpl. split; [|intros; by left]. intros k Hk.
      apply lookup_insert_is_Some in Hk as [<- | [_ Hk]];
        [right; apply tarjeta_key_is_tarjeta | by left].
Qed.

(** X13. The keys for cards and the other keys never meet. From a store in
    which the names of the keys for cards, and only they, start with
    "paublte-tarjeta-", any sequence of [/key] and [/get] requests and of the
    three commands that make keys, with any random codes, leads to a store
    with the same property; so no code is ever in both key files. *)
Theorem key_files_stay_apart (cs : list command) (st : store) :
  keys_apart st →
  keys_apart (run_commands cs st) ∧
  ∀ k, claves (run_commands cs st) !! k = None ∨ card_keys (run_commands cs st) !! k = None.
Proof.
  intros Hap.
  assert (H : keys_apart (run_commands cs st)).
  { revert st Hap. induction cs as [|c cs IH]; intros st Hap; [done |].
    simpl. apply IH. destruct Hap as [Hc Hn].
    destruct (command_step_keys c st) as [Hc' Hn'].
    split; intros k Hk.
    - destruct (Hc' k Hk) as [? | ?]; auto.
    - destruct (Hn' k Hk) as [? | ?]; auto. }
  split; [done |]. intros k. destruct H as [Hc Hn].
  destruct (claves (run_commands cs st) !! k) eqn:Ek; [|by left].
  destruct (card_keys (run_commands cs st) !! k) eqn:Ec; [|by right].
  assert (String.prefix "paublte-tarjeta-" k = true) by (apply Hc; by rewrite Ec).
  assert (String.prefix "paublte-tarjeta-" k = false) by (apply Hn; by rewrite Ek).
  congruence.
Qed.

Lemma command_step_invariant (c : command) (st : store) :
  plans_ok st ∧ keys_ok st → plans_ok (command_step c st) ∧ keys_ok (command_step c st).
Proof.
  intros [Hp Hk]. destruct c as [o | kc upd]; simpl; [by apply step_invariant |].
  destruct kc as [codigo | c | c]; unfold gen_cmd, super_pro_key_cmd, gen_cards_key_cmd,
    check_admin_on.
  - destruct (guarded_cases (is_admin st) NoAutorizado (gen_cmd_body codigo) upd st)
      as [-> | (uid & _ & _ & _ & ->)]; [done |].
    destruct (gen_cmd_body_claves codigo uid upd st) as (Ec & Ek & Eu).
    split; [intros x u; rewrite Eu; apply Hp |].
    intros k name maxi. rewrite Ec, Ek. intros [Hl | Hl]; [|apply (Hk k name maxi); auto].
    repeat (apply lookup_insert_Some in Hl as [[_ Hl] | [_ Hl]]; [simplify_eq; lia |]).
    apply (Hk k name maxi); auto.
  - destruct (guarded_cases (is_admin st) NoAutorizado (super_pro_key_cmd_body c) upd st)
      as [-> | (uid & _ & _ & _ & ->)]; [done |].
    simpl. split; [done |]. intros k name maxi [Hl | Hl]; simpl in Hl;
      [|apply (Hk k name maxi); auto].
    apply lookup_insert_Some in Hl as [[_ Hl] | [_ Hl]]; [simplify_eq; lia |].
    apply (Hk k name maxi); auto.
  - destruct (guarded_cases (is_admin st) NoAutorizado (gen_cards_key_cmd_body c) upd st)
      as [-> | (uid & _ & _ & _ & ->)]; [done |].
    simpl. split; [done |]. intros k name maxi [Hl | Hl]; simpl in Hl;
      [apply (Hk k name maxi); auto |].
    apply lookup_insert_Some in Hl as [[_ Hl] | [_ Hl]]; [simplify_eq; lia |].
    apply (Hk k name maxi); auto.
Qed.

(** X14. The commands that make keys keep the bound on the uses: from a
    store in which every user has [usados <= max] on both plans and no key
    grants a negative number of uses, every sequence of [/key], [/get] and
    the three commands that make keys leads to such a store again. *)
Theorem uses_bound_with_new_keys (cs : list command) (st : store) :
  plans_ok st → keys_ok st →
  plans_ok (run_commands cs st) ∧ keys_ok (run_commands cs st).
Proof.
  intros Hp Hk. revert st Hp Hk. induction cs as [|c cs IH]; intros st Hp Hk; [done |].
  simpl. destruct (command_step_invariant c st (conj Hp Hk)). by apply IH.
Qed.

(** [/key] with a key of the given kind for a user without balance. *)
Lemma key_cmd_redeems (k : kind) (uid : Z) (upd : update) (st : store)
    (arg0 : string) (rest : list string) (name : string) (maxi : Z) :
  effective_user upd = Some uid → admitted st uid → args upd = arg0 :: rest →
  match k with
  | Normal => claves st !! strip arg0 = Some (name, maxi)
  | Tarjetas => claves st !! strip arg0 = None ∧ card_keys st !! strip arg0 = Some (name, maxi)
  end →
  ¬ has_balance (plan_of k (default new_user (users st !! uid))) →
  (key_cmd upd st).2 = Activated k name maxi ∧
  plan_of k <$> users (key_cmd upd st).1 !! uid = Some (Plan name maxi 0).
Proof.
  intros Hu Hadm Ha Hkey Hnb. unfold key_cmd.
  rewrite (check_ban_admitted _ _ _ _ Hu Hadm). unfold key_cmd_body. rewrite Ha. simpl.
  destruct k; simpl in *.
  - rewrite Hkey.
    destruct (negb _ && _) eqn:E; [apply plan_blocks_iff in E; done |].
    simpl. by rewrite lookup_insert_eq.
  - destruct Hkey as [-> ->].
    destruct (negb _ && _) eqn:E; [apply plan_blocks_iff in E; done |].
    simpl. by rewrite lookup_insert_eq.
Qed.

Lemma gen_key_differ (a b : Z) (c c' : string) :
  a ∈ [1; 2; 3; 4] → b ∈ [1; 2; 3; 4] → a ≠ b → gen_key a c ≠ gen_key b c'.
Proof.
  intros Ha Hb Hne H.
  repeat (apply elem_of_cons in Ha as [-> | Ha]; [|]);
    try (by apply elem_of_nil in Ha);
    repeat (apply elem_of_cons in Hb as [-> | Hb]; [|]);
    try (by apply elem_of_nil in Hb);
    try done; vm_compute in H; discriminate H.
Qed.

(** The store after a command of an admin that makes keys holds each key it
    made. *)
Lemma made_key_stored (kc : key_command) (upd : update) (st : store) (caller : Z)
    (kd : kind) (key name : string) (maxi : Z) :
  effective_user upd = Some caller → caller ≠ 0 → is_admin st caller = true →
  made kc kd key name maxi →
  let st' := command_step (MakeKeys kc upd) st in
  users st' = users st ∧ banned_users st' = banned_users st ∧
  match kd with
  | Normal => claves st' !! key = Some (name, maxi)
  | Tarjetas => claves st' = claves st ∧ card_keys st' !! key = Some (name, maxi)
  end.
Proof.
  intros Hu Hnz Hadm Hmade st'. subst st'.
  destruct Hmade as [codigo i usos nombre Hi | c | c]; simpl;
    unfold gen_cmd, super_pro_key_cmd, gen_cards_key_cmd, check_admin_on;
    rewrite (guarded_allowed _ _ _ _ _ caller) by done.
  - destruct (gen_cmd_body_claves codigo caller upd st) as (-> & _ & ->).
    split; [done |]. split; [done |].
    destruct i as [|[|[|[|i]]]]; simpl in Hi; [| | | |done]; injection Hi as <- <-.
    + rewrite !lookup_insert_ne by (apply gen_key_differ; set_solver).
      apply lookup_insert_eq.
    + rewrite !lookup_insert_ne by (apply gen_key_differ; set_solver).
      apply lookup_insert_eq.
    + rewrite !lookup_insert_ne by (apply gen_key_differ; set_solver).
      apply lookup_insert_eq.
    + apply lookup_insert_eq.
  - simpl. split; [done |]. split; [done |]. apply lookup_insert_eq.
  - simpl. split; [done |]. split; [done |]. split; [done |]. apply lookup_insert_eq.
Qed.

(** X15. A key that an admin has just made works. After [gen_cmd],
    [super_pro_key_cmd] or [gen_cards_key_cmd] of an admin, in a store where
    only the keys for cards start with "paublte-tarjeta-", a user whom
    [check_ban] lets through and whose plan of the key's kind has no uses
    left redeems any of the new keys: the reply is the activation and the
    plan becomes the key's plan with its uses and [usados = 0] (Bronce 1,
    Plata 2, Oro 3, Diamante 4, SuperPro with 1000, Plan Tarjetas with 1). *)
Theorem generated_key_redeems (kc : key_command) (upd : update) (st : store)
    (caller : Z) (kd : kind) (key name : string) (maxi : Z)
    (uid : Z) (upd' : update) (arg0 : string) (rest : list string) :
  effective_user upd = Some caller → caller ≠ 0 → is_admin st caller = true →
  keys_apart st →
  made kc kd key name maxi →
  let st' := command_step (MakeKeys kc upd) st in
  effective_user upd' = Some uid → admitted st' uid →
  args upd' = arg0 :: rest → strip arg0 = key →
  ¬ has_balance (plan_of kd (default new_user (users st' !! uid))) →
  (key_cmd upd' st').2 = Activated kd name maxi ∧
  plan_of kd <$> users (key_cmd upd' st').1 !! uid = Some (Plan name maxi 0).
Proof.
  intros Hu Hnz Hadm Hap Hmade st' Hu' Hadm' Ha Hs Hnb.
  destruct (made_key_stored kc upd st caller kd key name maxi Hu Hnz Hadm Hmade)
    as (_ & _ & Hk). fold st' in Hk.
  apply (key_cmd_redeems kd uid upd' st' arg0 rest name maxi); try done.
  rewrite Hs. destruct kd; [done |]. destruct Hk as [Ec Hk]. split; [|done].
  rewrite Ec. destruct Hap as [_ Hn].
  destruct (claves st !! key) eqn:E; [|done].
  assert (Hp : String.prefix "paublte-tarjeta-" key = false) by (apply Hn; by rewrite E).
  inversion Hmade as [| |c Ekc Ekd Ekey]. rewrite <- Ekey in Hp.
  by rewrite tarjeta_key_is_tarjeta in Hp.
Qed.

(** *** Taking a plan away *)

Lemma get_cmd_without_plans (upd : update) (st : store) (target : Z) (n : Z) :
  effective_user upd = Some target →
  users st !! target = Some (User sin_plan sin_plan n) →
  is_delivery (get_cmd upd st).2 = false ∧ (get_cmd upd st).1 = st.
Proof.
  intros Hu Hl.
  assert (H : is_delivery (get_cmd upd st).2 = false).
  { destruct (is_delivery (get_cmd upd st).2) eqn:Ed; [|done].
    destruct (get_cmd_delivery upd st Ed)
      as (uid & k & cant & u & key & p & _ & _ & _ & Hu' & _ & _ & _ & Hl' & _ & Hact & _).
    rewrite Hu in Hu'. injection Hu' as <-. rewrite Hl in Hl'. injection Hl' as <-.
    by destruct k. }
  split; [done |]. unfold get_cmd in *.
  destruct (check_ban_cases get_cmd_body upd st) as [[E | E] | (uid & _ & _ & E)];
    rewrite E in *; [done | done |].
  by apply get_cmd_body_failure.
Qed.

(** X16. [revoke_premium_end], sent by an admin. With the id of a user who
    has a record, both plans of that user become "Sin plan" with 0 uses;
    the user's counter of invalid keys, the other users, the keys, the stock
    and the bans stay, and every [/get] of that user is refused from then on
    without changing anything. With the id of a user without a record
    nothing changes. With a text that is not a number the handler answers
    and then stops on the undefined name [AWAITING_ID_TO_REVOKE] instead of
    returning a state; the store is unchanged. *)
Theorem revoke_premium_end_effect (upd : update) (st : store) (caller : Z) :
  effective_user upd = Some caller → caller ≠ 0 → is_admin st caller = true →
  (int (message_text upd) = None →
     revoke_premium_end upd st = (st, [RevokeNotAnId], NameError "AWAITING_ID_TO_REVOKE"))
  ∧
  (∀ target, int (message_text upd) = Some target → users st !! target = None →
     revoke_premium_end upd st
       = (st, [RevokeUnknownUser], Return (Some ConversationHandler_END)))
  ∧
  (∀ target r, int (message_text upd) = Some target → users st !! target = Some r →
     let st' := (revoke_premium_end upd st).1.1 in
     st' = save_users (<[target := User sin_plan sin_plan (invalid_key_attempts r)]> (users st)) st ∧
     (∀ upd', effective_user upd' = Some target →
        is_delivery (get_cmd upd' st').2 = false ∧ (get_cmd upd' st').1 = st')).
Proof.
  intros Hu Hnz Hadm.
  assert (E : revoke_premium_end upd st = revoke_premium_end_body caller upd st).
  { unfold revoke_premium_end, check_admin_on. by apply guarded_allowed. }
  rewrite E. unfold revoke_premium_end_body. split; [|split].
  - by intros ->.
  - by intros target -> ->.
  - intros target r -> ->. simpl. split; [done |].
    intros upd' Hu'.
    apply (get_cmd_without_plans upd' _ target (invalid_key_attempts r) Hu').
    simpl. apply lookup_insert_eq.
Qed.

(** *** Promoting and degrading admins *)

(** X17. Only the super-admin names and removes admins: [add_admin_end] and
    [rem_admin_end] from any other user, admin or not, leave the store as
    it is. When the super-admin promotes a user who is not in the list of
    admins, that user is an admin; when the super-admin then degrades the
    same user, the store is again what it was before the promotion and the
    user (not being the super-admin) is no admin. The super-admin's own id
    is never taken out of the list. *)
Theorem promote_then_degrade (st : store) :
  ADMIN ≠ 0 →
  (∀ upd caller, effective_user upd = Some caller → caller ≠ ADMIN →
     (add_admin_end upd st).1.1 = st ∧ (rem_admin_end upd st).1.1 = st)
  ∧
  (∀ upd1 upd2 x,
     effective_user upd1 = Some ADMIN → effective_user upd2 = Some ADMIN →
     int (message_text upd1) = Some x → int (message_text upd2) = Some x →
     x ∉ admins st → x ≠ ADMIN →
     let st1 := (add_admin_end upd1 st).1.1 in
     let st2 := (rem_admin_end upd2 st1).1.1 in
     is_admin st x = false ∧ is_admin st1 x = true ∧ st2 = st)
  ∧
  (∀ upd, int (message_text upd) = Some ADMIN → (rem_admin_end upd st).1.1 = st).
Proof.
  intros Hnz. split; [|split].
  - intros upd caller Hu Hne.
    assert (Hno : (caller =? ADMIN) = false) by (by apply Z.eqb_neq).
    unfold add_admin_end, rem_admin_end, check_super_admin.
    by rewrite !(guarded_refused _ _ _ _ _ caller).
  - intros upd1 upd2 x Hu1 Hu2 Hi1 Hi2 Hnot Hne st1 st2.
    assert (E1 : st1 = save_admins (admins st ++ [x]) st).
    { subst st1. unfold add_admin_end, check_super_admin.
      rewrite (guarded_allowed _ _ _ _ _ ADMIN) by (try done; apply Z.eqb_refl).
      unfold add_admin_end_body. rewrite Hi1.
      by rewrite bool_decide_eq_false_2. }
    assert (Hin : x ∈ admins st1).
    { rewrite E1. simpl. apply elem_of_app. right. by apply list_elem_of_singleton. }
    split; [|split].
    + unfold is_admin. rewrite bool_decide_eq_false_2 by done.
      apply Z.eqb_neq in Hne. by rewrite Hne.
    + unfold is_admin. rewrite bool_decide_eq_true_2 by done. apply orb_true_r.
    + subst st2. unfold rem_admin_end, check_super_admin.
      rewrite (guarded_allowed _ _ _ _ _ ADMIN) by (try done; apply Z.eqb_refl).
      unfold rem_admin_end_body. rewrite Hi2.
      rewrite bool_decide_eq_true_2 by done. simpl.
      apply Z.eqb_neq in Hne. rewrite Hne. simpl.
      rewrite E1. simpl. rewrite list_remove_first_snoc by done. by destruct st.
  - intros upd Hi. unfold rem_admin_end, check_super_admin.
    destruct (guarded_cases (λ user_id, user_id =? ADMIN) NoAutorizado rem_admin_end_body upd st)
      as [E | (uid & _ & _ & _ & ->)]; [done |].
    unfold rem_admin_end_body. rewrite Hi.
    destruct (negb _); [done |]. by rewrite Z.eqb_refl.
Qed.

(** *** The first contact *)

(** X18. [/start] of a user whom [check_ban] lets through gives the user a
    record with no plans and a counter of 0 when there is none, and changes
    nothing when there is one; the records of the other users stay. A second
    [/start] changes nothing. The only message is the welcome: the notice
    to the super-admin about a new user is never sent, since the flag that
    would trigger it is set to false also for a new user. *)
Theorem start_effect (upd : update) (st : store) :
  (∀ uid, NewUserNotice uid ∉ (start upd st).1.2) ∧
  (∀ uid, effective_user upd = Some uid → admitted st uid →
     let st' := (start upd st).1.1 in
     users st' !! uid = Some (default new_user (users st !! uid)) ∧
     (∀ y, y ≠ uid → users st' !! y = users st !! y) ∧
     (is_Some (users st !! uid) → st' = st) ∧
     (start upd st).1.2 = [Welcome uid (is_admin st uid)] ∧
     (start upd st').1.1 = st').
Proof.
  assert (Hbody : ∀ uid s, start_body uid upd s =
            (save_users (<[uid := default new_user (users s !! uid)]> (users s)) s,
             [Welcome uid (is_admin s uid)], Return None)).
  { intros uid s. unfold start_body.
    destruct (users s !! uid) as [r|] eqn:E; simpl.
    - by rewrite E.
    - rewrite lookup_insert_eq. simpl. by rewrite insert_insert_eq. }
  assert (Hallow : ∀ uid s, admitted s uid →
            negb (negb (uid =? ADMIN) && is_banned s uid) = true).
  { intros uid s [_ [-> | Hnb]].
    - by rewrite Z.eqb_refl.
    - unfold is_banned. rewrite bool_decide_eq_false_2 by done. by rewrite andb_false_r. }
  split.
  - intros uid. unfold start, check_ban_on.
    destruct (guarded_cases (λ user_id, negb (negb (user_id =? ADMIN) && is_banned st user_id))
                BanNotice start_body upd st) as [E | (u & _ & _ & _ & ->)].
    + unfold guarded in *. destruct (effective_user upd) as [u|]; [|apply not_elem_of_nil].
      destruct (u =? 0); [apply not_elem_of_nil |].
      destruct (negb (negb _)); simpl.
      * intros Hin. apply list_elem_of_singleton in Hin. done.
      * rewrite Hbody. simpl. intros Hin. apply list_elem_of_singleton in Hin. done.
    + rewrite Hbody. simpl. intros Hin. apply list_elem_of_singleton in Hin. done.
  - intros uid Hu Hadm st'.
    assert (E : start upd st = start_body uid upd st).
    { unfold start, check_ban_on. apply guarded_allowed; [done | by destruct Hadm | auto]. }
    assert (Est : st' = save_users (<[uid := default new_user (users st !! uid)]> (users st)) st).
    { subst st'. by rewrite E, Hbody. }
    assert (Hadm' : admitted st' uid).
    { rewrite Est. destruct Hadm as [? ?]. split; done. }
    split; [rewrite Est; simpl; apply lookup_insert_eq |].
    split; [intros y Hy; rewrite Est; simpl; by apply lookup_insert_ne |].
    split.
    { intros [r Hr]. rewrite Est, Hr. simpl. rewrite insert_id by done. by destruct st. }
    split; [by rewrite E, Hbody |].
    unfold start, check_ban_on.
    rewrite (guarded_allowed _ _ _ _ _ uid); [| done | by destruct Hadm | auto].
    rewrite Hbody. simpl. rewrite Est. simpl. rewrite lookup_insert_eq. simpl.
    by rewrite insert_insert_eq.
Qed.

(** *** Announcements *)

Lemma broadcast_loop_counts (delivers : Z → bool) (recipients : list Z)
    (s f : Z) (log : list notice) :
  fold_left
    (λ '(total_sent, total_failed, sent) uid,
       if delivers uid then (total_sent + 1, total_failed, sent ++ [BroadcastSent uid])
       else (total_sent, total_failed + 1, sent))
    recipients (s, f, log)
  = (s + len (List.filter delivers recipients),
     f + len recipients - len (List.filter delivers recipients),
     log ++ (BroadcastSent <$> List.filter delivers recipients)).
Proof.
  revert s f log. induction recipients as [|uid l IH]; intros s f log.
  - cbn [fold_left List.filter fmap list_fmap]. unfold len. cbn [length].
    rewrite app_nil_r. f_equal; try (f_equal; lia); done.
  - cbn [fold_left List.filter].
    destruct (delivers uid); rewrite IH; unfold len;
      cbn [fmap list_fmap]; rewrite ?length_cons, <- ?app_assoc;
      f_equal; try (f_equal; lia); done.
Qed.

Lemma filter_split_length {A} (f : A → bool) (l : list A) :
  len (List.filter f l) + len (List.filter (λ x, negb (f x)) l) = len l.
Proof.
  unfold len. induction l as [|x l IH]; [done |]. cbn [List.filter].
  destruct (f x); cbn [negb]; rewrite !length_cons; lia.
Qed.

Lemma NoDup_List_filter {A} (f : A → bool) (l : list A) :
  NoDup l → NoDup (List.filter f l).
Proof.
  induction 1 as [|x l Hx Hl IH]; cbn [List.filter]; [constructor |].
  destruct (f x); [|done]. constructor; [|done].
  rewrite list_elem_of_In, filter_In, <- list_elem_of_In. intros [Hin _]. by apply Hx.
Qed.

Lemma filter_split_Permutation {A} (f : A → bool) (l : list A) :
  List.filter f l ++ List.filter (λ x, negb (f x)) l ≡ₚ l.
Proof.
  induction l as [|x l IH]; [done |]. cbn [List.filter].
  destruct (f x); cbn [negb].
  - cbn [app]. by constructor.
  - rewrite <- Permutation_middle. by constructor.
Qed.

(** X19. An announcement goes to the users of [users.json] in the order of
    the file ([recipients], which holds every id with a record once): the
    messages that go out are those to the users whom the message reaches,
    in that order and each once; a user whom it does not reach is counted
    as failed and the loop goes on; every user is either reached or counted
    as failed, so the two numbers of the final report are the numbers of
    the users reached and not reached and add up to the number of users. A
    message with no photo, video, animation or text is answered as not
    supported, nothing is sent and the conversation stays open. *)
Theorem broadcast_report (delivers : Z → bool) (recipients : list Z) (m : message)
    (st : store) :
  NoDup recipients → (∀ uid, uid ∈ recipients ↔ is_Some (users st !! uid)) →
  let out := receive_broadcast_content delivers recipients m st in
  let reached := List.filter delivers recipients in
  let missed := List.filter (λ uid, negb (delivers uid)) recipients in
  (broadcast_supported m = false →
     out = ([BroadcastStarted (Z.of_nat (size (users st))); BroadcastUnsupported],
            BROADCAST_CONTENT))
  ∧
  (broadcast_supported m = true →
     out = (BroadcastStarted (Z.of_nat (size (users st)))
              :: (BroadcastSent <$> reached) ++ [BroadcastDone (len reached) (len missed)],
            ConversationHandler_END) ∧
     NoDup reached ∧
     (∀ uid, uid ∈ reached ↔ is_Some (users st !! uid) ∧ delivers uid = true) ∧
     (∀ uid, uid ∈ missed ↔ is_Some (users st !! uid) ∧ delivers uid = false) ∧
     reached ++ missed ≡ₚ recipients ∧
     len reached + len missed = Z.of_nat (size (users st))).
Proof.
  intros Hnd Hkeys out reached missed. subst out. unfold receive_broadcast_content.
  fold (broadcast_supported m). split; intros ->; simpl; [done |].
  unfold broadcast_loop. rewrite broadcast_loop_counts. simpl.
  fold reached.
  assert (Hlen : len recipients = Z.of_nat (size (users st))).
  { assert (Hp : recipients ≡ₚ (map_to_list (users st)).*1).
    { apply NoDup_Permutation; [done | apply NoDup_fst_map_to_list |].
      intros uid. rewrite Hkeys, list_elem_of_fmap. split.
      - intros [r Hr]. exists (uid, r). split; [done |]. by apply elem_of_map_to_list.
      - intros ([k r] & -> & Hin). apply elem_of_map_to_list in Hin. simpl. eauto. }
    unfold len. by rewrite Hp, length_fmap, length_map_to_list. }
  pose proof (filter_split_length delivers recipients) as Hsplit.
  fold reached missed in Hsplit.
  split.
  { replace (0 + len reached) with (len reached) by lia.
    replace (0 + len recipients - len reached) with (len missed) by lia. done. }
  split; [by apply NoDup_List_filter |].
  split.
  { intros uid. subst reached. by rewrite list_elem_of_In, filter_In, <- list_elem_of_In, Hkeys. }
  split.
  { intros uid. subst missed.
    by rewrite list_elem_of_In, filter_In, <- list_elem_of_In, Hkeys, negb_true_iff. }
  split; [apply filter_split_Permutation | lia].
Qed.

(** *** The list of users *)

Lemma range_from_chunks (chunk_size : nat) (lines : list string) (fuel start : nat) :
  (1 <= chunk_size)%nat → (length lines - start <= fuel)%nat →
  concat ((λ i, take chunk_size (drop i lines))
            <$> range_from fuel start (length lines) chunk_size) = drop start lines ∧
  Forall (λ chunk, (1 <= length chunk <= chunk_size)%nat)
    ((λ i, take chunk_size (drop i lines))
       <$> range_from fuel start (length lines) chunk_size).
Proof.
  intros Hc. revert start. induction fuel as [|fuel IH]; intros start Hf; cbn [range_from].
  - rewrite fmap_nil. split; [|constructor]. symmetry. apply drop_ge. lia.
  - destruct (start <? length lines)%nat eqn:E.
    + apply Nat.ltb_lt in E. rewrite fmap_cons.
      destruct (IH (start + chunk_size)%nat) as [IH1 IH2]; [lia |].
      split.
      * cbn [concat]. rewrite IH1.
        rewrite <- (drop_drop lines chunk_size start). apply take_drop.
      * constructor; [|done]. rewrite length_take, length_drop. lia.
    + apply Nat.ltb_ge in E. rewrite fmap_nil. split; [|constructor].
      symmetry. apply drop_ge. lia.
Qed.

(** X20. [users_cmd] sends every line of the list exactly once and in
    order, in messages of at most 10 lines none of which is empty; it
    answers that there are no users exactly when there is no line. *)
Theorem users_cmd_send_all (lines : list string) :
  concat (chunks_of 10 lines) = lines ∧
  Forall (λ chunk, (1 <= length chunk <= 10)%nat) (chunks_of 10 lines) ∧
  (lines = [] → users_cmd_send lines = [NoUsers]) ∧
  (lines ≠ [] → users_cmd_send lines = UsersHeader :: (UsersChunk <$> chunks_of 10 lines)).
Proof.
  destruct (range_from_chunks 10 lines (length lines) 0) as [Hcat Hall]; [lia | lia |].
  fold (range_step (length lines) 10) in Hcat, Hall.
  change (concat (chunks_of 10 lines) = lines) in Hcat.
  change (Forall (λ chunk, (1 <= length chunk <= 10)%nat) (chunks_of 10 lines)) in Hall.
  split; [done |]. split; [done |]. split.
  - by intros ->.
  - intros Hne. unfold users_cmd_send.
    destruct (chunks_of 10 lines) as [|c cs] eqn:E; [|done].
    simpl in Hcat. by subst lines.
Qed.

(** *** The stock that is shown *)

Lemma dict_get_stock_counts (d : dict pool) (site : string) :
  dict_get site (stock_counts d) = pool_size <$> dict_get site d.
Proof.
  induction d as [|[k p] d IH]; [done |]. simpl.
  destruct (String.eqb k site); [by destruct p | apply IH].
Qed.

(** X21. The stock menu keeps step with [/get]: after a delivery, the
    number shown for the entry that was served has gone down by exactly the
    number of items sent, whatever quantity was asked for, and the numbers
    shown for all other entries of both files are what they were. *)
Theorem stock_counts_after_get (upd : update) (st : store) :
  is_delivery (get_cmd upd st).2 = true →
  ∃ k sitio n,
    delivery_site (get_cmd upd st).2 = Some (k, sitio) ∧
    dict_get sitio (stock_counts (pools k st)) = Some n ∧
    dict_get sitio (stock_counts (pools k (get_cmd upd st).1))
      = Some (n - sent_count (get_cmd upd st).2) ∧
    (∀ k' site, (k', site) ≠ (k, sitio) →
       dict_get site (stock_counts (pools k' (get_cmd upd st).1))
         = dict_get site (stock_counts (pools k' st))).
Proof.
  intros Ed.
  destruct (get_cmd_delivery upd st Ed)
    as (uid & k & cant & u & key & p & _ & _ & _ & _ & _ & _ & _ & _ & Hg & _ & _ & _ & E).
  rewrite E. unfold deliver. cbn [fst snd]. exists k, key, (pool_size p).
  split; [by destruct p |].
  rewrite !dict_get_stock_counts, Hg. split; [done |]. split.
  - rewrite pools_save_pools, dict_get_set_eq. simpl. f_equal.
    destruct p as [items | message accounts]; simpl; unfold len.
    + pose proof (f_equal length (slice_to_from cant items)) as Hl.
      rewrite length_app in Hl. lia.
    + pose proof (f_equal length (slice_to_from cant accounts)) as Hl.
      rewrite length_app in Hl. lia.
  - intros k' site Hne. rewrite !dict_get_stock_counts. f_equal.
    destruct k, k'; simpl; try done; apply dict_get_set_ne; congruence.
Qed.

(** *** What a redemption leaves alone *)

Lemma key_cmd_body_frame (uid : Z) (upd : update) (st : store) :
  let st' := (key_cmd_body uid upd st).1 in
  stock st' = stock st ∧ cards st' = cards st ∧ admins st' = admins st ∧
  (∀ y, y ≠ uid → users st' !! y = users st !! y ∧
                  (y ∈ banned_users st' ↔ y ∈ banned_users st)) ∧
  (∀ k, (∀ arg0 rest, args upd = arg0 :: rest → strip arg0 ≠ k) →
        claves st' !! k = claves st !! k ∧ card_keys st' !! k = card_keys st !! k).
Proof.
  unfold key_cmd_body.
  destruct (args upd) as [|arg0 rest]; [by repeat split |]. simpl.
  assert (Hdel : ∀ (m : gmap string (string * Z)) k,
            (∀ a r, arg0 :: rest = a :: r → strip a ≠ k) → delete (strip arg0) m !! k = m !! k).
  { intros m k Hk. apply lookup_delete_ne. by apply (Hk arg0 rest). }
  assert (Hins : ∀ (r r' : user) y, y ≠ uid →
            <[uid := r]> (<[uid := r']> (users st)) !! y = users st !! y).
  { intros r r' y Hy. by rewrite !lookup_insert_ne. }
  assert (Hins1 : ∀ (r : user) y, y ≠ uid → <[uid := r]> (users st) !! y = users st !! y).
  { intros r y Hy. by rewrite lookup_insert_ne. }
  branches; repeat split; auto.
  all: try (intros Hin; apply elem_of_app in Hin as [Hin | Hin]; [done |];
            apply list_elem_of_singleton in Hin; done).
  all: try (intros Hin; apply elem_of_app; by left).
Qed.

(** X22. [/key] writes nothing but the record of the user who asks, the
    code that was asked for, and that user's ban: the stock, the cards and
    the admins are as before, the records and the bans of all other users
    are as before, and every other code is in the key files exactly as it
    was. *)
Theorem key_cmd_frame (upd : update) (st : store) :
  let st' := (key_cmd upd st).1 in
  stock st' = stock st ∧ cards st' = cards st ∧ admins st' = admins st ∧
  (∀ y, effective_user upd ≠ Some y →
     users st' !! y = users st !! y ∧ (y ∈ banned_users st' ↔ y ∈ banned_users st)) ∧
  (∀ k, (∀ arg0 rest, args upd = arg0 :: rest → strip arg0 ≠ k) →
     claves st' !! k = claves st !! k ∧ card_keys st' !! k = card_keys st !! k).
Proof.
  intros st'. subst st'. unfold key_cmd.
  destruct (check_ban_cases key_cmd_body upd st) as [[-> | ->] | (uid & Hu & _ & ->)];
    [by repeat split | by repeat split |].
  destruct (key_cmd_body_frame uid upd st) as (H1 & H2 & H3 & H4 & H5).
  split; [done |]. split; [done |]. split; [done |]. split; [|done].
  intros y Hy. apply H4. congruence.
Qed.

(** *** Uploading cards *)

Lemma receive_cards_appends (m : message) (site usage : option string)
    (batch : list item) :
  ∃ r, receive_cards m (CardsContext site usage (Some batch)) =
         Some (CardsContext site usage (Some (batch ++ turn_cards m)), r,
               AWAITING_CARDS_ACCOUNTS).
Proof.
  unfold turn_cards, receive_cards. simpl.
  destruct (last (msg_photo m)); [|destruct (msg_video m); [|destruct (msg_animation m);
    [|destruct (opt_truthy (msg_text m))]]];
    (destruct (opt_truthy (str_or (msg_caption m) (msg_text m))); simpl;
     [|eexists; by rewrite app_nil_r]);
    try (eexists; reflexivity).
  destruct (is_nil _); simpl; eexists; by rewrite ?app_nil_r.
Qed.

(** A message adds the same items to a batch of cards as to one of
    accounts. *)
Lemma turn_cards_accounts (m : message) : turn_cards m = turn_accounts m.
Proof.
  unfold turn_cards, turn_accounts, receive_cards, receive_accounts. simpl.
  destruct (last (msg_photo m)); [|destruct (msg_video m); [|destruct (msg_animation m);
    [|destruct (opt_truthy (msg_text m))]]];
    destruct (opt_truthy (str_or (msg_caption m) (msg_text m))); simpl; try done.
  by destruct (is_nil _).
Qed.

Lemma run_add_cards_turns (turns : list message) (tail : list event)
    (site usage : option string) (batch : list item) (st : store) :
  run_add_cards ((Incoming <$> turns) ++ tail) (Some AWAITING_CARDS_ACCOUNTS)
    (CardsContext site usage (Some batch)) st =
  run_add_cards tail (Some AWAITING_CARDS_ACCOUNTS)
    (CardsContext site usage (Some (batch ++ (turns ≫= turn_cards)))) st.
Proof.
  revert batch. induction turns as [|m turns IH]; intros batch; simpl.
  - by rewrite app_nil_r.
  - destruct (receive_cards_appends m site usage batch) as [r ->]. simpl.
    rewrite IH. by rewrite <- app_assoc.
Qed.

Lemma run_add_cards_session (m_site m_usage : message) (turns : list message)
    (ctx : cards_context) (st : store) :
  opt_truthy (msg_text m_site) = true → opt_truthy (msg_text m_usage) = true →
  let site := lower (strip (default "" (msg_text m_site))) in
  let usage := strip (default "" (msg_text m_usage)) in
  let batch := turns ≫= turn_cards in
  run_add_cards (Callback "addcards_start" :: Incoming m_site :: Incoming m_usage
                   :: (Incoming <$> turns) ++ [Command "done"]) None ctx st
  = Some (None, CardsContext (Some site) (Some usage) (Some batch),
          if is_nil batch then st
          else save_cards (dict_set site (Rich (Some usage) batch) (cards st)) st).
Proof.
  intros Hs Hu site usage batch.
  cbn [run_add_cards conv_handler_add_cards start_add_cards mbind option_bind].
  change (String.eqb "addcards_start" "addcards_start") with true.
  change (leave_on_end AWAITING_CARDS_SITE) with (Some AWAITING_CARDS_SITE).
  cbn [run_add_cards conv_handler_add_cards mbind option_bind].
  change (AWAITING_CARDS_SITE =? AWAITING_CARDS_SITE) with true.
  rewrite Hs.
  cbn [get_cards_site run_add_cards conv_handler_add_cards mbind option_bind].
  change (leave_on_end AWAITING_CARDS_MESSAGE) with (Some AWAITING_CARDS_MESSAGE).
  cbn [run_add_cards conv_handler_add_cards mbind option_bind].
  change (AWAITING_CARDS_MESSAGE =? AWAITING_CARDS_SITE) with false.
  change (AWAITING_CARDS_MESSAGE =? AWAITING_CARDS_MESSAGE) with true.
  rewrite Hu.
  cbn [get_cards_message run_add_cards conv_handler_add_cards mbind option_bind
       cards_site cards_message temp_cards].
  change (leave_on_end AWAITING_CARDS_ACCOUNTS) with (Some AWAITING_CARDS_ACCOUNTS).
  rewrite run_add_cards_turns. fold site usage. simpl. fold batch.
  by destruct batch.
Qed.

(** X23. The upload of cards, from its button through a text with the name
    of the bank, a text with the usage message and any messages with cards
    to [/done]. When the batch is not empty, [/done] puts exactly the usage
    message and the cards of the messages, in their order, under the
    lower-cased name in [cards.json], in place of what was there; with an
    empty batch it writes nothing. [stock.json] and everything else in the
    store is untouched either way. *)
Theorem finish_add_cards_replaces (m_site m_usage : message) (turns : list message)
    (ctx : cards_context) (st : store) :
  opt_truthy (msg_text m_site) = true → opt_truthy (msg_text m_usage) = true →
  let site := lower (strip (default "" (msg_text m_site))) in
  let usage := strip (default "" (msg_text m_usage)) in
  let batch := turns ≫= turn_accounts in
  ∃ st', run_add_cards (Callback "addcards_start" :: Incoming m_site :: Incoming m_usage
                          :: (Incoming <$> turns) ++ [Command "done"]) None ctx st
           = Some (None, CardsContext (Some site) (Some usage) (Some batch), st') ∧
    st' = save_cards (cards st') st ∧
    (batch ≠ [] →
       dict_get site (cards st') = Some (Rich (Some usage) batch) ∧
       (∀ k, k ≠ site → dict_get k (cards st') = dict_get k (cards st))) ∧
    (batch = [] → st' = st).
Proof.
  intros Hs Hu site usage batch.
  assert (Eb : turns ≫= turn_cards = batch).
  { subst batch. induction turns as [|m turns IH]; [done |].
    by rewrite !bind_cons, IH, turn_cards_accounts. }
  eexists. split.
  { pose proof (run_add_cards_session m_site m_usage turns ctx st Hs Hu) as H.
    cbv zeta in H. rewrite Eb in H. exact H. }
  fold site usage. destruct batch as [|x batch]; simpl.
  - split; [by destruct st |]. split; [done | done].
  - split; [done |]. split; [|done]. intros _.
    split; [apply dict_get_set_eq |]. intros k Hk. by apply dict_get_set_ne.
Qed.

Lemma find_site_absent (d : dict pool) (sitio : string) :
  (∀ k, k ∈ dict_keys d → lower k ≠ sitio) → find_site d sitio = (None, sitio).
Proof.
  intros Hnone. unfold find_site.
  assert (E : List.find (λ key, String.eqb (lower key) sitio) (dict_keys d) = None).
  { induction d as [|[k v] d IH]; [done |]. simpl.
    destruct (String.eqb (lower k) sitio) eqn:Ek.
    - apply String.eqb_eq in Ek. destruct (Hnone k); [apply list_elem_of_here | done].
    - apply IH. intros k' Hk'. apply Hnone. by apply list_elem_of_further. }
  by rewrite E.
Qed.

(** X24. Cards that were uploaded are what [/get] hands out. After an
    upload of a batch of cards that is not empty, when no entry of
    [stock.json] has the name asked for and the only entry of [cards.json]
    that has it is the uploaded one, a user with an active plan for cards
    and at least one use left who asks for one card gets the first card of
    the batch with the uploaded usage message; the entry keeps the rest and
    the user's plan for accounts is not charged. *)
Theorem upload_cards_then_get (m_site m_usage : message) (turns : list message)
    (ctx : cards_context) (st : store) (uid : Z) (upd : update)
    (arg0 arg1 : string) (rest : list string) (u : user)
    (first : item) (others : list item) :
  opt_truthy (msg_text m_site) = true → opt_truthy (msg_text m_usage) = true →
  let site := lower (strip (default "" (msg_text m_site))) in
  let usage := strip (default "" (msg_text m_usage)) in
  turns ≫= turn_accounts = first :: others →
  effective_user upd = Some uid → admitted st uid →
  args upd = arg0 :: arg1 :: rest → int arg1 = Some 1 →
  lower site = lower (strip arg0) →
  (∀ k, k ∈ dict_keys (stock st) → lower k ≠ lower (strip arg0)) →
  (∀ k, k ∈ dict_keys (cards st) → lower k = lower (strip arg0) → k = site) →
  users st !! uid = Some u →
  nombre (plan_tarjetas u) ≠ "Sin plan" →
  1 <= max (plan_tarjetas u) - usados (plan_tarjetas u) →
  ∃ ctx' st',
    run_add_cards (Callback "addcards_start" :: Incoming m_site :: Incoming m_usage
                     :: (Incoming <$> turns) ++ [Command "done"]) None ctx st
      = Some (None, ctx', st') ∧
    (get_cmd upd st').2
      = SentItems Tarjetas site [first] usage
          (usados (plan_tarjetas u) + 1) (max (plan_tarjetas u)) ∧
    dict_get site (cards (get_cmd upd st').1) = Some (Rich (Some usage) others) ∧
    plan_normal <$> users (get_cmd upd st').1 !! uid = Some (plan_normal u).
Proof.
  intros Hs Hm site usage Hbatch Hu Hadm Ha Hi Hl Hnone Hfirst Hrec Hact Hbal.
  assert (Eb : turns ≫= turn_cards = first :: others).
  { rewrite <- Hbatch. clear. induction turns as [|m turns IH]; [done |].
    by rewrite !bind_cons, IH, turn_cards_accounts. }
  pose proof (run_add_cards_session m_site m_usage turns ctx st Hs Hm) as Hrun.
  cbv zeta in Hrun. rewrite Eb in Hrun. fold site usage in Hrun. simpl in Hrun.
  eexists _, _. split; [exact Hrun |].
  set (p := Rich (Some usage) (first :: others)).
  set (st' := save_cards (dict_set site p (cards st)) st).
  assert (Hstock : find_site (stock st') (lower (strip arg0)) = (None, lower (strip arg0))).
  { simpl. by apply find_site_absent. }
  assert (Hf : find_site (cards st') (lower (strip arg0)) = (Some p, site)).
  { simpl. by apply find_site_dict_set. }
  unfold get_cmd. rewrite (check_ban_admitted _ _ _ uid) by done.
  rewrite (get_cmd_body_tarjetas uid upd st' arg0 arg1 rest 1 u p site); try done.
  - rewrite get_cmd_tarjetas_serves; try done.
    2:{ subst p. simpl. unfold len. rewrite length_cons. lia. }
    simpl. rewrite lookup_insert_eq. split; [done |]. split; [apply dict_get_set_eq | done].
  - apply is_sin_plan_false in Hact. rewrite Hact. apply andb_false_r.
  - by rewrite Hstock.
  - by rewrite Hstock.
Qed.

End Bot.

(** ** The handlers on concrete updates *)

Local Abbreviation key7 := (key_cmd ADMIN_default Ascii7.strip).
Local Abbreviation get7 := (get_cmd ADMIN_default Ascii7.strip Ascii7.lower Ascii7.int).
Local Abbreviation run7 := (run ADMIN_default Ascii7.strip Ascii7.lower Ascii7.int).
Local Abbreviation unban7 := (unban_user_end ADMIN_default Ascii7.int).
Local Abbreviation upload7 := (run_add_stock Ascii7.strip Ascii7.lower).

Example split_lines_two : split_lines ("acc1" +:+ line_break +:+ "acc2") = ["acc1"; "acc2"].
Proof. reflexivity. Qed.

Example split_lines_blank : split_lines ("a" +:+ line_break) = ["a"; ""].
Proof. reflexivity. Qed.

Example slice_negative :
  slice_to (-1) [1; 2; 3] = [1; 2] ∧ slice_from (-1) [1; 2; 3] = [3] ∧
  slice_to (-5) [1; 2; 3] = [] ∧ slice_from (-5) [1; 2; 3] = [1; 2; 3].
Proof. repeat split; reflexivity. Qed.

Example int_samples :
  Ascii7.int " 12 " = Some 12 ∧ Ascii7.int "-3" = Some (-3) ∧ Ascii7.int "x" = None
  ∧ Ascii7.int "-" = None.
Proof. repeat split; reflexivity. Qed.

Example dict_set_keeps_place :
  dict_set "a" 9 [("a", 1); ("b", 2)] = [("a", 9); ("b", 2)] ∧
  dict_set "c" 9 [("a", 1); ("b", 2)] = [("a", 1); ("b", 2); ("c", 9)].
Proof. split; reflexivity. Qed.

(** [/get] does not refuse a negative quantity: the slices then count from
    the end of the list and [usados] goes down. *)
Example get_cmd_negative_quantity :
  let out := get7 (get_update 5 "netflix" "-1") sample_store in
  out.2 = SentList Normal "netflix" (-1) ["a"; "b"] (-1) 2 ∧
  dict_get "netflix" (stock out.1) = Some (Legacy ["c"]).
Proof. split; reflexivity. Qed.

(** The name is matched without regard to case and shown as stored. *)
Example get_cmd_upper_case :
  (get7 (get_update 5 "NetFlix" "1") sample_store).2 = SentList Normal "netflix" 1 ["a"] 1 2.
Proof. reflexivity. Qed.

(** ** Instances of the theorems *)

Lemma invalid_key_attempts_ban_witness :
  let bad := key_update 7 "bad" in
  let out := run7 [Redeem bad; Redeem bad; Redeem bad] sample_store in
  out.2 = [InvalidKey 2; InvalidKey 1; Banned] ∧
  7 ∈ banned_users out.1 ∧
  key7 (key_update 7 "good") out.1 = (out.1, BannedNotice).
Proof.
  intros bad out.
  destruct (invalid_key_attempts_ban ADMIN_default Ascii7.strip Ascii7.lower Ascii7.int
              7 sample_store) as [_ Hseq].
  assert (Hbad : unknown_key_update Ascii7.strip sample_store 7 bad).
  { split; [reflexivity |]. exists "bad", []. repeat split; reflexivity. }
  destruct (Hseq bad bad bad) as (Hin & Hrej & Hout);
    [lia | discriminate | apply not_elem_of_nil | vm_compute; discriminate
    | exact Hbad | exact Hbad | exact Hbad |].
  split; [apply Hout; reflexivity |]. split; [exact Hin |].
  apply Hrej. reflexivity.
Defined.

(** C1 as stated fails for the super-admin: three unknown keys put the id in
    the list of bans, yet the fourth [/key] is not turned away and activates
    a plan. *)
Lemma invalid_key_fourth_call_super_admin :
  let bad := key_update ADMIN_default "bad" in
  let out := run7 [Redeem bad; Redeem bad; Redeem bad] sample_store in
  banned_users sample_store = [] ∧
  out.2 = [InvalidKey 2; InvalidKey 1; Banned] ∧
  banned_users out.1 = [ADMIN_default] ∧
  (key7 (key_update ADMIN_default "good") out.1).2 = Activated Normal "Oro 3" 3.
Proof. repeat split; vm_compute; reflexivity. Qed.

Lemma key_consumed_once_witness :
  let first := key_update 7 "good" in
  let later := [Fetch (get_update 7 "netflix" "1"); Redeem (key_update 6 "card")] in
  let st' := (run7 later (key7 first sample_store).1).1 in
  (key7 first sample_store).2 = Activated Normal "Oro 3" 3 ∧
  claves st' !! "good" = None ∧ card_keys st' !! "good" = None ∧
  is_activation (key7 (key_update 5 "good") st').2 = false ∧
  (key7 (key_update 5 "good") st').2 = InvalidKey 2.
Proof.
  intros first later st'.
  destruct (key_consumed_once ADMIN_default Ascii7.strip Ascii7.lower Ascii7.int
              first sample_store "good" []) as [_ H];
    [reflexivity | right; reflexivity | reflexivity |].
  destruct (H later) as (Hk & Hc & Hnext). fold st' in Hk, Hc, Hnext.
  destruct (Hnext (key_update 5 "good") "good" []) as [Hno Hreply];
    [reflexivity | reflexivity |].
  split; [reflexivity |]. split; [exact Hk |]. split; [exact Hc |]. split; [exact Hno |].
  rewrite (Hreply 5); [reflexivity | reflexivity |].
  split; [lia | right; apply not_elem_of_nil].
Defined.


Lemma get_cmd_failure_no_change_witness :
  (get7 (get_update 6 "hbo" "0") sample_store).2 = NoStock Normal "hbo" ∧
  (get7 (get_update 6 "hbo" "0") sample_store).1 = sample_store ∧
  (get7 (get_update 5 "netflix" "3") sample_store).2 = AccessesLeft Normal 2 ∧
  (get7 (get_update 5 "netflix" "3") sample_store).1 = sample_store.
Proof.
  split; [reflexivity |]. split.
  { apply (get_cmd_failure_no_change ADMIN_default Ascii7.strip Ascii7.lower Ascii7.int
             (get_update 6 "hbo" "0") sample_store). reflexivity. }
  split; [reflexivity |].
  apply (get_cmd_failure_no_change ADMIN_default Ascii7.strip Ascii7.lower Ascii7.int
           (get_update 5 "netflix" "3") sample_store). reflexivity.
Defined.

Lemma key_cmd_activation_rule_witness :
  (key7 (key_update 6 "good") sample_store).2 = PlanAlreadyActive Normal ∧
  (key7 (key_update 6 "good") sample_store).1 = sample_store ∧
  (key7 (key_update 7 "card") sample_store).2 = Activated Tarjetas "Plan Tarjetas" 1 ∧
  card_keys (key7 (key_update 7 "card") sample_store).1 !! "card" = None ∧
  users (key7 (key_update 7 "card") sample_store).1 !! 7
    = Some (User sin_plan (Plan "Plan Tarjetas" 1 0) 0) ∧
  (key7 (key_update 5 "good") spent_store).2 = Activated Normal "Oro 3" 3 ∧
  claves (key7 (key_update 5 "good") spent_store).1 !! "good" = None ∧
  users (key7 (key_update 5 "good") spent_store).1 !! 5
    = Some (User (Plan "Oro 3" 3 0) sin_plan 0) ∧
  users (key7 (key_update 5 "good") spent_store).1 !! 6 = users spent_store !! 6.
Proof.
  destruct (key_cmd_activation_rule ADMIN_default Ascii7.strip
              6 (key_update 6 "good") sample_store "good" [] "Oro 3" 3) as [Hstd _];
    [reflexivity | split; [lia | right; apply not_elem_of_nil] | reflexivity |].
  destruct Hstd as (Hiff & Hsame & _); [reflexivity |].
  assert (Hbal : has_balance (Plan "Oro 3" 3 0)).
  { split; [discriminate | vm_compute; reflexivity]. }
  destruct (key_cmd_activation_rule ADMIN_default Ascii7.strip
              7 (key_update 7 "card") sample_store "card" [] "Plan Tarjetas" 1) as [_ Hcard];
    [reflexivity | split; [lia | right; apply not_elem_of_nil] | reflexivity |].
  destruct Hcard as (_ & _ & Hact); [reflexivity | reflexivity |].
  destruct Hact as (Hr & _ & Hk & _ & Hplan & _); [intros [Hn _]; by apply Hn |].
  destruct (key_cmd_activation_rule ADMIN_default Ascii7.strip
              5 (key_update 5 "good") spent_store "good" [] "Oro 3" 3) as [Hspent _];
    [reflexivity | split; [lia | right; apply not_elem_of_nil] | reflexivity |].
  destruct Hspent as (_ & _ & Hact); [reflexivity |].
  destruct Hact as (Hr5 & _ & Hk5 & _ & Hplan5 & Hothers5);
    [intros [_ Hlt]; vm_compute in Hlt; discriminate Hlt |].
  split; [apply Hiff, Hbal |]. split; [apply Hsame, Hbal |].
  split; [exact Hr |]. split; [exact Hk |]. split; [exact Hplan |].
  split; [exact Hr5 |]. split; [exact Hk5 |]. split; [exact Hplan5 |].
  apply Hothers5. discriminate.
Defined.

Lemma sample_store_ok : plans_ok sample_store ∧ keys_ok sample_store.
Proof.
  split.
  - intros uid u Hu. unfold sample_store in Hu. simpl in Hu.
    apply lookup_insert_Some in Hu as [[_ <-] | [_ Hu]]; [vm_compute; split; discriminate |].
    apply lookup_singleton_Some in Hu as [_ <-]. vm_compute; split; discriminate.
  - intros k name maxi [Hk | Hk]; unfold sample_store in Hk; simpl in Hk;
      apply lookup_singleton_Some in Hk as [_ Hk]; inversion Hk; lia.
Defined.

Lemma usados_le_max_invariant_witness :
  plans_ok (run7 [Redeem (key_update 7 "good"); Fetch (get_update 7 "netflix" "2");
                  Fetch (get_update 5 "hbo" "2"); Fetch (get_update 5 "hbo" "1")]
              sample_store).1.
Proof.
  destruct sample_store_ok as [Hp Hk].
  apply (usados_le_max_invariant ADMIN_default Ascii7.strip Ascii7.lower Ascii7.int
           sample_store Hp Hk).
Defined.

(** C4 on the code. User 5 holds the plan "Plata 2" with no use spent and
    "netflix" is an old list of three accounts. The quantity of
    [/get netflix -1] is below 1, but [get_cmd] only tests [cant > disp] and
    [len(cuentas_disponibles) < cant], which a negative number passes: the
    request is answered with a delivery, the slices [[:-1]] and [[-1:]]
    hand out two accounts and keep one, and [usados] is written as [-1], so
    the pool and the balance have both changed. *)
Lemma get_cmd_negative_quantity_changes_state :
  let out := get7 (get_update 5 "netflix" "-1") sample_store in
  Ascii7.int "-1" = Some (-1) ∧
  dict_get "netflix" (stock sample_store) = Some (Legacy ["a"; "b"; "c"]) ∧
  users sample_store !! 5 = Some (User (Plan "Plata 2" 2 0) sin_plan 0) ∧
  out.2 = SentList Normal "netflix" (-1) ["a"; "b"] (-1) 2 ∧
  dict_get "netflix" (stock out.1) = Some (Legacy ["c"]) ∧
  users out.1 !! 5 = Some (User (Plan "Plata 2" 2 (-1)) sin_plan 0) ∧
  out.1 ≠ sample_store.
Proof.
  intros out. repeat (split; [reflexivity |]).
  intros H. apply (f_equal (λ st, dict_get "netflix" (stock st))) in H.
  vm_compute in H. discriminate H.
Qed.

(** C7 on the code. The name "netflix" is in both files and user 6 holds
    both plans; the accounts of "netflix" are an empty list, which the test
    [if cuentas_disponibles:] takes for "not found", so [/get netflix 1]
    goes on to the cards and hands out a card instead of answering that the
    accounts are out of stock. An uploaded batch without accounts is served
    as accounts and answers that the stock is short. *)
Lemma get_cmd_empty_list_serves_cards :
  let out := get7 (get_update 6 "netflix" "1") drained_store in
  dict_get "netflix" (stock drained_store) = Some (Legacy []) ∧
  out.2 = SentList Tarjetas "netflix" 1 ["c1"] 1 5 ∧
  dict_get "netflix" (cards out.1) = Some (Legacy []) ∧
  (get7 (get_update 6 "netflix" "1")
     (save_stock [("netflix", Rich None [])] drained_store)).2 = NoStock Normal "netflix".
Proof. repeat split; reflexivity. Qed.

Lemma finish_add_stock_replaces_witness :
  ∃ ctx' st',
    upload7 [Callback "addstock_start"; Incoming (text_message "spotify");
             Incoming (text_message "N/A");
             Incoming (text_message ("acc1" +:+ String "010"%char "acc2"));
             Incoming (text_message "acc3"); Command "done"]
            None (Context None None None)
            (save_stock [("spotify", Legacy ["viejo"])] sample_store)
      = Some (None, ctx', st') ∧
    dict_get "spotify" (stock st') =
      Some (Rich (Some "N/A") [cuenta "acc1"; cuenta "acc2"; cuenta "acc3"]).
Proof.
  destruct (finish_add_stock_replaces Ascii7.strip Ascii7.lower) as [_ Hscene].
  apply (Hscene "N/A" (Context None None None)
           (save_stock [("spotify", Legacy ["viejo"])] sample_store)); reflexivity.
Defined.

(** C8 as stated fails for an upload that ends without accounts: [/done]
    then writes nothing, and the entry that "netflix" had is still there
    instead of an entry holding the empty batch. *)
Lemma finish_add_stock_empty_batch :
  let evs := [Callback "addstock_start"; Incoming (text_message "Netflix");
              Incoming (text_message "N/A"); Command "done"] in
  upload7 evs None (Context None None None) sample_store
    = Some (None, Context (Some "netflix") (Some "N/A") (Some []), sample_store) ∧
  dict_get "netflix" (stock sample_store) = Some (Legacy ["a"; "b"; "c"]) ∧
  dict_get "netflix" (stock sample_store) ≠ Some (Rich (Some "N/A") []).
Proof. split; [reflexivity | split; [reflexivity | discriminate]]. Qed.

Lemma unban_resets_attempts_witness :
  let out := unban7 (id_update 8 "9") banned_store in
  banned_users out.1.1 = [ADMIN_default] ∧
  attempts_of out.1.1 9 = 0 ∧
  plan_normal <$> users out.1.1 !! 9 = Some plata ∧
  plan_tarjetas <$> users out.1.1 !! 9 = Some sin_plan.
Proof.
  intros out.
  destruct (unban_resets_attempts ADMIN_default Ascii7.int (id_update 8 "9") banned_store 8 9)
    as (_ & _ & _ & _ & Hzero & _ & Hn & Ht & _);
    [reflexivity | lia | reflexivity | reflexivity
    | apply list_elem_of_here | |].
  { apply (bool_decide_unpack (NoDup [9; ADMIN_default])). vm_compute. exact I. }
  split; [reflexivity |]. split; [exact Hzero |]. split; [exact Hn | exact Ht].
Defined.

Lemma check_ban_super_admin_witness :
  (key7 (key_update ADMIN_default "good") banned_store).2 = Activated Normal "Oro 3" 3 ∧
  key7 (key_update 9 "good") banned_store = (banned_store, BannedNotice) ∧
  get7 (get_update 9 "netflix" "1") banned_store = (banned_store, BannedNotice).
Proof.
  destruct (check_ban_super_admin ADMIN_default Ascii7.strip Ascii7.lower Ascii7.int
              (key_update ADMIN_default "good") banned_store) as [Hadmin _];
    [discriminate |].
  destruct Hadmin as (_ & Hkey & _);
    [reflexivity | apply list_elem_of_further, list_elem_of_here |].
  split; [rewrite Hkey; reflexivity |].
  split.
  - destruct (check_ban_super_admin ADMIN_default Ascii7.strip Ascii7.lower Ascii7.int
                (key_update 9 "good") banned_store) as [_ Hother]; [discriminate |].
    apply (Hother 9); [reflexivity | discriminate | apply list_elem_of_here].
  - destruct (check_ban_super_admin ADMIN_default Ascii7.strip Ascii7.lower Ascii7.int
                (get_update 9 "netflix" "1") banned_store) as [_ Hother]; [discriminate |].
    apply (Hother 9); [reflexivity | discriminate | apply list_elem_of_here].
Defined.

(** ** Instances of the further properties *)

Local Abbreviation ban7 := (ban_user_end ADMIN_default Ascii7.int).
Local Abbreviation cmds7 := (run_commands ADMIN_default Ascii7.strip Ascii7.lower Ascii7.int).
Local Abbreviation revoke7 := (revoke_premium_end ADMIN_default Ascii7.int).
Local Abbreviation add_admin7 := (add_admin_end ADMIN_default Ascii7.int).
Local Abbreviation rem_admin7 := (rem_admin_end ADMIN_default Ascii7.int).
Local Abbreviation start7 := (start ADMIN_default).
Local Abbreviation upload_cards7 := (run_add_cards Ascii7.strip Ascii7.lower).

Lemma get_cmd_frame_witness :
  let st' := (get7 (get_update 5 "netflix" "2") sample_store).1 in
  claves st' = claves sample_store ∧ banned_users st' = banned_users sample_store ∧
  users st' !! 6 = users sample_store !! 6 ∧ cards st' = cards sample_store.
Proof.
  intros st'.
  destruct (get_cmd_frame ADMIN_default Ascii7.strip Ascii7.lower Ascii7.int
              (get_update 5 "netflix" "2") sample_store) as (Hc & _ & Hb & _ & Hu & _).
  split; [exact Hc |]. split; [exact Hb |].
  split; [apply Hu; discriminate | reflexivity].
Defined.

Lemma get_cmd_sends_front_witness :
  ∃ kept,
    dict_get "netflix" (stock sample_store) = Some (Legacy (["a"; "b"] ++ kept)) ∧
    dict_get "netflix" (stock (get7 (get_update 5 "netflix" "2") sample_store).1)
      = Some (Legacy kept).
Proof.
  destruct (get_cmd_sends_front ADMIN_default Ascii7.strip Ascii7.lower Ascii7.int
              (get_update 5 "netflix" "2") sample_store) as [Hlist _].
  apply (Hlist Normal "netflix" 2 ["a"; "b"] 2 2). reflexivity.
Defined.

Lemma get_cmd_charges_what_it_sends_witness :
  ∃ uid u u' arg0 arg1 rest cant k sitio,
    effective_user (get_update 6 "hbo" "2") = Some uid ∧
    args (get_update 6 "hbo" "2") = arg0 :: arg1 :: rest ∧ Ascii7.int arg1 = Some cant ∧
    delivery_site (get7 (get_update 6 "hbo" "2") sample_store).2 = Some (k, sitio) ∧
    users sample_store !! uid = Some u ∧
    users (get7 (get_update 6 "hbo" "2") sample_store).1 !! uid = Some u' ∧
    plan_of k u'
      = Plan (nombre (plan_of k u)) (max (plan_of k u)) (usados (plan_of k u) + cant) ∧
    (∀ k', k' ≠ k → plan_of k' u' = plan_of k' u) ∧
    invalid_key_attempts u' = invalid_key_attempts u ∧
    usados (plan_of k u) + cant <= max (plan_of k u) ∧
    delivery_usage (get7 (get_update 6 "hbo" "2") sample_store).2
      = Some (usados (plan_of k u) + cant, max (plan_of k u)) ∧
    (0 <= cant → sent_count (get7 (get_update 6 "hbo" "2") sample_store).2 = cant).
Proof.
  apply (get_cmd_charges_what_it_sends ADMIN_default Ascii7.strip Ascii7.lower Ascii7.int
           (get_update 6 "hbo" "2") sample_store).
  reflexivity.
Defined.

Lemma get_cmd_negative_quantity_served_witness :
  let out := get7 (get_update 5 "netflix" "-5") sample_store in
  out.2 = SentList Normal "netflix" (-5) [] (-5) 2 ∧
  dict_get "netflix" (stock out.1) = Some (Legacy ["a"; "b"; "c"]) ∧
  usados ∘ plan_normal <$> users out.1 !! 5 = Some (-5).
Proof.
  intros out.
  destruct (get_cmd_negative_quantity_served ADMIN_default Ascii7.strip Ascii7.lower Ascii7.int
              5 (get_update 5 "netflix" "-5") sample_store "netflix" "-5" [] (-5) (User plata sin_plan 0)
              "netflix" ["a"; "b"; "c"]) as (Hr & Hp & Hu & _);
    [reflexivity | split; [lia | right; apply not_elem_of_nil] | reflexivity | reflexivity
    | lia | reflexivity | discriminate | vm_compute; discriminate | reflexivity | discriminate |].
  split; [exact Hr |]. split; [exact Hp | exact Hu].
Defined.

Lemma banned_user_changes_nothing_witness :
  run7 [Redeem (key_update 9 "good"); Fetch (get_update 9 "netflix" "1")] banned_store
    = (banned_store, [BannedNotice; BannedNotice]).
Proof.
  apply (banned_user_changes_nothing ADMIN_default Ascii7.strip Ascii7.lower Ascii7.int 9
           [Redeem (key_update 9 "good"); Fetch (get_update 9 "netflix" "1")] banned_store);
    [discriminate | apply list_elem_of_here | repeat constructor].
Defined.

Lemma bans_and_attempts_only_grow_witness :
  let ops := [Redeem (key_update 9 "bad"); Redeem (key_update ADMIN_default "good")] in
  9 ∈ banned_users (run7 ops banned_store).1 ∧
  attempts_of banned_store 9 <= attempts_of (run7 ops banned_store).1 9.
Proof.
  intros ops.
  destruct (bans_and_attempts_only_grow ADMIN_default Ascii7.strip Ascii7.lower Ascii7.int
              ops banned_store 9) as [Hb Ha].
  split; [apply Hb, list_elem_of_here | exact Ha].
Defined.

Lemma ban_user_end_effect_witness :
  let st' := (ban7 (id_update 8 "5") banned_store).1.1 in
  banned_users st' = [9; ADMIN_default; 5] ∧
  key7 (key_update 5 "good") st' = (st', BannedNotice) ∧
  get7 (get_update 5 "netflix" "1") st' = (st', BannedNotice) ∧
  (ban7 (id_update 5 "6") sample_store).1.1 = sample_store.
Proof.
  intros st'.
  destruct (ban_user_end_effect ADMIN_default Ascii7.strip Ascii7.lower Ascii7.int
              (id_update 8 "5") banned_store 8 5) as [_ Hadmin]; [reflexivity | reflexivity |].
  destruct Hadmin as [Est Hrej]; [lia | reflexivity | |].
  { intros H. repeat (apply elem_of_cons in H as [H | H]; [discriminate H |]).
    by apply elem_of_nil in H. }
  fold st' in Est, Hrej.
  destruct (Hrej ltac:(discriminate) (key_update 5 "good")) as [Hk _]; [reflexivity |].
  destruct (Hrej ltac:(discriminate) (get_update 5 "netflix" "1")) as [_ Hg]; [reflexivity |].
  destruct (ban_user_end_effect ADMIN_default Ascii7.strip Ascii7.lower Ascii7.int
              (id_update 5 "6") sample_store 5 6) as [Hno _]; [reflexivity | reflexivity |].
  split; [by rewrite Est |]. split; [exact Hk |]. split; [exact Hg |].
  apply Hno. reflexivity.
Defined.


Lemma unban_then_three_attempts_witness :
  let st' := (unban7 (id_update 8 "9") banned_store).1.1 in
  let bad := key_update 9 "bad" in
  (run7 [Redeem bad; Redeem bad; Redeem bad] st').2 = [InvalidKey 2; InvalidKey 1; Banned] ∧
  9 ∈ banned_users (run7 [Redeem bad; Redeem bad; Redeem bad] st').1.
Proof.
  intros st' bad.
  assert (Hbad : unknown_key_update Ascii7.strip banned_store 9 bad).
  { split; [reflexivity |]. exists "bad", []. repeat split; reflexivity. }
  destruct (unban_then_three_attempts ADMIN_default Ascii7.strip Ascii7.lower Ascii7.int
              (id_update 8 "9") bad bad bad banned_store 8 9) as (_ & Hr & Hb);
    [reflexivity | lia | reflexivity | reflexivity | lia | apply list_elem_of_here
    | apply (bool_decide_unpack (NoDup [9; ADMIN_default])); vm_compute; exact I
    | exact Hbad | exact Hbad | exact Hbad |].
  split; [exact Hr | exact Hb].
Defined.

Lemma upload_writes_only_on_done_witness :
  match upload7 [Callback "addstock_start"; Incoming (text_message "spotify");
                 Incoming (text_message "usar VPN"); Incoming two_accounts;
                 Command "cancel"] None (Context None None None) sample_store with
  | Some (_, _, st') => st' = sample_store
  | None => False
  end.
Proof.
  destruct (upload7 _ None (Context None None None) sample_store)
    as [[[s c] st']|] eqn:E.
  - refine (proj1 (upload_writes_only_on_done Ascii7.strip Ascii7.lower _ None
                     (Context None None None) sample_store _) s c st' E).
    intros H. repeat (apply elem_of_cons in H as [H | H]; [discriminate H |]).
    by apply elem_of_nil in H.
  - vm_compute in E. discriminate E.
Defined.

Lemma text_accounts_are_lines_witness :
  let s := "acc1" +:+ line_break +:+ "  " +:+ line_break +:+ " acc2 " in
  split_lines s = ["acc1"; "  "; " acc2 "] ∧
  turn_accounts Ascii7.strip (text_message s) = [cuenta "acc1"; cuenta "acc2"] ∧
  receive_accounts Ascii7.strip (text_message s) (Context None None (Some [cuenta "acc0"]))
    = Some (Context None None (Some [cuenta "acc0"; cuenta "acc1"; cuenta "acc2"]),
            AccountsAdded 2, AWAITING_STOCK_ACCOUNTS).
Proof.
  intros s.
  destruct (text_accounts_are_lines Ascii7.strip s) as (Hadded & _ & _ & _ & Hctx);
    [reflexivity |].
  destruct (Hctx (Context None None (Some [cuenta "acc0"])) [cuenta "acc0"])
    as (r & Hr & Hn); [reflexivity |].
  split; [reflexivity |]. split; [exact Hadded |].
  rewrite Hr, Hn; [reflexivity | discriminate].
Defined.

Lemma upload_then_get_witness :
  ∃ ctx' st',
    upload7 [Callback "addstock_start"; Incoming (text_message "Spotify");
             Incoming (text_message "usar VPN"); Incoming two_accounts;
             Incoming (text_message "acc3"); Command "done"]
      None (Context None None None) sample_store = Some (None, ctx', st') ∧
    (get7 (get_update 5 "SPOTIFY" "1") st').2
      = SentItems Normal "spotify" [cuenta "acc1"] "usar VPN" 1 2 ∧
    dict_get "spotify" (stock (get7 (get_update 5 "SPOTIFY" "1") st').1)
      = Some (Rich (Some "usar VPN") [cuenta "acc2"; cuenta "acc3"]).
Proof.
  apply (upload_then_get ADMIN_default Ascii7.strip Ascii7.lower Ascii7.int
           (text_message "Spotify") (text_message "usar VPN")
           [two_accounts; text_message "acc3"] (Context None None None) sample_store
           5 (get_update 5 "SPOTIFY" "1") "SPOTIFY" "1" [] (User plata sin_plan 0)
           (cuenta "acc1") [cuenta "acc2"; cuenta "acc3"]);
    try reflexivity; try discriminate.
  - split; [discriminate | right; apply not_elem_of_nil].
  - intros k Hk. cbn in Hk.
    repeat (apply elem_of_cons in Hk as [-> | Hk]; [discriminate |]).
    by apply elem_of_nil in Hk.
Defined.

Lemma key_files_stay_apart_witness :
  let cs := [MakeKeys (GenCmd (λ _, "AAAA")) (id_update ADMIN_default "/gen");
             MakeKeys (GenCardsKeyCmd "BBBB") (id_update ADMIN_default "/gencardskey");
             ByUser (Redeem (key_update 6 "paublte-tarjeta-BBBB"))] in
  keys_apart (cmds7 cs fresh_store) ∧
  (claves (cmds7 cs fresh_store) !! "paublte-gen1-AAAA" = None
   ∨ card_keys (cmds7 cs fresh_store) !! "paublte-gen1-AAAA" = None).
Proof.
  intros cs.
  destruct (key_files_stay_apart ADMIN_default Ascii7.strip Ascii7.lower Ascii7.int
              cs fresh_store) as [Hk Hn].
  - split; intros k [x Hx]; simpl in Hx; by rewrite lookup_empty in Hx.
  - split; [exact Hk | apply Hn].
Defined.

Lemma uses_bound_with_new_keys_witness :
  let cs := [MakeKeys (SuperProKeyCmd "ABCD") (id_update ADMIN_default "/superprokey");
             ByUser (Redeem (key_update 6 "paublte-superpro-ABCD"));
             ByUser (Fetch (get_update 6 "netflix" "1"))] in
  plans_ok (cmds7 cs fresh_store) ∧ keys_ok (cmds7 cs fresh_store).
Proof.
  intros cs.
  apply (uses_bound_with_new_keys ADMIN_default Ascii7.strip Ascii7.lower Ascii7.int
           cs fresh_store).
  - intros uid u Hu. simpl in Hu. apply lookup_singleton_Some in Hu as [_ <-].
    simpl. lia.
  - intros k name maxi [Hl | Hl]; simpl in Hl; by rewrite lookup_empty in Hl.
Defined.

Lemma generated_key_redeems_witness :
  let st' := cmds7 [MakeKeys (SuperProKeyCmd "ABCD") (id_update ADMIN_default "/superprokey")]
               fresh_store in
  (key7 (key_update 6 "paublte-superpro-ABCD") st').2 = Activated Normal "SuperPro" 1000 ∧
  plan_normal <$> users (key7 (key_update 6 "paublte-superpro-ABCD") st').1 !! 6
    = Some (Plan "SuperPro" 1000 0).
Proof.
  intros st'.
  apply (generated_key_redeems ADMIN_default Ascii7.strip Ascii7.lower Ascii7.int
           (SuperProKeyCmd "ABCD") (id_update ADMIN_default "/superprokey") fresh_store
           ADMIN_default Normal "paublte-superpro-ABCD" "SuperPro" 1000
           6 (key_update 6 "paublte-superpro-ABCD") "paublte-superpro-ABCD" []);
    try reflexivity; try discriminate.
  - split; intros k [x Hx]; simpl in Hx; by rewrite lookup_empty in Hx.
  - constructor.
  - split; [discriminate | right; apply not_elem_of_nil].
  - intros [Hname _]. by apply Hname.
Defined.

Lemma revoke_premium_end_effect_witness :
  let st' := (revoke7 (id_update ADMIN_default "5") sample_store).1.1 in
  st' = save_users (<[5 := User sin_plan sin_plan 0]> (users sample_store)) sample_store ∧
  (get7 (get_update 5 "netflix" "1") st').1 = st' ∧
  is_delivery (get7 (get_update 5 "netflix" "1") st').2 = false ∧
  revoke7 (id_update ADMIN_default "cinco") sample_store
    = (sample_store, [RevokeNotAnId], NameError "AWAITING_ID_TO_REVOKE").
Proof.
  intros st'.
  destruct (revoke_premium_end_effect ADMIN_default Ascii7.strip Ascii7.lower Ascii7.int
              (id_update ADMIN_default "5") sample_store ADMIN_default)
    as (_ & _ & Hknown); [reflexivity | discriminate | reflexivity |].
  destruct (Hknown 5 (User plata sin_plan 0)) as [Est Hget]; [reflexivity | reflexivity |].
  fold st' in Est, Hget.
  destruct (Hget (get_update 5 "netflix" "1")) as [Hno Hsame]; [reflexivity |].
  destruct (revoke_premium_end_effect ADMIN_default Ascii7.strip Ascii7.lower Ascii7.int
              (id_update ADMIN_default "cinco") sample_store ADMIN_default)
    as (Herr & _); [reflexivity | discriminate | reflexivity |].
  split; [exact Est |]. split; [exact Hsame |].
  split; [exact Hno | apply Herr; reflexivity].
Defined.

Lemma promote_then_degrade_witness :
  let st1 := (add_admin7 (id_update ADMIN_default "5") sample_store).1.1 in
  let st2 := (rem_admin7 (id_update ADMIN_default "5") st1).1.1 in
  is_admin ADMIN_default st1 5 = true ∧ st2 = sample_store ∧
  (add_admin7 (id_update 5 "6") sample_store).1.1 = sample_store ∧
  (rem_admin7 (id_update ADMIN_default "7590578210") sample_store).1.1 = sample_store.
Proof.
  intros st1 st2.
  destruct (promote_then_degrade ADMIN_default Ascii7.int sample_store)
    as (Hother & Hpair & Hself); [discriminate |].
  destruct (Hpair (id_update ADMIN_default "5") (id_update ADMIN_default "5") 5)
    as (_ & H1 & H2); try reflexivity; [apply not_elem_of_nil | discriminate |].
  split; [exact H1 |]. split; [exact H2 |].
  split; [apply (Hother (id_update 5 "6") 5); [reflexivity | discriminate] |].
  apply Hself. reflexivity.
Defined.

Lemma start_effect_witness :
  let st' := (start7 (id_update 7 "/start") sample_store).1.1 in
  users st' !! 7 = Some new_user ∧ users st' !! 5 = users sample_store !! 5 ∧
  (start7 (id_update 7 "/start") sample_store).1.2 = [Welcome 7 false] ∧
  (start7 (id_update 7 "/start") st').1.1 = st' ∧
  (start7 (id_update 5 "/start") sample_store).1.1 = sample_store.
Proof.
  intros st'.
  destruct (start_effect ADMIN_default (id_update 7 "/start") sample_store) as [_ H7].
  destruct (H7 7) as (Hnew & Hothers & _ & Hmsg & Hagain);
    [reflexivity | split; [discriminate | right; apply not_elem_of_nil] |].
  destruct (start_effect ADMIN_default (id_update 5 "/start") sample_store) as [_ H5].
  destruct (H5 5) as (_ & _ & Hsame & _);
    [reflexivity | split; [discriminate | right; apply not_elem_of_nil] |].
  split; [exact Hnew |]. split; [apply Hothers; discriminate |].
  split; [exact Hmsg |]. split; [exact Hagain |].
  apply Hsame. by eexists.
Defined.

Lemma broadcast_report_witness :
  receive_broadcast_content (λ uid, uid =? 5) [6; 5] (text_message "hola") sample_store
    = ([BroadcastStarted 2; BroadcastSent 5; BroadcastDone 1 1], ConversationHandler_END) ∧
  NoDup (List.filter (λ uid, uid =? 5) [6; 5]) ∧
  List.filter (λ uid, uid =? 5) [6; 5] ++ List.filter (λ uid, negb (uid =? 5)) [6; 5]
    ≡ₚ [6; 5].
Proof.
  destruct (broadcast_report (λ uid, uid =? 5) [6; 5] (text_message "hola") sample_store)
    as [_ H].
  - apply (bool_decide_unpack (NoDup [6; 5])). vm_compute. exact I.
  - intros uid. unfold sample_store. cbn [users]. split.
    + intros Hin. repeat (apply elem_of_cons in Hin as [-> | Hin]); [by eexists .. |].
      by apply elem_of_nil in Hin.
    + intros [r Hr]. apply lookup_insert_Some in Hr as [[<- _] | [_ Hr]];
        [apply list_elem_of_further, list_elem_of_here |].
      apply lookup_singleton_Some in Hr as [<- _]. apply list_elem_of_here.
  - destruct H as (Hout & Hnd & _ & _ & Hperm & _); [reflexivity |].
    split; [exact Hout |]. split; [exact Hnd | exact Hperm].
Defined.

Lemma users_cmd_send_all_witness :
  users_cmd_send eleven_lines
    = [UsersHeader;
       UsersChunk ["u1"; "u2"; "u3"; "u4"; "u5"; "u6"; "u7"; "u8"; "u9"; "u10"];
       UsersChunk ["u11"]].
Proof.
  destruct (users_cmd_send_all eleven_lines) as (_ & _ & _ & H).
  rewrite H; [reflexivity | discriminate].
Defined.

Lemma stock_counts_after_get_witness :
  ∃ k sitio n,
    delivery_site (get7 (get_update 5 "netflix" "2") sample_store).2 = Some (k, sitio) ∧
    dict_get sitio (stock_counts (pools k sample_store)) = Some n ∧
    dict_get sitio (stock_counts (pools k (get7 (get_update 5 "netflix" "2") sample_store).1))
      = Some (n - sent_count (get7 (get_update 5 "netflix" "2") sample_store).2) ∧
    (∀ k' site, (k', site) ≠ (k, sitio) →
       dict_get site (stock_counts (pools k' (get7 (get_update 5 "netflix" "2") sample_store).1))
         = dict_get site (stock_counts (pools k' sample_store))).
Proof.
  apply (stock_counts_after_get ADMIN_default Ascii7.strip Ascii7.lower Ascii7.int
           (get_update 5 "netflix" "2") sample_store).
  reflexivity.
Defined.

Lemma key_cmd_frame_witness :
  let st' := (key7 (key_update 5 "good") sample_store).1 in
  stock st' = stock sample_store ∧ users st' !! 6 = users sample_store !! 6 ∧
  card_keys st' !! "card" = card_keys sample_store !! "card".
Proof.
  intros st'.
  destruct (key_cmd_frame ADMIN_default Ascii7.strip (key_update 5 "good") sample_store)
    as (Hs & _ & _ & Hu & Hk).
  split; [exact Hs |]. split; [apply Hu; discriminate |].
  apply Hk. intros arg0 rest [= <- _]. discriminate.
Defined.

Lemma finish_add_cards_replaces_witness :
  ∃ st',
    upload_cards7 [Callback "addcards_start"; Incoming (text_message "BBVA");
                   Incoming (text_message "usar en tienda"); Incoming two_accounts;
                   Command "done"] None (CardsContext None None None) sample_store
      = Some (None, CardsContext (Some "bbva") (Some "usar en tienda")
                      (Some [cuenta "acc1"; cuenta "acc2"]), st') ∧
    dict_get "bbva" (cards st')
      = Some (Rich (Some "usar en tienda") [cuenta "acc1"; cuenta "acc2"]) ∧
    dict_get "visa" (cards st') = dict_get "visa" (cards sample_store) ∧
    stock st' = stock sample_store.
Proof.
  destruct (finish_add_cards_replaces Ascii7.strip Ascii7.lower (text_message "BBVA")
              (text_message "usar en tienda") [two_accounts]
              (CardsContext None None None) sample_store)
    as (st' & Hrun & Hsave & Hfull & _); [reflexivity | reflexivity |].
  destruct Hfull as [Hsite Hothers]; [discriminate |].
  exists st'. split; [exact Hrun |]. split; [exact Hsite |].
  split; [apply Hothers; discriminate | by rewrite Hsave].
Defined.

Lemma upload_cards_then_get_witness :
  ∃ ctx' st',
    upload_cards7 [Callback "addcards_start"; Incoming (text_message "BBVA");
                   Incoming (text_message "usar en tienda"); Incoming two_accounts;
                   Command "done"] None (CardsContext None None None) sample_store
      = Some (None, ctx', st') ∧
    (get7 (get_update 6 "bbva" "1") st').2
      = SentItems Tarjetas "bbva" [cuenta "acc1"] "usar en tienda" 1 5 ∧
    dict_get "bbva" (cards (get7 (get_update 6 "bbva" "1") st').1)
      = Some (Rich (Some "usar en tienda") [cuenta "acc2"]) ∧
    plan_normal <$> users (get7 (get_update 6 "bbva" "1") st').1 !! 6 = Some oro.
Proof.
  apply (upload_cards_then_get ADMIN_default Ascii7.strip Ascii7.lower Ascii7.int
           (text_message "BBVA") (text_message "usar en tienda") [two_accounts]
           (CardsContext None None None) sample_store
           6 (get_update 6 "bbva" "1") "bbva" "1" [] (User oro tarjetas5 0)
           (cuenta "acc1") [cuenta "acc2"]);
    try reflexivity; try discriminate.
  - split; [discriminate | right; apply not_elem_of_nil].
  - intros k Hk. cbn in Hk.
    repeat (apply elem_of_cons in Hk as [-> | Hk]; [discriminate |]).
    by apply elem_of_nil in Hk.
  - intros k Hk. cbn in Hk.
    repeat (apply elem_of_cons in Hk as [-> | Hk]; [discriminate |]).
    by apply elem_of_nil in Hk.
Defined.
